(** * A shallow embedding of the MCP database server dispatcher

    The development follows the class [DatabaseMCPServer] (its
    constructor, [checkReadOnly], the ListTools handler and the CallTool
    handler), the class [LDAPAdapter] ([connect], [bind], [unbind],
    [authenticate]) and the class [SQLiteAdapter] (its constructor and
    [execute]).

    JavaScript values are a tree datatype, asynchronous methods are
    computations in a state-and-exception monad, and the native drivers
    (ldapts, better-sqlite3) and the active adapter are oracles that the
    computations consult and whose invocations are recorded. *)

From Stdlib Require Import String Ascii List ZArith Bool Lia.
Import ListNotations.
Open Scope string_scope.
Set Warnings "-register-all".

(* ================================================================== *)
(** ** JavaScript values and the string methods the server uses *)

Module JS.

(** JSON-like JavaScript values.  Numbers are restricted to integers: the
    dispatcher only produces integer constants and lengths and only tests
    numbers for truthiness. *)
Inductive Value : Type :=
| Undefined
| Null
| Bool (b : bool)
| Num (n : Z)
| Str (s : string)
| Arr (elements : list Value)
| Obj (fields : list (string * Value)).

(** A plain object, as produced by JSON parsing: own properties in
    insertion order. *)
Definition Object : Type := list (string * Value).

(** [o.k] on a plain object: the own property, [undefined] when absent. *)
Fixpoint get (o : Object) (k : string) : Value :=
  match o with
  | [] => Undefined
  | (k', v) :: rest => if String.eqb k' k then v else get rest k
  end.

(** ToBoolean. *)
Definition truthy (v : Value) : bool :=
  match v with
  | Undefined | Null => false
  | Bool b => b
  | Num n => negb (Z.eqb n 0)
  | Str s => negb (String.eqb s "")
  | Arr _ | Obj _ => true
  end.

(** [a || b]. *)
Definition or (a b : Value) : Value := if truthy a then a else b.

(** A destructuring default, [{ k = d }]: the default applies to
    [undefined] only. *)
Definition default (v d : Value) : Value :=
  match v with Undefined => d | _ => v end.

(** The JSON-schema type names used by the tool declarations. *)
Definition has_type (v : Value) (ty : string) : bool :=
  match v with
  | Str _ => String.eqb ty "string"
  | Num _ => String.eqb ty "number"
  | Bool _ => String.eqb ty "boolean"
  | Arr _ => String.eqb ty "array"
  | Obj _ => String.eqb ty "object"
  | Undefined | Null => false
  end.

(** White space recognised by [String.prototype.trim] among the code units
    below 128: TAB, LF, VT, FF, CR and SPACE.  On strings of such code
    units ([is_ascii]) the functions [trim], [toUpperCase] and
    [toLowerCase] below are JavaScript's; larger code units are left alone
    by them, which JavaScript does not always do (it trims U+00A0 and
    upper-cases U+017F to S), so a statement whose truth would depend on
    what they do to such code units takes [is_ascii] as a hypothesis. *)
Definition is_whitespace (c : ascii) : bool :=
  let n := nat_of_ascii c in
  ((9 <=? n) && (n <=? 13))%nat || (n =? 32)%nat.

Fixpoint trimStart (s : string) : string :=
  match s with
  | EmptyString => EmptyString
  | String c rest => if is_whitespace c then trimStart rest else s
  end.

Fixpoint reverse (s acc : string) : string :=
  match s with
  | EmptyString => acc
  | String c rest => reverse rest (String c acc)
  end.

Definition trimEnd (s : string) : string :=
  reverse (trimStart (reverse s EmptyString)) EmptyString.

Definition trim (s : string) : string := trimEnd (trimStart s).

Definition upper (c : ascii) : ascii :=
  let n := nat_of_ascii c in
  if ((97 <=? n) && (n <=? 122))%nat then ascii_of_nat (n - 32) else c.

Fixpoint toUpperCase (s : string) : string :=
  match s with
  | EmptyString => EmptyString
  | String c rest => String (upper c) (toUpperCase rest)
  end.

(** Whether every code unit of a string is below 128. *)
Fixpoint is_ascii (s : string) : bool :=
  match s with
  | EmptyString => true
  | String c rest => (nat_of_ascii c <? 128)%nat && is_ascii rest
  end.

(** [s.startsWith(p)]. *)
Definition startsWith (s p : string) : bool := String.prefix p s.

(** [s.replace(p, "")] when [s.startsWith(p)]: the first occurrence is
    the prefix itself. *)
Definition dropPrefix (s p : string) : string :=
  String.substring (String.length p) (String.length s - String.length p) s.

(** [s.split(/\s+/)[0]] on a trimmed string: the characters before the
    first white space. *)
Fixpoint firstWord (s : string) : string :=
  match s with
  | EmptyString => EmptyString
  | String c rest =>
      if is_whitespace c then EmptyString else String c (firstWord rest)
  end.

(** What a [throw] carries: an [Error] object with its [message], or some
    other value, kept through the text that [String(value)] gives. *)
Inductive Thrown : Type :=
| Error (message : string)
| NonError (as_string : string).

(** The run-time faults the handler code can raise by itself.  They are
    [TypeError]s whose message text is chosen by the engine. *)
Inductive Fault : Type :=
| CannotDestructure (property : string)      (* const { p } = undefined *)
| ReadOfNullish (property : string)          (* undefined.p, const { p = d } = undefined *)
| ReadOfNull (property : string)             (* null.p *)
| NotAFunction (callee : string).            (* x.p() where x.p is no function *)

(** [s.includes(p)]. *)
Fixpoint includes (s p : string) : bool :=
  String.prefix p s
  || match s with
     | EmptyString => false
     | String _ rest => includes rest p
     end.

Definition lower (c : ascii) : ascii :=
  let n := nat_of_ascii c in
  if ((65 <=? n) && (n <=? 90))%nat then ascii_of_nat (n + 32) else c.

Fixpoint toLowerCase (s : string) : string :=
  match s with
  | EmptyString => EmptyString
  | String c rest => String (lower c) (toLowerCase rest)
  end.

(** [s.split(sep)] for a one-character separator: never empty, and one
    piece more than there are separators. *)
Fixpoint split (sep : ascii) (s : string) : list string :=
  match s with
  | EmptyString => [EmptyString]
  | String c rest =>
      if Ascii.eqb c sep then EmptyString :: split sep rest
      else match split sep rest with
           | [] => [String c EmptyString]
           | piece :: pieces => String c piece :: pieces
           end
  end.

(** [pieces.join(sep)]. *)
Definition join (sep : string) (pieces : list string) : string :=
  String.concat sep pieces.

(** An ASCII letter, as [[A-Z]] matches under the [i] flag. *)
Definition is_letter (c : ascii) : bool :=
  let n := nat_of_ascii c in
  ((65 <=? n) && (n <=? 90))%nat || ((97 <=? n) && (n <=? 122))%nat.

(** [s.match(/^[A-Z]+=/i)] finds something: one or more letters at the
    start, followed by an equals sign. *)
Fixpoint letters_then_equals (s : string) : bool :=
  match s with
  | EmptyString => false
  | String c rest =>
      is_letter c
      && match rest with
         | String "="%char _ => true
         | _ => letters_then_equals rest
         end
  end.

(** [o.k = v] on a plain object: an existing property keeps its place. *)
Fixpoint set (o : Object) (k : string) (v : Value) : Object :=
  match o with
  | [] => [(k, v)]
  | (k', v') :: rest =>
      if String.eqb k' k then (k', v) :: rest else (k', v') :: set rest k v
  end.

(** [{ ...target, ...source }]. *)
Definition spread (target source : Object) : Object :=
  fold_left (fun acc p => set acc (fst p) (snd p)) source target.

(** [s.replace(/p/g, r)] for a literal pattern [p] that is not empty: the
    matches are taken from left to right and do not overlap.  [skip]
    counts the characters of a match still to be passed over. *)
Fixpoint replace_from (p r : string) (skip : nat) (s : string) : string :=
  match s with
  | EmptyString => EmptyString
  | String c rest =>
      match skip with
      | S k => replace_from p r k rest
      | O =>
          if String.prefix p s
          then r ++ replace_from p r (String.length p - 1) rest
          else String c (replace_from p r 0 rest)
      end
  end.

Definition replaceAll (s p r : string) : string := replace_from p r 0 s.

(** A number that [parseInt] gives. *)
Inductive Number : Type :=
| NaN
| Finite (n : Z).

Definition digit (c : ascii) : option Z :=
  let n := nat_of_ascii c in
  if ((48 <=? n) && (n <=? 57))%nat then Some (Z.of_nat (n - 48)) else None.

(** The value of the longest prefix of decimal digits, if there is one. *)
Fixpoint digits (s : string) (acc : option Z) : option Z :=
  match s with
  | EmptyString => acc
  | String c rest =>
      match digit c with
      | Some d =>
          digits rest
            (Some (10 * match acc with Some a => a | None => 0 end + d)%Z)
      | None => acc
      end
  end.

(** [parseInt(s, 10)]: leading white space goes, a sign may follow, then
    the digits count up to the first character that is none.  The value is
    the exact integer (as JavaScript has it below 2^53). *)
Definition parseInt (s : string) : Number :=
  let t := trimStart s in
  let '(negative, body) :=
    match t with
    | String "-"%char rest => (true, rest)
    | String "+"%char rest => (false, rest)
    | _ => (false, t)
    end in
  match digits body None with
  | Some n => Finite (if negative then (- n)%Z else n)
  | None => NaN
  end.

(** [s.slice(1)]. *)
Definition slice1 (s : string) : string :=
  match s with
  | EmptyString => EmptyString
  | String _ rest => rest
  end.

(** The double-quote character, as a string. *)
Definition quote : string := String (ascii_of_nat 34) EmptyString.

(** Every double quote of [s] doubled, as [replace] with the global quote
    pattern does. *)
Fixpoint double_quotes (s : string) : string :=
  match s with
  | EmptyString => EmptyString
  | String c rest =>
      if Ascii.eqb c (ascii_of_nat 34)
      then String c (String c (double_quotes rest))
      else String c (double_quotes rest)
  end.

End JS.

(** The two pieces of the JavaScript engine that the server relies on and
    that the source does not contain.  Values are trees, so serializing
    them does not throw; for [undefined] the model keeps a string where
    [JSON.stringify] returns [undefined]. *)
Class Runtime : Type := {
  (** [JSON.stringify(v, null, 2)] *)
  JSON_stringify : JS.Value -> string;
  (** the [message] of the [TypeError] raised for a fault *)
  fault_message : JS.Fault -> string
}.

(** [process.env]. *)
Definition Env : Type := string -> option string.

(** [process.env.K === s] and [process.env.K !== s]. *)
Definition env_is (env : Env) (k s : string) : bool :=
  match env k with
  | Some v => String.eqb v s
  | None => false
  end.

Definition env_isnt (env : Env) (k s : string) : bool := negb (env_is env k s).

(* ================================================================== *)
(** ** Computations: state passing with exceptions *)

Definition Eff (S A : Type) : Type := S -> (JS.Thrown + A) * S.

Definition ret {S A} (a : A) : Eff S A := fun s => (inr a, s).

Definition throw {S A} (e : JS.Thrown) : Eff S A := fun s => (inl e, s).

Definition bind {S A B} (m : Eff S A) (k : A -> Eff S B) : Eff S B :=
  fun s =>
    match m s with
    | (inl e, s') => (inl e, s')
    | (inr a, s') => k a s'
    end.

(** [try { m } catch (error) { h error }]. *)
Definition try_catch {S A} (m : Eff S A) (h : JS.Thrown -> Eff S A) : Eff S A :=
  fun s =>
    match m s with
    | (inl e, s') => h e s'
    | (inr a, s') => (inr a, s')
    end.

Declare Scope eff_scope.
Delimit Scope eff_scope with eff.
Notation "x <- m ;; k" := (bind m (fun x => k))
  (at level 61, m at next level, right associativity) : eff_scope.
Notation "' pat <- m ;; k" := (bind m (fun x => match x with pat => k end))
  (at level 61, pat pattern, m at next level, right associativity) : eff_scope.
Notation "m ;; k" := (bind m (fun _ => k))
  (at level 61, right associativity) : eff_scope.
Open Scope eff_scope.

(* ================================================================== *)
(** ** The tool catalogue (ListTools handler) *)

Module Tool.

(** A tool declaration: [name], [description] and, of its [inputSchema],
    the declared [properties] with their JSON type and the [required]
    list. *)
Record t : Type := make {
  name : string;
  description : string;
  properties : list (string * string);
  required : list string
}.

End Tool.

Definition sql_tools : list Tool.t :=
  [ Tool.make "query"
      "Execute a SELECT SQL query and return results"
      [("sql", "string")]
      ["sql"]
  ; Tool.make "execute_sql"
      "Execute any SQL command (INSERT, UPDATE, DELETE, CREATE, etc.)"
      [("sql", "string")]
      ["sql"]
  ; Tool.make "list_tables"
      "List all tables in the database"
      [("schema", "string")]
      []
  ; Tool.make "describe_table"
      "Get detailed schema information for a table"
      [("table", "string"); ("schema", "string")]
      ["table"]
  ; Tool.make "list_schemas"
      "List all schemas in the database"
      []
      []
  ; Tool.make "explain_query"
      "Get query execution plan using EXPLAIN"
      [("sql", "string")]
      ["sql"]
  ; Tool.make "get_indexes"
      "Get all indexes for a table"
      [("table", "string"); ("schema", "string")]
      ["table"]
  ; Tool.make "get_foreign_keys"
      "Get all foreign keys for a table"
      [("table", "string"); ("schema", "string")]
      ["table"]
  ; Tool.make "get_table_size"
      "Get table size information (size, row count)"
      [("table", "string"); ("schema", "string")]
      ["table"]
  ; Tool.make "list_views"
      "List all views in a schema"
      [("schema", "string")]
      []
  ; Tool.make "describe_view"
      "Get view definition"
      [("view", "string"); ("schema", "string")]
      ["view"]
  ; Tool.make "search_tables"
      "Search tables by name pattern"
      [("pattern", "string"); ("schema", "string")]
      ["pattern"]
  ; Tool.make "get_table_stats"
      "Get detailed table statistics (row count, sizes)"
      [("table", "string"); ("schema", "string")]
      ["table"] ].

Definition redis_tools : list Tool.t :=
  [ Tool.make "redis_get"
      "Get value of a Redis key"
      [("key", "string")]
      ["key"]
  ; Tool.make "redis_set"
      "Set value of a Redis key"
      [("key", "string"); ("value", "string"); ("ttl", "number")]
      ["key"; "value"]
  ; Tool.make "redis_del"
      "Delete one or more Redis keys"
      [("key", "string")]
      ["key"]
  ; Tool.make "redis_keys"
      "Find all keys matching a pattern"
      [("pattern", "string")]
      ["pattern"]
  ; Tool.make "redis_exists"
      "Check if a key exists"
      [("key", "string")]
      ["key"]
  ; Tool.make "redis_ttl"
      "Get time to live of a key"
      [("key", "string")]
      ["key"]
  ; Tool.make "redis_expire"
      "Set expiration time for a key"
      [("key", "string"); ("seconds", "number")]
      ["key"; "seconds"]
  ; Tool.make "redis_type"
      "Get type of a Redis key"
      [("key", "string")]
      ["key"]
  ; Tool.make "redis_dbsize"
      "Get number of keys in current database"
      []
      []
  ; Tool.make "redis_info"
      "Get Redis server information"
      [("section", "string")]
      []
  ; Tool.make "redis_hget"
      "Get value from a hash field"
      [("key", "string"); ("field", "string")]
      ["key"; "field"]
  ; Tool.make "redis_hset"
      "Set value in a hash field"
      [("key", "string"); ("field", "string"); ("value", "string")]
      ["key"; "field"; "value"]
  ; Tool.make "redis_hgetall"
      "Get all fields and values from a hash"
      [("key", "string")]
      ["key"]
  ; Tool.make "redis_lrange"
      "Get range of elements from a list"
      [("key", "string"); ("start", "number"); ("stop", "number")]
      ["key"; "start"; "stop"]
  ; Tool.make "redis_smembers"
      "Get all members of a set"
      [("key", "string")]
      ["key"]
  ; Tool.make "redis_zrange"
      "Get range of members from a sorted set"
      [("key", "string"); ("start", "number"); ("stop", "number"); ("with_scores", "boolean")]
      ["key"; "start"; "stop"] ].

Definition mongo_tools : list Tool.t :=
  [ Tool.make "mongo_find"
      "Find documents in a MongoDB collection"
      [("collection", "string"); ("filter", "object"); ("limit", "number"); ("skip", "number")]
      ["collection"]
  ; Tool.make "mongo_find_one"
      "Find one document in a MongoDB collection"
      [("collection", "string"); ("filter", "object")]
      ["collection"]
  ; Tool.make "mongo_insert_one"
      "Insert one document into a MongoDB collection"
      [("collection", "string"); ("document", "object")]
      ["collection"; "document"]
  ; Tool.make "mongo_insert_many"
      "Insert multiple documents into a MongoDB collection"
      [("collection", "string"); ("documents", "array")]
      ["collection"; "documents"]
  ; Tool.make "mongo_update_one"
      "Update one document in a MongoDB collection"
      [("collection", "string"); ("filter", "object"); ("update", "object")]
      ["collection"; "filter"; "update"]
  ; Tool.make "mongo_update_many"
      "Update multiple documents in a MongoDB collection"
      [("collection", "string"); ("filter", "object"); ("update", "object")]
      ["collection"; "filter"; "update"]
  ; Tool.make "mongo_delete_one"
      "Delete one document from a MongoDB collection"
      [("collection", "string"); ("filter", "object")]
      ["collection"; "filter"]
  ; Tool.make "mongo_delete_many"
      "Delete multiple documents from a MongoDB collection"
      [("collection", "string"); ("filter", "object")]
      ["collection"; "filter"]
  ; Tool.make "mongo_count"
      "Count documents in a MongoDB collection"
      [("collection", "string"); ("filter", "object")]
      ["collection"]
  ; Tool.make "mongo_aggregate"
      "Run aggregation pipeline on a MongoDB collection"
      [("collection", "string"); ("pipeline", "array")]
      ["collection"; "pipeline"]
  ; Tool.make "mongo_list_collections"
      "List all collections in the database"
      []
      []
  ; Tool.make "mongo_get_collection_stats"
      "Get statistics for a MongoDB collection"
      [("collection", "string")]
      ["collection"]
  ; Tool.make "mongo_get_indexes"
      "Get indexes for a MongoDB collection"
      [("collection", "string")]
      ["collection"]
  ; Tool.make "mongo_create_index"
      "Create an index on a MongoDB collection"
      [("collection", "string"); ("keys", "object"); ("options", "object")]
      ["collection"; "keys"]
  ; Tool.make "mongo_get_database_stats"
      "Get statistics for the MongoDB database"
      []
      [] ].

Definition ldap_tools : list Tool.t :=
  [ Tool.make "ldap_search"
      "Search LDAP directory entries"
      [("base", "string"); ("filter", "string"); ("scope", "string"); ("attributes", "array")]
      ["base"; "filter"]
  ; Tool.make "ldap_authenticate"
      "Authenticate a user with DN and password"
      [("dn", "string"); ("password", "string")]
      ["dn"; "password"]
  ; Tool.make "ldap_add"
      "Add a new LDAP entry"
      [("dn", "string"); ("attributes", "object")]
      ["dn"; "attributes"]
  ; Tool.make "ldap_modify"
      "Modify an LDAP entry"
      [("dn", "string"); ("change", "object")]
      ["dn"; "change"]
  ; Tool.make "ldap_delete"
      "Delete an LDAP entry"
      [("dn", "string")]
      ["dn"]
  ; Tool.make "ldap_compare"
      "Compare an attribute value of an LDAP entry"
      [("dn", "string"); ("attribute", "string"); ("value", "string")]
      ["dn"; "attribute"; "value"]
  ; Tool.make "ldap_search_folder_structure"
      "Search for folder structure in LDAP directory (organizational units, containers, domains) and return hierarchical structure"
      [("base", "string"); ("depth", "number"); ("include_entries", "boolean")]
      []
  ; Tool.make "ldap_list_folders"
      "Get a flat list of all folders (OUs, containers, domains) in the LDAP directory"
      [("base", "string")]
      [] ].

(* ================================================================== *)
(** ** The server object *)

(** An adapter as the server sees it: the name of its class
    ([adapter.constructor.name]) and its asynchronous methods, reached by
    name, acting on the adapter's own state. *)
Record Adapter (St : Type) : Type := {
  constructor_name : string;
  invoke : string -> list JS.Value -> Eff St JS.Value
}.
Arguments constructor_name {St} _.
Arguments invoke {St} _ _ _.

(** The fields of [DatabaseMCPServer] (the protocol [server] apart). *)
Record DatabaseMCPServer (St : Type) : Type := {
  adapter : option (Adapter St);
  isRedis : bool;
  isMongo : bool;
  isLDAP : bool;
  readOnly : bool
}.
Arguments adapter {St} _.
Arguments isRedis {St} _.
Arguments isMongo {St} _.
Arguments isLDAP {St} _.
Arguments readOnly {St} _.

(** [new DatabaseMCPServer(adapter)], in the environment [env]. *)
Definition constructor {St} (a : Adapter St) (env : Env) : DatabaseMCPServer St :=
  let adapterType := constructor_name a in
  {| adapter := Some a;
     isRedis := String.eqb adapterType "RedisAdapter";
     isMongo := String.eqb adapterType "MongoAdapter";
     isLDAP := String.eqb adapterType "LDAPAdapter";
     readOnly := env_isnt env "READ_ONLY_MODE" "false"
                 && env_isnt env "READ_ONLY_MODE" "0" |}.

(** The ListTools handler: [tools] after the four conditional pushes. *)
Definition ListTools {St} (this : DatabaseMCPServer St) : list Tool.t :=
  (if negb (isRedis this) && negb (isMongo this) && negb (isLDAP this)
   then sql_tools else [])
  ++ (if isRedis this then redis_tools else [])
  ++ (if isMongo this then mongo_tools else [])
  ++ (if isLDAP this then ldap_tools else []).

(* ================================================================== *)
(** ** The CallTool handler *)

(** The request parameters: [name] and [arguments], the latter an object
    or absent. *)
Module Request.
Record t : Type := make {
  name : string;
  arguments : option JS.Object
}.
End Request.

(** A content item; [text] is [None] when it is [undefined]. *)
Record ContentItem : Type := {
  type : string;
  text : option string
}.

(** The response envelope; [isError] is absent on success. *)
Record Response : Type := {
  content : list ContentItem;
  isError : option bool
}.

(** One adapter invocation: method name and actual arguments. *)
Definition Call : Type := (string * list JS.Value)%type.

(** What a handler run acts on: the adapter's state, and the record of the
    adapter methods invoked so far. *)
Record World (St : Type) : Type := {
  adapter_state : St;
  calls : list Call
}.
Arguments adapter_state {St} _.
Arguments calls {St} _.

(** How a handler's promise settles. *)
Inductive Settled : Type :=
| Resolved (r : Response)
| Rejected (e : JS.Thrown).

(** The [case] labels of the [switch (name)]. *)
Inductive Case : Type :=
| query | execute_sql | list_tables | describe_table | list_schemas
| explain_query | get_indexes | get_foreign_keys | get_table_size
| list_views | describe_view | search_tables | get_table_stats
| redis_get | redis_set | redis_del | redis_keys | redis_exists
| redis_ttl | redis_expire | redis_type | redis_dbsize | redis_info
| redis_hget | redis_hset | redis_hgetall | redis_lrange | redis_smembers
| redis_zrange | mongo_find | mongo_find_one | mongo_insert_one
| mongo_insert_many | mongo_update_one | mongo_update_many | mongo_delete_one
| mongo_delete_many | mongo_count | mongo_aggregate | mongo_list_collections
| mongo_get_collection_stats | mongo_get_indexes | mongo_create_index
| mongo_get_database_stats | ldap_search | ldap_authenticate | ldap_add
| ldap_modify | ldap_delete | ldap_compare | ldap_search_folder_structure
| ldap_list_folders.

Definition case_labels : list (string * Case) :=
  [ ("query", query)
  ; ("execute_sql", execute_sql)
  ; ("list_tables", list_tables)
  ; ("describe_table", describe_table)
  ; ("list_schemas", list_schemas)
  ; ("explain_query", explain_query)
  ; ("get_indexes", get_indexes)
  ; ("get_foreign_keys", get_foreign_keys)
  ; ("get_table_size", get_table_size)
  ; ("list_views", list_views)
  ; ("describe_view", describe_view)
  ; ("search_tables", search_tables)
  ; ("get_table_stats", get_table_stats)
  ; ("redis_get", redis_get)
  ; ("redis_set", redis_set)
  ; ("redis_del", redis_del)
  ; ("redis_keys", redis_keys)
  ; ("redis_exists", redis_exists)
  ; ("redis_ttl", redis_ttl)
  ; ("redis_expire", redis_expire)
  ; ("redis_type", redis_type)
  ; ("redis_dbsize", redis_dbsize)
  ; ("redis_info", redis_info)
  ; ("redis_hget", redis_hget)
  ; ("redis_hset", redis_hset)
  ; ("redis_hgetall", redis_hgetall)
  ; ("redis_lrange", redis_lrange)
  ; ("redis_smembers", redis_smembers)
  ; ("redis_zrange", redis_zrange)
  ; ("mongo_find", mongo_find)
  ; ("mongo_find_one", mongo_find_one)
  ; ("mongo_insert_one", mongo_insert_one)
  ; ("mongo_insert_many", mongo_insert_many)
  ; ("mongo_update_one", mongo_update_one)
  ; ("mongo_update_many", mongo_update_many)
  ; ("mongo_delete_one", mongo_delete_one)
  ; ("mongo_delete_many", mongo_delete_many)
  ; ("mongo_count", mongo_count)
  ; ("mongo_aggregate", mongo_aggregate)
  ; ("mongo_list_collections", mongo_list_collections)
  ; ("mongo_get_collection_stats", mongo_get_collection_stats)
  ; ("mongo_get_indexes", mongo_get_indexes)
  ; ("mongo_create_index", mongo_create_index)
  ; ("mongo_get_database_stats", mongo_get_database_stats)
  ; ("ldap_search", ldap_search)
  ; ("ldap_authenticate", ldap_authenticate)
  ; ("ldap_add", ldap_add)
  ; ("ldap_modify", ldap_modify)
  ; ("ldap_delete", ldap_delete)
  ; ("ldap_compare", ldap_compare)
  ; ("ldap_search_folder_structure", ldap_search_folder_structure)
  ; ("ldap_list_folders", ldap_list_folders) ].

(** [switch (name)]: the first label strictly equal to [name]. *)
Fixpoint lookup_case (labels : list (string * Case)) (name : string) : option Case :=
  match labels with
  | [] => None
  | (l, c) :: rest => if String.eqb l name then Some c else lookup_case rest name
  end.

Definition switch (name : string) : option Case := lookup_case case_labels name.

(** The fixed message of [checkReadOnly]. *)
Definition read_only_message : string :=
  "Server is running in read-only mode. Write operations are disabled.".

(** The error envelope built by the [catch] block. *)
Definition error_response (errorMessage : string) : Response :=
  {| content := [ {| type := "text"; text := Some ("Error: " ++ errorMessage) |} ];
     isError := Some true |}.

(** [error instanceof Error ? error.message : String(error)]. *)
Definition errorMessage_of (error : JS.Thrown) : string :=
  match error with
  | JS.Error message => message
  | JS.NonError as_string => as_string
  end.

Section Handler.

Context {RT : Runtime} {St : Type}.

Definition Handler (A : Type) : Type := Eff (World St) A.

(** [await adapter.m(args)]: the method runs on the adapter's state and the
    invocation is recorded. *)
Definition call (a : Adapter St) (m : string) (args : list JS.Value)
  : Handler JS.Value :=
  fun w =>
    let '(r, s') := invoke a m args (adapter_state w) in
    (r, {| adapter_state := s'; calls := calls w ++ [(m, args)] |}).

Definition type_error {A} (f : JS.Fault) : Handler A :=
  throw (JS.Error (fault_message f)).

(** [const { p, ... } = args]: fails on absent [args], at the first
    property of the pattern. *)
Definition destructure (args : option JS.Object) (first : string)
  : Handler JS.Object :=
  match args with
  | Some o => ret o
  | None => type_error (JS.CannotDestructure first)
  end.

(** [const { p = d, ... } = args]: the first property of the pattern has a
    default, and on absent [args] it is the read of that property that
    fails. *)
Definition destructure_defaulted (args : option JS.Object) (first : string)
  : Handler JS.Object :=
  match args with
  | Some o => ret o
  | None => type_error (JS.ReadOfNullish first)
  end.

(** [sql.trim()]: only strings have the method. *)
Definition trim_of (sql : JS.Value) : Handler string :=
  match sql with
  | JS.Str s => ret (JS.trim s)
  | JS.Undefined => type_error (JS.ReadOfNullish "trim")
  | JS.Null => type_error (JS.ReadOfNull "trim")
  | _ => type_error (JS.NotAFunction "sql.trim")
  end.

(** [v.length]. *)
Definition length_of (v : JS.Value) : Handler JS.Value :=
  match v with
  | JS.Arr l => ret (JS.Num (Z.of_nat (List.length l)))
  | JS.Str s => ret (JS.Num (Z.of_nat (String.length s)))
  | JS.Obj o => ret (JS.get o "length")
  | JS.Undefined => type_error (JS.ReadOfNullish "length")
  | JS.Null => type_error (JS.ReadOfNull "length")
  | _ => ret JS.Undefined
  end.

(** [JSON.stringify(payload, null, 2)], which is [undefined] for
    [undefined]. *)
Definition stringify (payload : JS.Value) : option string :=
  match payload with
  | JS.Undefined => None
  | _ => Some (JSON_stringify payload)
  end.

(** [return { content: [{ type: "text", text: JSON.stringify(payload, null, 2) }] }]. *)
Definition text_response (payload : JS.Value) : Response :=
  {| content := [ {| type := "text"; text := stringify payload |} ];
     isError := None |}.

Definition respond (payload : JS.Value) : Handler Response :=
  ret (text_response payload).

Definition checkReadOnly (this : DatabaseMCPServer St) : Handler unit :=
  if readOnly this then throw (JS.Error read_only_message) else ret tt.

(** [if (!flag) throw new Error("This tool is only available for ...")]. *)
Definition only_for (flag : bool) (backend : string) : Handler unit :=
  if negb flag
  then throw (JS.Error ("This tool is only available for " ++ backend))
  else ret tt.

(** The statement test of the [query] case. *)
Definition is_select (trimmed : string) : bool :=
  JS.startsWith (JS.toUpperCase trimmed) "SELECT".

(** [{ table, schema = "public" } = args] followed by a call of [m] on
    both; shared by the table-level generic tools. *)
Definition table_and_schema (args : option JS.Object) (first : string)
  : Handler (JS.Value * JS.Value) :=
  o <- destructure args first ;;
  ret (JS.get o first, JS.default (JS.get o "schema") (JS.Str "public")).

(** The body of one [case] of the [switch]; [a] is [this.adapter]. *)
Definition run_case (this : DatabaseMCPServer St) (a : Adapter St)
  (c : Case) (args : option JS.Object) : Handler Response :=
  match c with
  | query =>
      o <- destructure args "sql" ;;
      let sql := JS.get o "sql" in
      trimmed <- trim_of sql ;;
      if negb (is_select trimmed)
      then throw (JS.Error "Query tool only supports SELECT statements")
      else
        result <- call a "query" [sql] ;;
        respond result
  | execute_sql =>
      checkReadOnly this ;;
      o <- destructure args "sql" ;;
      let sql := JS.get o "sql" in
      result <- call a "execute" [sql] ;;
      respond result
  | list_tables =>
      let schema :=
        JS.or (match args with Some o => JS.get o "schema" | None => JS.Undefined end)
              (JS.Str "public") in
      tables <- call a "listTables" [schema] ;;
      respond (JS.Obj [("tables", tables); ("schema", schema)])
  | describe_table =>
      '(table, schema) <- table_and_schema args "table" ;;
      schemaInfo <- call a "describeTable" [table; schema] ;;
      respond schemaInfo
  | list_schemas =>
      schemas <- call a "listSchemas" [] ;;
      respond (JS.Obj [("schemas", schemas)])
  | explain_query =>
      o <- destructure args "sql" ;;
      let sql := JS.get o "sql" in
      result <- call a "explainQuery" [sql] ;;
      respond result
  | get_indexes =>
      '(table, schema) <- table_and_schema args "table" ;;
      indexes <- call a "getIndexes" [table; schema] ;;
      respond (JS.Obj [("table", table); ("schema", schema); ("indexes", indexes)])
  | get_foreign_keys =>
      '(table, schema) <- table_and_schema args "table" ;;
      foreignKeys <- call a "getForeignKeys" [table; schema] ;;
      respond (JS.Obj [("table", table); ("schema", schema);
                       ("foreign_keys", foreignKeys)])
  | get_table_size =>
      '(table, schema) <- table_and_schema args "table" ;;
      sizeInfo <- call a "getTableSize" [table; schema] ;;
      respond sizeInfo
  | list_views =>
      let schema :=
        JS.or (match args with Some o => JS.get o "schema" | None => JS.Undefined end)
              (JS.Str "public") in
      views <- call a "listViews" [schema] ;;
      respond (JS.Obj [("views", views); ("schema", schema)])
  | describe_view =>
      '(view, schema) <- table_and_schema args "view" ;;
      viewInfo <- call a "describeView" [view; schema] ;;
      respond viewInfo
  | search_tables =>
      '(pattern, schema) <- table_and_schema args "pattern" ;;
      tables <- call a "searchTables" [pattern; schema] ;;
      respond (JS.Obj [("tables", tables); ("pattern", pattern); ("schema", schema)])
  | get_table_stats =>
      '(table, schema) <- table_and_schema args "table" ;;
      stats <- call a "getTableStats" [table; schema] ;;
      respond stats

  (* Redis-specific tools *)
  | redis_get =>
      only_for (isRedis this) "Redis" ;;
      o <- destructure args "key" ;;
      let key := JS.get o "key" in
      value <- call a "get" [key] ;;
      respond (JS.Obj [("key", key); ("value", value)])
  | redis_set =>
      checkReadOnly this ;;
      only_for (isRedis this) "Redis" ;;
      o <- destructure args "key" ;;
      let key := JS.get o "key" in
      let value := JS.get o "value" in
      let ttl := JS.get o "ttl" in
      call a "set" [key; value; ttl] ;;
      respond (JS.Obj [("key", key); ("value", value);
                       ("ttl", JS.or ttl JS.Null); ("status", JS.Str "OK")])
  | redis_del =>
      checkReadOnly this ;;
      only_for (isRedis this) "Redis" ;;
      o <- destructure args "key" ;;
      let key := JS.get o "key" in
      deleted <- call a "del" [key] ;;
      respond (JS.Obj [("key", key); ("deleted", deleted)])
  | redis_keys =>
      only_for (isRedis this) "Redis" ;;
      o <- destructure args "pattern" ;;
      let pattern := JS.get o "pattern" in
      keys <- call a "keys" [pattern] ;;
      count <- length_of keys ;;
      respond (JS.Obj [("pattern", pattern); ("keys", keys); ("count", count)])
  | redis_exists =>
      only_for (isRedis this) "Redis" ;;
      o <- destructure args "key" ;;
      let key := JS.get o "key" in
      exists_ <- call a "exists" [key] ;;
      respond (JS.Obj [("key", key); ("exists", exists_)])
  | redis_ttl =>
      only_for (isRedis this) "Redis" ;;
      o <- destructure args "key" ;;
      let key := JS.get o "key" in
      ttl <- call a "ttl" [key] ;;
      respond (JS.Obj [("key", key); ("ttl", ttl)])
  | redis_expire =>
      checkReadOnly this ;;
      only_for (isRedis this) "Redis" ;;
      o <- destructure args "key" ;;
      let key := JS.get o "key" in
      let seconds := JS.get o "seconds" in
      result <- call a "expire" [key; seconds] ;;
      respond (JS.Obj [("key", key); ("seconds", seconds); ("result", result)])
  | redis_type =>
      only_for (isRedis this) "Redis" ;;
      o <- destructure args "key" ;;
      let key := JS.get o "key" in
      type_ <- call a "type" [key] ;;
      respond (JS.Obj [("key", key); ("type", type_)])
  | redis_dbsize =>
      only_for (isRedis this) "Redis" ;;
      size <- call a "dbsize" [] ;;
      respond (JS.Obj [("dbsize", size)])
  | redis_info =>
      only_for (isRedis this) "Redis" ;;
      o <- destructure args "section" ;;
      let section := JS.get o "section" in
      info <- call a "info" [section] ;;
      respond (JS.Obj [("section", JS.or section (JS.Str "all")); ("info", info)])
  | redis_hget =>
      only_for (isRedis this) "Redis" ;;
      o <- destructure args "key" ;;
      let key := JS.get o "key" in
      let field := JS.get o "field" in
      value <- call a "hget" [key; field] ;;
      respond (JS.Obj [("key", key); ("field", field); ("value", value)])
  | redis_hset =>
      checkReadOnly this ;;
      only_for (isRedis this) "Redis" ;;
      o <- destructure args "key" ;;
      let key := JS.get o "key" in
      let field := JS.get o "field" in
      let value := JS.get o "value" in
      result <- call a "hset" [key; field; value] ;;
      respond (JS.Obj [("key", key); ("field", field); ("value", value);
                       ("result", result)])
  | redis_hgetall =>
      only_for (isRedis this) "Redis" ;;
      o <- destructure args "key" ;;
      let key := JS.get o "key" in
      hash <- call a "hgetall" [key] ;;
      respond (JS.Obj [("key", key); ("hash", hash)])
  | redis_lrange =>
      only_for (isRedis this) "Redis" ;;
      o <- destructure args "key" ;;
      let key := JS.get o "key" in
      let start := JS.get o "start" in
      let stop := JS.get o "stop" in
      list_ <- call a "lrange" [key; start; stop] ;;
      respond (JS.Obj [("key", key); ("start", start); ("stop", stop);
                       ("list", list_)])
  | redis_smembers =>
      only_for (isRedis this) "Redis" ;;
      o <- destructure args "key" ;;
      let key := JS.get o "key" in
      members <- call a "smembers" [key] ;;
      respond (JS.Obj [("key", key); ("members", members)])
  | redis_zrange =>
      only_for (isRedis this) "Redis" ;;
      o <- destructure args "key" ;;
      let key := JS.get o "key" in
      let start := JS.get o "start" in
      let stop := JS.get o "stop" in
      let with_scores := JS.get o "with_scores" in
      members <- call a "zrange" [key; start; stop; with_scores] ;;
      respond (JS.Obj [("key", key); ("start", start); ("stop", stop);
                       ("with_scores", with_scores); ("members", members)])

  (* MongoDB-specific tools *)
  | mongo_find =>
      only_for (isMongo this) "MongoDB" ;;
      o <- destructure args "collection" ;;
      let collection := JS.get o "collection" in
      let filter := JS.default (JS.get o "filter") (JS.Obj []) in
      let limit := JS.default (JS.get o "limit") (JS.Num 100) in
      let skip := JS.default (JS.get o "skip") (JS.Num 0) in
      documents <- call a "find" [collection; filter; limit; skip] ;;
      count <- length_of documents ;;
      respond (JS.Obj [("collection", collection); ("filter", filter);
                       ("limit", limit); ("skip", skip);
                       ("documents", documents); ("count", count)])
  | mongo_find_one =>
      only_for (isMongo this) "MongoDB" ;;
      o <- destructure args "collection" ;;
      let collection := JS.get o "collection" in
      let filter := JS.default (JS.get o "filter") (JS.Obj []) in
      document <- call a "findOne" [collection; filter] ;;
      respond (JS.Obj [("collection", collection); ("filter", filter);
                       ("document", document)])
  | mongo_insert_one =>
      checkReadOnly this ;;
      only_for (isMongo this) "MongoDB" ;;
      o <- destructure args "collection" ;;
      let collection := JS.get o "collection" in
      let document := JS.get o "document" in
      id <- call a "insertOne" [collection; document] ;;
      respond (JS.Obj [("collection", collection); ("document", document);
                       ("inserted_id", id)])
  | mongo_insert_many =>
      checkReadOnly this ;;
      only_for (isMongo this) "MongoDB" ;;
      o <- destructure args "collection" ;;
      let collection := JS.get o "collection" in
      let documents := JS.get o "documents" in
      ids <- call a "insertMany" [collection; documents] ;;
      count <- length_of ids ;;
      respond (JS.Obj [("collection", collection); ("documents", documents);
                       ("inserted_ids", ids); ("count", count)])
  | mongo_update_one =>
      checkReadOnly this ;;
      only_for (isMongo this) "MongoDB" ;;
      o <- destructure args "collection" ;;
      let collection := JS.get o "collection" in
      let filter := JS.get o "filter" in
      let update := JS.get o "update" in
      modified <- call a "updateOne" [collection; filter; update] ;;
      respond (JS.Obj [("collection", collection); ("filter", filter);
                       ("update", update); ("modified_count", modified)])
  | mongo_update_many =>
      checkReadOnly this ;;
      only_for (isMongo this) "MongoDB" ;;
      o <- destructure args "collection" ;;
      let collection := JS.get o "collection" in
      let filter := JS.get o "filter" in
      let update := JS.get o "update" in
      modified <- call a "updateMany" [collection; filter; update] ;;
      respond (JS.Obj [("collection", collection); ("filter", filter);
                       ("update", update); ("modified_count", modified)])
  | mongo_delete_one =>
      checkReadOnly this ;;
      only_for (isMongo this) "MongoDB" ;;
      o <- destructure args "collection" ;;
      let collection := JS.get o "collection" in
      let filter := JS.get o "filter" in
      deleted <- call a "deleteOne" [collection; filter] ;;
      respond (JS.Obj [("collection", collection); ("filter", filter);
                       ("deleted_count", deleted)])
  | mongo_delete_many =>
      checkReadOnly this ;;
      only_for (isMongo this) "MongoDB" ;;
      o <- destructure args "collection" ;;
      let collection := JS.get o "collection" in
      let filter := JS.get o "filter" in
      deleted <- call a "deleteMany" [collection; filter] ;;
      respond (JS.Obj [("collection", collection); ("filter", filter);
                       ("deleted_count", deleted)])
  | mongo_count =>
      only_for (isMongo this) "MongoDB" ;;
      o <- destructure args "collection" ;;
      let collection := JS.get o "collection" in
      let filter := JS.default (JS.get o "filter") (JS.Obj []) in
      count <- call a "count" [collection; filter] ;;
      respond (JS.Obj [("collection", collection); ("filter", filter);
                       ("count", count)])
  | mongo_aggregate =>
      only_for (isMongo this) "MongoDB" ;;
      o <- destructure args "collection" ;;
      let collection := JS.get o "collection" in
      let pipeline := JS.get o "pipeline" in
      results <- call a "aggregate" [collection; pipeline] ;;
      count <- length_of results ;;
      respond (JS.Obj [("collection", collection); ("pipeline", pipeline);
                       ("results", results); ("count", count)])
  | mongo_list_collections =>
      only_for (isMongo this) "MongoDB" ;;
      collections <- call a "listCollections" [] ;;
      count <- length_of collections ;;
      respond (JS.Obj [("collections", collections); ("count", count)])
  | mongo_get_collection_stats =>
      only_for (isMongo this) "MongoDB" ;;
      o <- destructure args "collection" ;;
      let collection := JS.get o "collection" in
      stats <- call a "getCollectionStats" [collection] ;;
      respond stats
  | mongo_get_indexes =>
      only_for (isMongo this) "MongoDB" ;;
      o <- destructure args "collection" ;;
      let collection := JS.get o "collection" in
      indexes <- call a "getIndexesForCollection" [collection] ;;
      respond (JS.Obj [("collection", collection); ("indexes", indexes)])
  | mongo_create_index =>
      checkReadOnly this ;;
      only_for (isMongo this) "MongoDB" ;;
      o <- destructure args "collection" ;;
      let collection := JS.get o "collection" in
      let keys := JS.get o "keys" in
      let options := JS.default (JS.get o "options") (JS.Obj []) in
      indexName <- call a "createIndex" [collection; keys; options] ;;
      respond (JS.Obj [("collection", collection); ("keys", keys);
                       ("options", options); ("index_name", indexName)])
  | mongo_get_database_stats =>
      only_for (isMongo this) "MongoDB" ;;
      stats <- call a "getDatabaseStats" [] ;;
      respond stats

  (* LDAP-specific tools *)
  | ldap_search =>
      only_for (isLDAP this) "LDAP" ;;
      o <- destructure args "base" ;;
      let base := JS.get o "base" in
      let filter := JS.get o "filter" in
      let scope := JS.default (JS.get o "scope") (JS.Str "sub") in
      let attributes := JS.default (JS.get o "attributes") (JS.Arr [JS.Str "*"]) in
      entries <- call a "search"
                   [base; filter;
                    JS.Obj [("scope", scope); ("attributes", attributes)]] ;;
      count <- length_of entries ;;
      respond (JS.Obj [("base", base); ("filter", filter); ("scope", scope);
                       ("attributes", attributes); ("entries", entries);
                       ("count", count)])
  | ldap_authenticate =>
      only_for (isLDAP this) "LDAP" ;;
      o <- destructure args "dn" ;;
      let dn := JS.get o "dn" in
      let password := JS.get o "password" in
      authenticated <- call a "authenticate" [dn; password] ;;
      respond (JS.Obj [("dn", dn); ("authenticated", authenticated)])
  | ldap_add =>
      checkReadOnly this ;;
      only_for (isLDAP this) "LDAP" ;;
      o <- destructure args "dn" ;;
      let dn := JS.get o "dn" in
      let attributes := JS.get o "attributes" in
      call a "add" [dn; attributes] ;;
      respond (JS.Obj [("dn", dn); ("attributes", attributes);
                       ("status", JS.Str "OK")])
  | ldap_modify =>
      checkReadOnly this ;;
      only_for (isLDAP this) "LDAP" ;;
      o <- destructure args "dn" ;;
      let dn := JS.get o "dn" in
      let change := JS.get o "change" in
      call a "modify" [dn; change] ;;
      respond (JS.Obj [("dn", dn); ("change", change); ("status", JS.Str "OK")])
  | ldap_delete =>
      checkReadOnly this ;;
      only_for (isLDAP this) "LDAP" ;;
      o <- destructure args "dn" ;;
      let dn := JS.get o "dn" in
      call a "delete" [dn] ;;
      respond (JS.Obj [("dn", dn); ("status", JS.Str "OK")])
  | ldap_compare =>
      only_for (isLDAP this) "LDAP" ;;
      o <- destructure args "dn" ;;
      let dn := JS.get o "dn" in
      let attribute := JS.get o "attribute" in
      let value := JS.get o "value" in
      matched <- call a "compare" [dn; attribute; value] ;;
      respond (JS.Obj [("dn", dn); ("attribute", attribute); ("value", value);
                       ("matched", matched)])
  | ldap_search_folder_structure =>
      only_for (isLDAP this) "LDAP" ;;
      o <- destructure_defaulted args "base" ;;
      let base := JS.default (JS.get o "base") (JS.Str "") in
      let depth := JS.default (JS.get o "depth") (JS.Num 10) in
      let include_entries := JS.default (JS.get o "include_entries") (JS.Bool false) in
      structure <- call a "searchFolderStructure" [base; depth; include_entries] ;;
      respond structure
  | ldap_list_folders =>
      only_for (isLDAP this) "LDAP" ;;
      o <- destructure_defaulted args "base" ;;
      let base := JS.default (JS.get o "base") (JS.Str "") in
      folders <- call a "listFolders" [base] ;;
      count <- length_of folders ;;
      respond (JS.Obj [("base", JS.or base (JS.Str "root")); ("folders", folders);
                       ("count", count)])
  end.

(** The [try] block: the [switch] with its [default]. *)
Definition try_block (this : DatabaseMCPServer St) (a : Adapter St)
  (request : Request.t) : Handler Response :=
  match switch (Request.name request) with
  | Some c => run_case this a c (Request.arguments request)
  | None => throw (JS.Error ("Unknown tool: " ++ Request.name request))
  end.

(** The [catch] block. *)
Definition catch_block (error : JS.Thrown) : Handler Response :=
  ret (error_response (errorMessage_of error)).

(** The CallTool handler.  The adapter test comes before the [try], so its
    error rejects the handler's promise. *)
Definition CallTool (this : DatabaseMCPServer St) (request : Request.t)
  (w : World St) : Settled * World St :=
  match adapter this with
  | None => (Rejected (JS.Error "Database adapter not initialized"), w)
  | Some a =>
      match try_catch (try_block this a request) catch_block w with
      | (inr response, w') => (Resolved response, w')
      | (inl e, w') => (Rejected e, w')
      end
  end.

(** The ListTools handler as a computation: [return { tools }]. *)
Definition ListTools_handler (this : DatabaseMCPServer St)
  : Handler (list Tool.t) :=
  ret (ListTools this).

End Handler.

(** [this] inside a method: the current state. *)
Definition get_state {S} : Eff S S := fun s => (inr s, s).

(** Whether an operation completed rather than threw. *)
Definition completed {A} (r : JS.Thrown + A) : bool :=
  match r with inr _ => true | inl _ => false end.

(** A non-empty string is truthy. *)
Definition nonempty (s : string) : bool := negb (String.eqb s "").

(* ================================================================== *)
(** ** The LDAP adapter: binding and authentication *)

Module LDAPAdapter.

(** The ldapts [Client], as far as binding goes; [C] is the connection's
    state. *)
Record Client (C : Type) : Type := {
  client_bind : JS.Value -> JS.Value -> Eff C unit;
  client_unbind : Eff C unit
}.
Arguments client_bind {C} _ _ _.
Arguments client_unbind {C} _.

(** The adapter's fields; [client] is [null] after [close]. *)
Record State (C : Type) : Type := {
  client : option C;
  url : string;
  bindDN : string;
  bindPassword : string
}.
Arguments client {C} _.
Arguments url {C} _.
Arguments bindDN {C} _.
Arguments bindPassword {C} _.

Section Methods.

Context {C : Type} (ldapts : Client C).

(** [new LDAPAdapter(connectionString)]; [fresh] is the state of the newly
    made client. *)
Definition constructor (connectionString : string) (fresh : C) : State C :=
  {| client := Some fresh; url := connectionString;
     bindDN := ""; bindPassword := "" |}.

(** [if (!this.client) throw ...; await this.client.op(...)]. *)
Definition on_client {A} (op : Eff C A) : Eff (State C) A :=
  fun this =>
    match client this with
    | None => (inl (JS.Error "LDAP client not initialized"), this)
    | Some c =>
        let '(r, c') := op c in
        (r, {| client := Some c'; url := url this;
               bindDN := bindDN this; bindPassword := bindPassword this |})
    end.

Definition bind (dn password : JS.Value) : Eff (State C) unit :=
  on_client (client_bind ldapts dn password).

Definition unbind : Eff (State C) unit :=
  on_client (client_unbind ldapts).

Definition remember (dn password : string) : Eff (State C) unit :=
  fun this =>
    (inr tt, {| client := client this; url := url this;
                bindDN := dn; bindPassword := password |}).

Definition connect (dn password : option string) : Eff (State C) unit :=
  this <- get_state ;;
  match client this with
  | None => throw (JS.Error "LDAP client not initialized")
  | Some _ =>
      match dn, password with
      | Some d, Some p =>
          if nonempty d && nonempty p
          then remember d p ;; bind (JS.Str d) (JS.Str p)
          else ret tt
      | _, _ => ret tt
      end
  end.

(** Whether original credentials are stored:
    [this.bindDN && this.bindPassword]. *)
Definition has_credentials (this : State C) : bool :=
  nonempty (bindDN this) && nonempty (bindPassword this).

Definition authenticate (dn password : JS.Value) : Eff (State C) bool :=
  try_catch
    (bind dn password ;;
     unbind ;;
     this <- get_state ;;
     (if has_credentials this
      then bind (JS.Str (bindDN this)) (JS.Str (bindPassword this))
      else ret tt) ;;
     ret true)
    (fun _ => ret false).

(** The adapter as the server reaches it.  [authenticate] is the method
    above; [others] stands for the remaining methods of the class. *)
Definition as_adapter (others : string -> list JS.Value -> Eff (State C) JS.Value)
  : Adapter (State C) :=
  {| constructor_name := "LDAPAdapter";
     invoke := fun m args =>
       if String.eqb m "authenticate"
       then b <- authenticate (nth 0 args JS.Undefined) (nth 1 args JS.Undefined) ;;
            ret (JS.Bool b)
       else others m args |}.

End Methods.


(** *** Searching, the generic interface and the folder structure *)

(** An attribute value as ldapts delivers it: a string, strings, a buffer
    or buffers. *)
Inductive RawValue : Type :=
| Text (s : string)
| Texts (l : list string)
| Buffer (bytes : string)
| Buffers (l : list string).

(** An ldapts [Entry]: its [dn] and its other properties. *)
Record Entry : Type := {
  dn : string;
  raw : list (string * RawValue)
}.

(** An entry as [search] returns it: [{ dn, attributes }]. *)
Record Found : Type := {
  found_dn : string;
  found_attributes : JS.Object
}.

(** The ldapts operations beyond binding. *)
Record Directory (C : Type) : Type := {
  client_search : string -> JS.Object -> Eff C (list Entry);
  client_add : JS.Value -> JS.Value -> Eff C unit;
  client_modify : JS.Value -> JS.Value -> Eff C unit;
  client_del : JS.Value -> Eff C unit;
  client_compare : JS.Value -> JS.Value -> JS.Value -> Eff C JS.Value
}.
Arguments client_search {C} _ _ _.
Arguments client_add {C} _ _ _.
Arguments client_modify {C} _ _ _.
Arguments client_del {C} _ _.
Arguments client_compare {C} _ _ _ _.

(** An entry of the map that [searchFolderStructure] builds; [children]
    holds the entries pushed to it, named by their DN. *)
Record Folder : Type := {
  f_dn : string;
  f_name : string;
  f_type : string;
  f_attributes : JS.Object;
  f_children : list string;
  f_parent : option string
}.

(** A node of the returned structure; [attributes] and [children] may be
    absent. *)
Inductive Node : Type :=
| node (n_dn n_name n_type : string) (n_attributes : option JS.Object)
       (n_children : option (list Node)).

(** [structure.length === 1 ? structure[0] : structure]. *)
Inductive Shape : Type :=
| Single (n : option Node)
| Several (ns : list (option Node)).

Record Structure : Type := {
  base : string;
  total_entries : nat;
  structure : Shape
}.

Definition invalid_base_message (b : string) : string :=
  "Invalid base DN format: " ++ JS.quote ++ b ++ JS.quote
  ++ ". Base DN should start with a component like DC=, OU=, or CN= (e.g., "
  ++ JS.quote ++ "DC=example,DC=com" ++ JS.quote ++ ")".

Definition no_object_message (b original : string) : string :=
  "LDAP Error: NO_OBJECT (0x20) - The base DN " ++ JS.quote ++ b ++ JS.quote
  ++ " does not exist in the directory. "
  ++ "Please verify the base DN is correct (e.g., "
  ++ JS.quote ++ "DC=example,DC=com" ++ JS.quote ++ "). "
  ++ "Original error: " ++ original.

Definition discovery_failed_message : string :=
  "Empty base DN provided and could not auto-discover root DN. "
  ++ "Please provide a valid base DN (e.g., 'DC=example,DC=com'). "
  ++ "LDAP Error: NO_OBJECT (0x20) - The specified base DN does not exist.".

Definition root_search_failed_message : string :=
  "Empty base DN provided and root DSE search failed. "
  ++ "Please provide a valid base DN (e.g., 'DC=example,DC=com'). "
  ++ "LDAP Error: NO_OBJECT (0x20) - The specified base DN does not exist.".

(** The filter for folder-like entries. *)
Definition folder_filter : string :=
  "(|(objectClass=organizationalUnit)(objectClass=container)(objectClass=domain)(objectClass=domainDNS)(objectClass=builtinDomain))".

(** The name and type read off the components of a DN: the first
    component that starts with OU= or CN= decides; failing that, the first
    DC= component. *)
Fixpoint name_and_type (parts : list string) (name type : string)
  : string * string :=
  match parts with
  | [] => (name, type)
  | part :: rest =>
      if JS.startsWith part "OU=" then (JS.dropPrefix part "OU=", "OU")
      else if JS.startsWith part "CN=" then (JS.dropPrefix part "CN=", "CN")
      else if JS.startsWith part "DC=" then
        if nonempty name then name_and_type rest name type
        else name_and_type rest (JS.dropPrefix part "DC=") "DC"
      else name_and_type rest name type
  end.

(** First pass: the map entry made for a found entry. *)
Definition folder_of (e : Found) : Folder :=
  let '(name, type) :=
    name_and_type (map JS.trim (JS.split ","%char (found_dn e))) "" "" in
  {| f_dn := found_dn e;
     f_name := if nonempty name then name else found_dn e;
     f_type := type;
     f_attributes := found_attributes e;
     f_children := [];
     f_parent := None |}.

(** [entryMap.set(dn, entry)]: a known key keeps its place. *)
Fixpoint map_set (m : list Folder) (f : Folder) : list Folder :=
  match m with
  | [] => [f]
  | g :: rest =>
      if String.eqb (f_dn g) (f_dn f) then f :: rest else g :: map_set rest f
  end.

(** [entryMap.get(dn)]. *)
Fixpoint map_get (m : list Folder) (k : string) : option Folder :=
  match m with
  | [] => None
  | g :: rest => if String.eqb (f_dn g) k then Some g else map_get rest k
  end.

Definition map_has (m : list Folder) (k : string) : bool :=
  match map_get m k with Some _ => true | None => false end.

(** An update in place of the entry with key [k]. *)
Definition map_update (m : list Folder) (k : string) (f : Folder -> Folder)
  : list Folder :=
  map (fun g => if String.eqb (f_dn g) k then f g else g) m.

(** [parts.slice(1).join(",")] when the DN has more than one part. *)
Definition parent_dn (d : string) : option string :=
  match JS.split ","%char d with
  | _ :: (p :: ps) => Some (JS.join "," (p :: ps))
  | _ => None
  end.

(** Second pass, one entry: [entry.parent = parentDN] and
    [parent.children.push(entry)] when the parent is in the map. *)
Definition link (m : list Folder) (d : string) : list Folder :=
  match parent_dn d with
  | Some parentDN =>
      if map_has m parentDN
      then map_update
             (map_update m d (fun e =>
                {| f_dn := f_dn e; f_name := f_name e; f_type := f_type e;
                   f_attributes := f_attributes e; f_children := f_children e;
                   f_parent := Some parentDN |}))
             parentDN (fun p =>
                {| f_dn := f_dn p; f_name := f_name p; f_type := f_type p;
                   f_attributes := f_attributes p;
                   f_children := f_children p ++ [d];
                   f_parent := f_parent p |})
      else m
  | None => m
  end.

(** The entry map after both passes. *)
Definition entry_map (entries : list Found) : list Folder :=
  let m := fold_left map_set (map folder_of entries) [] in
  fold_left link (map f_dn m) m.

(** [!entry.parent || !entryMap.has(entry.parent)]. *)
Definition is_root (m : list Folder) (e : Folder) : bool :=
  match f_parent e with
  | None => true
  | Some p => negb (nonempty p) || negb (map_has m p)
  end.

(** [buildTree(entry, currentDepth)], with [fuel] levels left before
    [currentDepth >= depth]. *)
Fixpoint buildTree (m : list Folder) (includeEntries : bool) (fuel : nat)
  (e : Folder) : option Node :=
  match fuel with
  | O => None
  | S fuel' =>
      Some (node (f_dn e) (f_name e) (f_type e)
              (if includeEntries then Some (f_attributes e) else None)
              (match f_children e with
               | [] => None
               | c :: cs =>
                   Some (flat_map
                           (fun k =>
                              match map_get m k with
                              | Some child =>
                                  match buildTree m includeEntries fuel' child with
                                  | Some n => [n]
                                  | None => []
                                  end
                              | None => []
                              end)
                           (c :: cs))
               end))
  end.

(** The part of [searchFolderStructure] after the search. *)
Definition structure_of (searchBase : string) (entries : list Found)
  (depth : Z) (includeEntries : bool) : Structure :=
  let m := entry_map entries in
  let rootEntries := filter (is_root m) m in
  let built := map (buildTree m includeEntries (Z.to_nat depth)) rootEntries in
  {| base := searchBase;
     total_entries := List.length entries;
     structure := match built with
                  | [one] => Single one
                  | _ => Several built
                  end |}.

(** [collectDNs(node)] of [listFolders]. *)
Fixpoint collectDNs (n : Node) : list string :=
  match n with
  | node d _ _ _ children =>
      d :: match children with
           | Some cs => flat_map collectDNs cs
           | None => []
           end
  end.

Definition collect (n : option Node) : list string :=
  match n with Some n' => collectDNs n' | None => [] end.

(** The part of [listFolders] after [searchFolderStructure]. *)
Definition folders_of (result : Structure) : list string :=
  match structure result with
  | Several ns => flat_map collect ns
  | Single n => collect n
  end.

Section DirectoryMethods.

Context {RT : Runtime} {C : Type}.
Variable ldapts : Client C.
Variable directory : Directory C.
(** [buffer.toString('utf8')]. *)
Variable utf8 : string -> string.

(** The conversion of one attribute value in [search]. *)
Definition convert_value (v : RawValue) : JS.Value :=
  match v with
  | Buffer bytes => JS.Str (utf8 bytes)
  | Buffers l => JS.Arr (map (fun b => JS.Str (utf8 b)) l)
  | Text s => JS.Str s
  | Texts l => JS.Arr (map JS.Str l)
  end.

Definition convert_entry (e : Entry) : Found :=
  {| found_dn := dn e;
     found_attributes :=
       map (fun p => (fst p, convert_value (snd p)))
           (filter (fun p => negb (String.eqb (fst p) "dn")) (raw e)) |}.

(** The [catch] of [search].  A thrown value that is not an [Error] is
    taken to be one that has no [message]. *)
Definition search_catch {A} (b : string) (error : JS.Thrown)
  : Eff (State C) A :=
  match error with
  | JS.Error message =>
      if nonempty message && JS.includes message "NO_OBJECT"
      then throw (JS.Error (no_object_message b message))
      else throw error
  | JS.NonError _ => throw error
  end.

(** The [searchOptions] of [search]: the defaults, then the caller's
    options spread over them. *)
Definition searchOptions (filter : string) (options : JS.Object) : JS.Object :=
  JS.spread
    [("filter", JS.Str filter);
     ("scope", JS.or (JS.get options "scope") (JS.Str "sub"));
     ("attributes",
      JS.or (JS.get options "attributes") (JS.Arr [JS.Str "*"]));
     ("sizeLimit", JS.or (JS.get options "sizeLimit") (JS.Num 1000))]
    options.

(** The options that [searchFolderStructure] passes to [search]. *)
Definition folder_options : JS.Object :=
  [("scope", JS.Str "sub");
   ("attributes",
    JS.Arr [JS.Str "dn"; JS.Str "ou"; JS.Str "cn"; JS.Str "dc";
            JS.Str "objectClass"; JS.Str "description"; JS.Str "name"])].

(** The options of the root DSE search. *)
Definition rootDSE_options : JS.Object :=
  [("scope", JS.Str "base");
   ("attributes",
    JS.Arr [JS.Str "namingContexts"; JS.Str "defaultNamingContext";
            JS.Str "rootDomainNamingContext"])].

Definition search (b filter : string) (options : JS.Object)
  : Eff (State C) (list Found) :=
  this <- get_state ;;
  match client this with
  | None => throw (JS.Error "LDAP client not initialized")
  | Some _ =>
      if nonempty b && negb (String.eqb (JS.trim b) "")
         && negb (JS.letters_then_equals b)
      then throw (JS.Error (invalid_base_message b))
      else
        try_catch
          (searchEntries <- on_client (client_search directory b
                                         (searchOptions filter options)) ;;
           ret (map convert_entry searchEntries))
          (search_catch b)
  end.

Definition add (d attributes : JS.Value) : Eff (State C) unit :=
  on_client (client_add directory d attributes).

Definition modify (d change : JS.Value) : Eff (State C) unit :=
  on_client (client_modify directory d change).

Definition delete (d : JS.Value) : Eff (State C) unit :=
  on_client (client_del directory d).

Definition compare (d attribute value : JS.Value) : Eff (State C) JS.Value :=
  on_client (client_compare directory d attribute value).

Definition query (sql : JS.Value) : Eff (State C) JS.Value :=
  throw (JS.Error
    "LDAP does not support SQL queries. Use LDAP-specific methods instead.").

Definition execute (sql : JS.Value) : Eff (State C) JS.Value :=
  throw (JS.Error
    "LDAP does not support SQL execution. Use LDAP-specific methods instead.").

Definition explainQuery (sql : JS.Value) : Eff (State C) JS.Value :=
  throw (JS.Error "LDAP does not support EXPLAIN queries.").

Definition describeView (view : JS.Value) : Eff (State C) JS.Value :=
  throw (JS.Error "LDAP does not support views.").

(** [listSchemas], [getIndexes], [getForeignKeys] and [listViews]. *)
Definition nothing : Eff (State C) JS.Value := ret (JS.Arr []).

Definition getTableSize (table : JS.Value) : Eff (State C) JS.Value :=
  ret (JS.Obj [("dn", table); ("size", JS.Str "N/A");
               ("size_bytes", JS.Num 0); ("rows", JS.Num 0)]).

Definition found_to_json (e : Found) : JS.Value :=
  JS.Obj [("dn", JS.Str (found_dn e)); ("attributes", JS.Obj (found_attributes e))].

Definition listTables (schema : string) : Eff (State C) JS.Value :=
  entries <- search schema "(objectClass=*)"
               [("scope", JS.Str "one");
                ("attributes", JS.Arr [JS.Str "ou"; JS.Str "cn"; JS.Str "dc"])] ;;
  ret (JS.Arr (map (fun e => JS.Str (found_dn e)) entries)).

Definition describeTable (table : string) : Eff (State C) JS.Value :=
  entries <- search table "(objectClass=*)"
               [("scope", JS.Str "base"); ("attributes", JS.Arr [JS.Str "*"])] ;;
  ret (match entries with
       | e :: _ => found_to_json e
       | [] => JS.Null
       end).

Definition searchTables (pattern schema : string) : Eff (State C) JS.Value :=
  entries <- search schema
               ("(|(cn=*" ++ pattern ++ "*)(ou=*" ++ pattern ++ "*)(dc=*"
                ++ pattern ++ "*))")
               [("scope", JS.Str "sub"); ("attributes", JS.Arr [JS.Str "dn"])] ;;
  ret (JS.Arr (map (fun e => JS.Str (found_dn e)) entries)).

Definition getTableStats (table : string) : Eff (State C) JS.Value :=
  entries <- search table "(objectClass=*)"
               [("scope", JS.Str "sub"); ("attributes", JS.Arr [JS.Str "dn"])] ;;
  ret (JS.Obj [("dn", JS.Str table);
               ("row_count", JS.Num (Z.of_nat (List.length entries)));
               ("total_size", JS.Str "N/A"); ("table_size", JS.Str "N/A");
               ("indexes_size", JS.Str "N/A")]).

(** [Array.isArray(v) ? v[0] : v]. *)
Definition first_of (v : JS.Value) : JS.Value :=
  match v with
  | JS.Arr l => nth 0 l JS.Undefined
  | _ => v
  end.

(** The naming context read off the root DSE, if it names one. *)
Definition naming_context (rootDSE : list Found) (searchBase : JS.Value)
  : JS.Value :=
  match rootDSE with
  | e :: _ =>
      let attrs := found_attributes e in
      if JS.truthy (JS.get attrs "defaultNamingContext")
      then first_of (JS.get attrs "defaultNamingContext")
      else if JS.truthy (JS.get attrs "namingContexts")
      then first_of (JS.get attrs "namingContexts")
      else if JS.truthy (JS.get attrs "rootDomainNamingContext")
      then first_of (JS.get attrs "rootDomainNamingContext")
      else searchBase
  | [] => searchBase
  end.

(** [!searchBase || searchBase.trim() === ""], then the base as a string. *)
Definition checked_base (searchBase : JS.Value) : Eff (State C) string :=
  if negb (JS.truthy searchBase) then throw (JS.Error discovery_failed_message)
  else match searchBase with
       | JS.Str s =>
           if String.eqb (JS.trim s) ""
           then throw (JS.Error discovery_failed_message)
           else ret s
       | _ => throw (JS.Error (fault_message (JS.NotAFunction "searchBase.trim")))
       end.

(** The discovery of the base through the root DSE, for a blank [b]. *)
Definition discover (b : string) : Eff (State C) string :=
  try_catch
    (rootDSE <- search "" "(objectClass=*)" rootDSE_options ;;
     checked_base (naming_context rootDSE (JS.Str b)))
    (fun error =>
       match error with
       | JS.Error message =>
           if nonempty message && JS.includes message "NO_OBJECT"
           then throw (JS.Error root_search_failed_message)
           else throw error
       | JS.NonError _ => throw error
       end).

Definition searchFolderStructure (b : string) (depth : Z) (includeEntries : bool)
  : Eff (State C) Structure :=
  this <- get_state ;;
  match client this with
  | None => throw (JS.Error "LDAP client not initialized")
  | Some _ =>
      searchBase <- (if negb (nonempty b) || String.eqb (JS.trim b) ""
                     then discover b else ret b) ;;
      entries <- search searchBase folder_filter folder_options ;;
      ret (structure_of searchBase entries depth includeEntries)
  end.

Definition listFolders (b : string) : Eff (State C) (list string) :=
  result <- searchFolderStructure b 1 false ;;
  ret (folders_of result).

(** [close]: unbind, then drop the client. *)
Definition close : Eff (State C) unit :=
  this <- get_state ;;
  match client this with
  | Some _ =>
      unbind ldapts ;;
      (fun this' =>
         (inr tt, {| client := None; url := url this';
                     bindDN := bindDN this'; bindPassword := bindPassword this' |}))
  | None => ret tt
  end.

(** The returned structure as a JavaScript value. *)
Fixpoint node_to_json (n : Node) : JS.Value :=
  match n with
  | node d name type attributes children =>
      JS.Obj
        ([("dn", JS.Str d); ("name", JS.Str name); ("type", JS.Str type);
          ("attributes",
           match attributes with Some a => JS.Obj a | None => JS.Undefined end)]
         ++ match children with
            | Some cs => [("children", JS.Arr (map node_to_json cs))]
            | None => []
            end)%list
  end.

Definition slot_to_json (n : option Node) : JS.Value :=
  match n with Some n' => node_to_json n' | None => JS.Null end.

Definition structure_to_json (s : Structure) : JS.Value :=
  JS.Obj [("base", JS.Str (base s));
          ("total_entries", JS.Num (Z.of_nat (total_entries s)));
          ("structure",
           match structure s with
           | Single n => slot_to_json n
           | Several ns => JS.Arr (map slot_to_json ns)
           end)].

(** The methods of the class by name, on arguments of the declared
    types; [untyped] stands for calls outside them. *)
Definition methods (untyped : string -> list JS.Value -> Eff (State C) JS.Value)
  (m : string) (args : list JS.Value) : Eff (State C) JS.Value :=
  let arg n := nth n args JS.Undefined in
  if String.eqb m "query" then query (arg 0%nat)
  else if String.eqb m "execute" then execute (arg 0%nat)
  else if String.eqb m "explainQuery" then explainQuery (arg 0%nat)
  else if String.eqb m "describeView" then describeView (arg 0%nat)
  else if String.eqb m "listSchemas" || String.eqb m "getIndexes"
          || String.eqb m "getForeignKeys" || String.eqb m "listViews"
  then nothing
  else if String.eqb m "getTableSize" then getTableSize (arg 0%nat)
  else if String.eqb m "add" then add (arg 0%nat) (arg 1%nat) ;; ret JS.Undefined
  else if String.eqb m "modify" then modify (arg 0%nat) (arg 1%nat) ;; ret JS.Undefined
  else if String.eqb m "delete" then delete (arg 0%nat) ;; ret JS.Undefined
  else if String.eqb m "compare" then compare (arg 0%nat) (arg 1%nat) (arg 2%nat)
  else
    match m, arg 0%nat, arg 1%nat, arg 2%nat with
    | "listTables", JS.Str schema, _, _ => listTables schema
    | "listTables", JS.Undefined, _, _ => listTables ""
    | "describeTable", JS.Str table, _, _ => describeTable table
    | "getTableStats", JS.Str table, _, _ => getTableStats table
    | "searchTables", JS.Str pattern, JS.Str schema, _ => searchTables pattern schema
    | "searchTables", JS.Str pattern, JS.Undefined, _ => searchTables pattern ""
    | "search", JS.Str b, JS.Str filter, JS.Obj options =>
        entries <- search b filter options ;;
        ret (JS.Arr (map found_to_json entries))
    | "search", JS.Str b, JS.Str filter, JS.Undefined =>
        entries <- search b filter [] ;;
        ret (JS.Arr (map found_to_json entries))
    | "searchFolderStructure", JS.Str b, JS.Num depth, JS.Bool includeEntries =>
        s <- searchFolderStructure b depth includeEntries ;;
        ret (structure_to_json s)
    | "listFolders", JS.Str b, _, _ =>
        folders <- listFolders b ;;
        ret (JS.Arr (map JS.Str folders))
    | "listFolders", JS.Undefined, _, _ =>
        folders <- listFolders "" ;;
        ret (JS.Arr (map JS.Str folders))
    | _, _, _, _ => untyped m args
    end.

(** The whole class as the server reaches it. *)
Definition adapter_of (untyped : string -> list JS.Value -> Eff (State C) JS.Value)
  : Adapter (State C) :=
  as_adapter ldapts (methods untyped).

End DirectoryMethods.

End LDAPAdapter.

(* ================================================================== *)
(** ** The SQLite adapter: opening the file and [execute] *)

Module SQLiteAdapter.

(** A better-sqlite3 handle: the path it was opened on and its [readonly]
    option. *)
Record Database : Type := {
  path : string;
  readonly : bool
}.

(** The better-sqlite3 driver: [db.prepare(sql)] and [stmt.run(...params)],
    which returns the info object.  [D] is the state of the database file,
    [Stmt] the prepared statements. *)
Record Driver (D Stmt : Type) : Type := {
  prepare : Database -> JS.Value -> Eff D Stmt;
  run : Database -> Stmt -> list JS.Value -> Eff D JS.Object
}.
Arguments prepare {D Stmt} _ _ _.
Arguments run {D Stmt} _ _ _ _.

(** The adapter's field [db], and the file behind it. *)
Record State (D : Type) : Type := {
  db : option Database;
  file : D
}.
Arguments db {D} _.
Arguments file {D} _.

(** The file path taken from the connection string. *)
Definition dbPath_of (connectionString : string) : string :=
  let dbPath :=
    if JS.startsWith connectionString "sqlite://"
    then JS.dropPrefix connectionString "sqlite://"
    else if JS.startsWith connectionString "sqlite:"
    then JS.dropPrefix connectionString "sqlite:"
    else connectionString in
  if JS.startsWith dbPath "file://" then JS.dropPrefix dbPath "file://" else dbPath.

(** The [readonly] option passed to [new Database]. *)
Definition readonly_option (env : Env) : bool :=
  env_is env "READ_ONLY_MODE" "true" || env_isnt env "READ_ONLY_MODE" "false".

(** [new SQLiteAdapter(connectionString)], in the environment [env], when
    the file opens. *)
Definition constructor {D} (connectionString : string) (env : Env) (f : D) : State D :=
  {| db := Some {| path := dbPath_of connectionString;
                   readonly := readonly_option env |};
     file := f |}.

Section Methods.

Context {RT : Runtime} {D Stmt : Type} (driver : Driver D Stmt).

Definition on_file {A} (op : Eff D A) : Eff (State D) A :=
  fun this =>
    let '(r, f') := op (file this) in
    (r, {| db := db this; file := f' |}).

(** [sql.trim().split(/\s+/)[0].toUpperCase()]. *)
Definition command_of (sql : JS.Value) : Eff (State D) string :=
  match sql with
  | JS.Str s => ret (JS.toUpperCase (JS.firstWord (JS.trim s)))
  | JS.Undefined => throw (JS.Error (fault_message (JS.ReadOfNullish "trim")))
  | JS.Null => throw (JS.Error (fault_message (JS.ReadOfNull "trim")))
  | _ => throw (JS.Error (fault_message (JS.NotAFunction "sql.trim")))
  end.

Definition execute (sql : JS.Value) (params : option (list JS.Value))
  : Eff (State D) JS.Value :=
  this <- get_state ;;
  match db this with
  | None => throw (JS.Error "Database connection not initialized")
  | Some handle =>
      stmt <- on_file (prepare driver handle sql) ;;
      command <- command_of sql ;;
      result <- on_file (run driver handle stmt
                           (match params with
                            | Some (p :: ps) => p :: ps
                            | _ => []
                            end)) ;;
      ret (JS.Obj [("command", JS.Str command);
                   ("rowCount", JS.or (JS.get result "changes") (JS.Num 0));
                   ("rows", JS.Undefined)])
  end.

(** The adapter as the server reaches it; [others] stands for the
    remaining methods of the class. *)
Definition as_adapter (others : string -> list JS.Value -> Eff (State D) JS.Value)
  : Adapter (State D) :=
  {| constructor_name := "SQLiteAdapter";
     invoke := fun m args =>
       if String.eqb m "execute"
       then execute (nth 0 args JS.Undefined)
                    (match nth 1 args JS.Undefined with
                     | JS.Arr ps => Some ps
                     | _ => None
                     end)
       else others m args |}.

End Methods.


(** [escapeIdentifier]: the identifier between double quotes, each of its
    own double quotes doubled. *)
Definition escapeIdentifier (identifier : string) : string :=
  JS.quote ++ JS.double_quotes identifier ++ JS.quote.

Section Closing.

Context {D : Type}.
(** [db.close()] of better-sqlite3. *)
Variable driver_close : Database -> Eff D unit.

Definition close : Eff (State D) unit :=
  fun this =>
    match db this with
    | Some handle =>
        match driver_close handle (file this) with
        | (inl e, f') => (inl e, {| db := db this; file := f' |})
        | (inr _, f') => (inr tt, {| db := None; file := f' |})
        end
    | None => (inr tt, this)
    end.

End Closing.

End SQLiteAdapter.


(* ================================================================== *)
(** ** The Redis adapter *)

Module RedisAdapter.

(** The node-redis client.  [command] stands for the methods whose result
    the adapter hands on unchanged; the three others are those whose result
    it inspects.  [R] is the state of the connection and of the store
    behind it. *)
Record Client (R : Type) : Type := {
  command : string -> list JS.Value -> Eff R JS.Value;
  client_exists : JS.Value -> Eff R Z;
  client_type : JS.Value -> Eff R string;
  zRangeWithScores : JS.Value -> JS.Value -> JS.Value -> Eff R (list (JS.Value * JS.Value))
}.
Arguments command {R} _ _ _.
Arguments client_exists {R} _ _.
Arguments client_type {R} _ _.
Arguments zRangeWithScores {R} _ _ _ _.

(** The adapter's field [client]: [None] once closed. *)
Definition State (R : Type) : Type := option R.

Section Methods.

Context {RT : Runtime} {R : Type} (redis : Client R).
(** The text a template literal gives for a value. *)
Variable to_text : JS.Value -> string.

(** [if (!this.client) throw ...; await this.client.op(...)]. *)
Definition on_client {A} (op : Eff R A) : Eff (State R) A :=
  fun this =>
    match this with
    | None => (inl (JS.Error "Redis client not initialized"), this)
    | Some r => let '(x, r') := op r in (x, Some r')
    end.

Definition connect : Eff (State R) JS.Value :=
  on_client (command redis "connect" []) ;; ret JS.Undefined.

Definition get (key : JS.Value) : Eff (State R) JS.Value :=
  on_client (command redis "get" [key]).

Definition set (key value ttl : JS.Value) : Eff (State R) unit :=
  this <- get_state ;;
  match this with
  | None => throw (JS.Error "Redis client not initialized")
  | Some _ =>
      if JS.truthy ttl
      then on_client (command redis "setEx" [key; ttl; value]) ;; ret tt
      else on_client (command redis "set" [key; value]) ;; ret tt
  end.

Definition del (key : JS.Value) : Eff (State R) JS.Value :=
  on_client (command redis "del" [key]).

Definition keys (pattern : JS.Value) : Eff (State R) JS.Value :=
  on_client (command redis "keys" [pattern]).

Definition exists_ (key : JS.Value) : Eff (State R) bool :=
  n <- on_client (client_exists redis key) ;;
  ret (0 <? n)%Z.

Definition ttl (key : JS.Value) : Eff (State R) JS.Value :=
  on_client (command redis "ttl" [key]).

Definition expire (key seconds : JS.Value) : Eff (State R) JS.Value :=
  on_client (command redis "expire" [key; seconds]).

Definition type (key : JS.Value) : Eff (State R) string :=
  on_client (client_type redis key).

Definition dbsize : Eff (State R) JS.Value :=
  on_client (command redis "dbSize" []).

Definition info (section : JS.Value) : Eff (State R) JS.Value :=
  on_client (command redis "info" [section]).

Definition hget (key field : JS.Value) : Eff (State R) JS.Value :=
  value <- on_client (command redis "hGet" [key; field]) ;;
  ret (match value with JS.Undefined | JS.Null => JS.Null | _ => value end).

Definition hset (key field value : JS.Value) : Eff (State R) JS.Value :=
  on_client (command redis "hSet" [key; field; value]).

Definition hgetall (key : JS.Value) : Eff (State R) JS.Value :=
  on_client (command redis "hGetAll" [key]).

Definition lrange (key start stop : JS.Value) : Eff (State R) JS.Value :=
  on_client (command redis "lRange" [key; start; stop]).

Definition smembers (key : JS.Value) : Eff (State R) JS.Value :=
  on_client (command redis "sMembers" [key]).

Definition hdel (key field : JS.Value) : Eff (State R) JS.Value :=
  on_client (command redis "hDel" [key; field]).

Definition lpush (key : JS.Value) (values : list JS.Value) : Eff (State R) JS.Value :=
  on_client (command redis "lPush" [key; JS.Arr values]).

Definition rpush (key : JS.Value) (values : list JS.Value) : Eff (State R) JS.Value :=
  on_client (command redis "rPush" [key; JS.Arr values]).

Definition lpop (key : JS.Value) : Eff (State R) JS.Value :=
  on_client (command redis "lPop" [key]).

Definition rpop (key : JS.Value) : Eff (State R) JS.Value :=
  on_client (command redis "rPop" [key]).

Definition sadd (key : JS.Value) (members : list JS.Value) : Eff (State R) JS.Value :=
  on_client (command redis "sAdd" [key; JS.Arr members]).

Definition srem (key : JS.Value) (members : list JS.Value) : Eff (State R) JS.Value :=
  on_client (command redis "sRem" [key; JS.Arr members]).

Definition zadd (key score member : JS.Value) : Eff (State R) JS.Value :=
  on_client (command redis "zAdd"
               [key; JS.Obj [("score", score); ("value", member)]]).

Definition zrange (key start stop withScores : JS.Value) : Eff (State R) JS.Value :=
  this <- get_state ;;
  match this with
  | None => throw (JS.Error "Redis client not initialized")
  | Some _ =>
      if JS.truthy withScores
      then
        result <- on_client (zRangeWithScores redis key start stop) ;;
        ret (JS.Arr (map (fun item =>
                            JS.Str (to_text (fst item) ++ ":" ++ to_text (snd item)))
                         result))
      else on_client (command redis "zRange" [key; start; stop])
  end.

Definition query (sql : JS.Value) : Eff (State R) JS.Value :=
  throw (JS.Error
    "Redis does not support SQL queries. Use Redis-specific methods instead.").

Definition execute (sql : JS.Value) : Eff (State R) JS.Value :=
  throw (JS.Error
    "Redis does not support SQL execution. Use Redis-specific methods instead.").

Definition explainQuery (sql : JS.Value) : Eff (State R) JS.Value :=
  throw (JS.Error "Redis does not support EXPLAIN queries.").

Definition describeView (view : JS.Value) : Eff (State R) JS.Value :=
  throw (JS.Error "Redis does not support views.").

(** [listSchemas], [getIndexes], [getForeignKeys] and [listViews]. *)
Definition nothing : Eff (State R) JS.Value := ret (JS.Arr []).

Definition listTables : Eff (State R) JS.Value := keys (JS.Str "*").

Definition searchTables (pattern : JS.Value) : Eff (State R) JS.Value :=
  keys pattern.

(** The value read for an existing key, by its type. *)
Definition value_of (table : JS.Value) (type_ : string) : Eff (State R) JS.Value :=
  if String.eqb type_ "string" then get table
  else if String.eqb type_ "hash" then hgetall table
  else if String.eqb type_ "list" then lrange table (JS.Num 0) (JS.Num (-1))
  else if String.eqb type_ "set" then smembers table
  else if String.eqb type_ "zset"
  then zrange table (JS.Num 0) (JS.Num (-1)) (JS.Bool true)
  else ret JS.Null.

Definition describeTable (table : JS.Value) : Eff (State R) JS.Value :=
  type_ <- type table ;;
  ttl_ <- ttl table ;;
  exists_key <- exists_ table ;;
  value <- (if exists_key then value_of table type_ else ret JS.Null) ;;
  ret (JS.Obj [("key", table); ("type", JS.Str type_); ("ttl", ttl_);
               ("exists", JS.Bool exists_key); ("value", value)]).

Definition getTableSize (table : JS.Value) : Eff (State R) JS.Value :=
  info_ <- info (JS.Str "memory") ;;
  ret (JS.Obj [("key", table); ("info", info_)]).

Definition getTableStats (table : JS.Value) : Eff (State R) JS.Value :=
  type_ <- type table ;;
  ttl_ <- ttl table ;;
  exists_key <- exists_ table ;;
  ret (JS.Obj [("key", table); ("type", JS.Str type_); ("ttl", ttl_);
               ("exists", JS.Bool exists_key)]).

Definition close : Eff (State R) unit :=
  this <- get_state ;;
  match this with
  | Some _ => on_client (command redis "quit" []) ;; (fun _ => (inr tt, None))
  | None => ret tt
  end.

(** The adapter as the server reaches it. *)
Definition as_adapter : Adapter (State R) :=
  {| constructor_name := "RedisAdapter";
     invoke := fun m args =>
       let arg n := nth n args JS.Undefined in
       if String.eqb m "get" then get (arg 0%nat)
       else if String.eqb m "set"
       then set (arg 0%nat) (arg 1%nat) (arg 2%nat) ;; ret JS.Undefined
       else if String.eqb m "del" then del (arg 0%nat)
       else if String.eqb m "keys" then keys (arg 0%nat)
       else if String.eqb m "exists" then b <- exists_ (arg 0%nat) ;; ret (JS.Bool b)
       else if String.eqb m "ttl" then ttl (arg 0%nat)
       else if String.eqb m "expire" then expire (arg 0%nat) (arg 1%nat)
       else if String.eqb m "type" then t <- type (arg 0%nat) ;; ret (JS.Str t)
       else if String.eqb m "dbsize" then dbsize
       else if String.eqb m "info" then info (arg 0%nat)
       else if String.eqb m "hget" then hget (arg 0%nat) (arg 1%nat)
       else if String.eqb m "hset" then hset (arg 0%nat) (arg 1%nat) (arg 2%nat)
       else if String.eqb m "hgetall" then hgetall (arg 0%nat)
       else if String.eqb m "lrange" then lrange (arg 0%nat) (arg 1%nat) (arg 2%nat)
       else if String.eqb m "smembers" then smembers (arg 0%nat)
       else if String.eqb m "zrange"
       then zrange (arg 0%nat) (arg 1%nat) (arg 2%nat) (arg 3%nat)
       else if String.eqb m "query" then query (arg 0%nat)
       else if String.eqb m "execute" then execute (arg 0%nat)
       else if String.eqb m "explainQuery" then explainQuery (arg 0%nat)
       else if String.eqb m "describeView" then describeView (arg 0%nat)
       else if String.eqb m "listSchemas" || String.eqb m "getIndexes"
               || String.eqb m "getForeignKeys" || String.eqb m "listViews"
       then nothing
       else if String.eqb m "listTables" then listTables
       else if String.eqb m "searchTables" then searchTables (arg 0%nat)
       else if String.eqb m "describeTable" then describeTable (arg 0%nat)
       else if String.eqb m "getTableSize" then getTableSize (arg 0%nat)
       else if String.eqb m "getTableStats" then getTableStats (arg 0%nat)
       else if String.eqb m "hdel" then hdel (arg 0%nat) (arg 1%nat)
       else if String.eqb m "lpush" then lpush (arg 0%nat) (tl args)
       else if String.eqb m "rpush" then rpush (arg 0%nat) (tl args)
       else if String.eqb m "lpop" then lpop (arg 0%nat)
       else if String.eqb m "rpop" then rpop (arg 0%nat)
       else if String.eqb m "sadd" then sadd (arg 0%nat) (tl args)
       else if String.eqb m "srem" then srem (arg 0%nat) (tl args)
       else if String.eqb m "zadd" then zadd (arg 0%nat) (arg 1%nat) (arg 2%nat)
       else if String.eqb m "connect" then connect
       else if String.eqb m "close" then close ;; ret JS.Undefined
       else throw (JS.Error (fault_message (JS.NotAFunction m))) |}.

End Methods.

End RedisAdapter.

(* ================================================================== *)
(** ** The MongoDB adapter: the generic interface *)

Module MongoAdapter.

Section Methods.

Context {M : Type}.

Definition query (sql : JS.Value) : Eff M JS.Value :=
  throw (JS.Error
    "MongoDB does not support SQL queries. Use MongoDB-specific methods instead.").

Definition execute (sql : JS.Value) : Eff M JS.Value :=
  throw (JS.Error
    "MongoDB does not support SQL execution. Use MongoDB-specific methods instead.").

Definition explainQuery (sql : JS.Value) : Eff M JS.Value :=
  throw (JS.Error "MongoDB does not support EXPLAIN queries in SQL format.").

Definition describeView (view : JS.Value) : Eff M JS.Value :=
  throw (JS.Error "MongoDB does not support views.").

(** [getForeignKeys] and [listViews]. *)
Definition nothing : Eff M JS.Value := ret (JS.Arr []).

(** The adapter as the server reaches it; [others] stands for the methods
    that go to the MongoDB driver. *)
Definition as_adapter (others : string -> list JS.Value -> Eff M JS.Value)
  : Adapter M :=
  {| constructor_name := "MongoAdapter";
     invoke := fun m args =>
       let arg n := nth n args JS.Undefined in
       if String.eqb m "query" then query (arg 0%nat)
       else if String.eqb m "execute" then execute (arg 0%nat)
       else if String.eqb m "explainQuery" then explainQuery (arg 0%nat)
       else if String.eqb m "describeView" then describeView (arg 0%nat)
       else if String.eqb m "getForeignKeys" || String.eqb m "listViews"
       then nothing
       else others m args |}.

End Methods.

End MongoAdapter.

(* ================================================================== *)
(** ** The MySQL adapter: the connection string *)

Module MySQLAdapter.

(** The parts of a WHATWG [URL] that the adapter reads. *)
Module URL.

Record t : Type := {
  hostname : string;
  port : string;
  username : string;
  password : string;
  pathname : string
}.

End URL.

(** The options handed to [createPool]; [None] is a property that is
    absent or [undefined]. *)
Record PoolOptions : Type := {
  host : option string;
  port : option JS.Number;
  user : option string;
  password : option string;
  database : option string
}.

Definition no_options : PoolOptions :=
  {| host := None; port := None; user := None; password := None;
     database := None |}.

(** [text || undefined]. *)
Definition or_undefined (text : string) : option string :=
  if nonempty text then Some text else None.

(** [const [key, value] = part.split("=").map(s => s.trim())]. *)
Definition key_value (part : string) : string * option string :=
  match map JS.trim (JS.split "="%char part) with
  | key :: value :: _ => (key, Some value)
  | key :: [] => (key, None)
  | [] => (EmptyString, None)
  end.

(** The [switch] on [key.toLowerCase()]; the second component is
    [this.defaultDatabase]. *)
Definition assign (acc : PoolOptions * string) (key value : string)
  : PoolOptions * string :=
  let '(config, defaultDatabase) := acc in
  let k := JS.toLowerCase key in
  if String.eqb k "host" || String.eqb k "server" then
    ({| host := Some value; port := port config; user := user config;
        password := password config; database := database config |},
     defaultDatabase)
  else if String.eqb k "port" then
    ({| host := host config; port := Some (JS.parseInt value);
        user := user config; password := password config;
        database := database config |},
     defaultDatabase)
  else if String.eqb k "user" || String.eqb k "uid" || String.eqb k "username" then
    ({| host := host config; port := port config; user := Some value;
        password := password config; database := database config |},
     defaultDatabase)
  else if String.eqb k "password" || String.eqb k "pwd" then
    ({| host := host config; port := port config; user := user config;
        password := Some value; database := database config |},
     defaultDatabase)
  else if String.eqb k "database" || String.eqb k "db"
          || String.eqb k "databasename" then
    ({| host := host config; port := port config; user := user config;
        password := password config; database := Some value |},
     value)
  else acc.

(** The body of the loop over the parts. *)
Definition part_step (acc : PoolOptions * string) (part : string)
  : PoolOptions * string :=
  match key_value part with
  | (key, Some value) =>
      if nonempty key && nonempty value then assign acc key value else acc
  | (_, None) => acc
  end.

Section Parsing.

(** [new URL(connectionString)]; [None] when it throws. *)
Variable URL_of : string -> option URL.t.

(** [parseConnectionString]: the options and [this.defaultDatabase], which
    is empty before. *)
Definition parseConnectionString (connectionString : string)
  : PoolOptions * string :=
  match URL_of connectionString with
  | Some url =>
      let config :=
        {| host := Some (URL.hostname url);
           port := Some (JS.parseInt (if nonempty (URL.port url)
                                      then URL.port url else "3306"));
           user := or_undefined (URL.username url);
           password := or_undefined (URL.password url);
           database := or_undefined (JS.slice1 (URL.pathname url)) |} in
      (config,
       match database config with
       | Some name => name
       | None => EmptyString
       end)
  | None =>
      fold_left part_step (JS.split ";"%char connectionString)
                (no_options, EmptyString)
  end.

End Parsing.

End MySQLAdapter.

(* ================================================================== *)
(** ** Start-up: the choice of the adapter *)

Module Startup.

(** [process.env.K || otherwise]: an unset or empty variable gives way. *)
Definition or_else (env : Env) (k : string) (otherwise : string) : string :=
  match env k with
  | Some v => if nonempty v then v else otherwise
  | None => otherwise
  end.

Definition dbType (env : Env) : string := or_else env "DB_TYPE" "postgres".

Definition connectionString (env : Env) : string :=
  let t := JS.toLowerCase (dbType env) in
  if String.eqb t "redis" then
    or_else env "REDIS_CONNECTION_STRING"
      (or_else env "REDIS_URL" "redis://localhost:6379")
  else if String.eqb t "mongodb" || String.eqb t "mongo" then
    or_else env "MONGODB_CONNECTION_STRING"
      (or_else env "MONGODB_URL" "mongodb://localhost:27017")
  else if String.eqb t "ldap" then
    or_else env "LDAP_CONNECTION_STRING"
      (or_else env "LDAP_URL" "ldap://localhost:389")
  else if String.eqb t "mysql" || String.eqb t "mysql2" then
    or_else env "MYSQL_CONNECTION_STRING"
      (or_else env "MYSQL_URL"
         (or_else env "DATABASE_URL" "mysql://localhost:3306"))
  else if String.eqb t "sqlite" then
    or_else env "SQLITE_CONNECTION_STRING"
      (or_else env "SQLITE_URL"
         (or_else env "DATABASE_URL" "sqlite://./database.sqlite"))
  else
    or_else env "POSTGRES_CONNECTION_STRING"
      (or_else env "DATABASE_URL" "postgresql://localhost:5432/postgres").

(** The adapter classes. *)
Inductive AdapterClass : Type :=
| PostgresAdapter | RedisAdapter | MongoAdapter | LDAPAdapter
| MySQLAdapter | SQLiteAdapter.

(** [adapter.constructor.name] for an instance of the class. *)
Definition class_name (c : AdapterClass) : string :=
  match c with
  | PostgresAdapter => "PostgresAdapter"
  | RedisAdapter => "RedisAdapter"
  | MongoAdapter => "MongoAdapter"
  | LDAPAdapter => "LDAPAdapter"
  | MySQLAdapter => "MySQLAdapter"
  | SQLiteAdapter => "SQLiteAdapter"
  end.

(** The [switch] of [createAdapter]: the class that is instantiated, or
    the error of the [default] case. *)
Definition adapter_class (env : Env) : JS.Thrown + AdapterClass :=
  let t := JS.toLowerCase (dbType env) in
  if String.eqb t "postgres" || String.eqb t "postgresql" then inr PostgresAdapter
  else if String.eqb t "redis" then inr RedisAdapter
  else if String.eqb t "mongodb" || String.eqb t "mongo" then inr MongoAdapter
  else if String.eqb t "ldap" then inr LDAPAdapter
  else if String.eqb t "mysql" || String.eqb t "mysql2" then inr MySQLAdapter
  else if String.eqb t "sqlite" then inr SQLiteAdapter
  else inl (JS.Error ("Unsupported database type: " ++ dbType env)).

(** The catalogue that the server lists for an adapter of the class. *)
Definition catalogue (c : AdapterClass) : list Tool.t :=
  match c with
  | RedisAdapter => redis_tools
  | MongoAdapter => mongo_tools
  | LDAPAdapter => ldap_tools
  | PostgresAdapter | MySQLAdapter | SQLiteAdapter => sql_tools
  end.

(** *** The LDAP case of [createAdapter]: the bind at start-up

    The messages written to the console are left out. *)

(** [process.env.K] where only its truth and, when it is truthy, its text
    are used: an unset variable is as an empty one. *)
Definition text (env : Env) (k : string) : string :=
  match env k with
  | Some v => v
  | None => ""
  end.

(** [baseDN.replace(/DC=/g, '').replace(/,/g, '.').replace(/DC\./g, '')]. *)
Definition domain_of (baseDN : string) : string :=
  JS.replaceAll (JS.replaceAll (JS.replaceAll baseDN "DC=" "") "," ".") "DC." "".

Definition bindDNFormats (login baseDN rootDomain : string) : list string :=
  [ "CN=" ++ login ++ ",CN=Users," ++ baseDN;
    login ++ "@" ++ (if nonempty rootDomain then rootDomain else domain_of baseDN);
    "CN=" ++ login ++ "," ++ baseDN;
    "CN=" ++ login ++ ",OU=Users," ++ baseDN;
    login ].

Section Bind.

Context {C : Type} (ldapts : LDAPAdapter.Client C).
(** [String(error)] for an [Error] whose message is empty. *)
Variable name_of : JS.Thrown -> string.

(** The template text of [lastError?.message || lastError]. *)
Definition last_error_text (lastError : option JS.Thrown) : string :=
  match lastError with
  | None => "null"
  | Some (JS.Error message) =>
      if nonempty message then message else name_of (JS.Error message)
  | Some (JS.NonError as_string) => as_string
  end.

Definition bind_failed_message (formats : list string)
  (lastError : option JS.Thrown) : string :=
  "LDAP bind failed with all attempted formats. Last error: "
  ++ last_error_text lastError ++ ". "
  ++ "Tried formats: " ++ JS.join ", " (filter nonempty formats) ++ ". "
  ++ "Please check credentials or set LDAP_BIND_DN explicitly.".

(** The loop over the formats; the result is [connected] and
    [lastError]. *)
Fixpoint try_formats (formats : list string) (bindPassword : string)
  (lastError : option JS.Thrown)
  : Eff (LDAPAdapter.State C) (bool * option JS.Thrown) :=
  match formats with
  | [] => ret (false, lastError)
  | format :: rest =>
      if nonempty format && nonempty bindPassword
      then
        fun this =>
          match LDAPAdapter.connect ldapts (Some format) (Some bindPassword) this with
          | (inr _, this') => (inr (true, lastError), this')
          | (inl error, this') => try_formats rest bindPassword (Some error) this'
          end
      else try_formats rest bindPassword lastError
  end.

(** What [createAdapter] does with the new LDAP adapter before it returns
    it. *)
Definition bind_at_startup (env : Env) : Eff (LDAPAdapter.State C) unit :=
  let bindDN := text env "LDAP_BIND_DN" in
  let bindPassword := or_else env "LDAP_PASSWORD" (text env "LDAP_BIND_PASSWORD") in
  if negb (nonempty bindDN) then
    let login := text env "LDAP_LOGIN" in
    let baseDN := text env "LDAP_BASE_DN" in
    let rootDomain := text env "LDAP_ROOT_DOMAIN" in
    if nonempty login && nonempty baseDN then
      let formats := bindDNFormats login baseDN rootDomain in
      ' (connected, lastError) <- try_formats formats bindPassword None ;;
      if negb connected
      then throw (JS.Error (bind_failed_message formats lastError))
      else ret tt
    else if nonempty login && nonempty rootDomain then
      if nonempty bindPassword
      then LDAPAdapter.connect ldapts (Some (login ++ "@" ++ rootDomain))
             (Some bindPassword)
      else ret tt
    else if nonempty login then
      if nonempty bindPassword
      then LDAPAdapter.connect ldapts (Some login) (Some bindPassword)
      else ret tt
    else ret tt
  else if nonempty bindDN && nonempty bindPassword
  then LDAPAdapter.connect ldapts (Some bindDN) (Some bindPassword)
  else ret tt.

(** The LDAP case of [createAdapter]: the new adapter, bound. *)
Definition createAdapter_ldap (env : Env) (fresh : C)
  : (JS.Thrown + unit) * LDAPAdapter.State C :=
  bind_at_startup env (LDAPAdapter.constructor (connectionString env) fresh).

End Bind.

End Startup.
(* ================================================================== *)
(** ** Vocabulary of the specification *)

(** The two static registries: the generic operations and the
    backend-native ones, in declaration order. *)
Definition registry : list Tool.t :=
  sql_tools ++ redis_tools ++ mongo_tools ++ ldap_tools.

(** The operations the documentation lists as blocked in read-only mode
    (README, section "Read-Only Mode"). *)
Definition mutating_operations : list string :=
  [ "execute_sql";
    "redis_set"; "redis_del"; "redis_expire"; "redis_hset";
    "mongo_insert_one"; "mongo_insert_many"; "mongo_update_one";
    "mongo_update_many"; "mongo_delete_one"; "mongo_delete_many";
    "mongo_create_index";
    "ldap_add"; "ldap_modify"; "ldap_delete" ].

Definition mutating (name : string) : bool :=
  existsb (String.eqb name) mutating_operations.

Inductive PolicyMode : Type := ReadOnly | ReadWrite.

Definition policy_mode {St} (this : DatabaseMCPServer St) : PolicyMode :=
  if readOnly this then ReadOnly else ReadWrite.

(** The backend families. *)
Inductive BackendKind : Type := RelationalSQL | KeyValue | Document | Directory.

(** The active kind, from the flags set by the constructor; without a flag
    the adapter is one of the SQL adapters. *)
Definition active_kind {St} (this : DatabaseMCPServer St) : BackendKind :=
  if isRedis this then KeyValue
  else if isMongo this then Document
  else if isLDAP this then Directory
  else RelationalSQL.

(** The kind an operation is meant for, read off its name: [redis_*],
    [mongo_*], [ldap_*], and the generic SQL tools otherwise. *)
Definition applies_to (name : string) : BackendKind :=
  if JS.startsWith name "redis_" then KeyValue
  else if JS.startsWith name "mongo_" then Document
  else if JS.startsWith name "ldap_" then Directory
  else RelationalSQL.

(** The product name used in the applicability messages. *)
Definition backend_label (k : BackendKind) : string :=
  match k with
  | KeyValue => "Redis"
  | Document => "MongoDB"
  | Directory => "LDAP"
  | RelationalSQL => "SQL"
  end.

(** The flag of the server that stands for a native kind. *)
Definition flag_of {St} (this : DatabaseMCPServer St) (k : BackendKind) : bool :=
  match k with
  | KeyValue => isRedis this
  | Document => isMongo this
  | Directory => isLDAP this
  | RelationalSQL => negb (isRedis this) && negb (isMongo this) && negb (isLDAP this)
  end.

(** A backend-native operation: registered, and not a generic one. *)
Definition native (name : string) : bool :=
  existsb (String.eqb name) (map Tool.name (redis_tools ++ mongo_tools ++ ldap_tools)).

(** No string occurs twice. *)
Fixpoint distinct (l : list string) : bool :=
  match l with
  | [] => true
  | x :: rest => negb (existsb (String.eqb x) rest) && distinct rest
  end.

(** The response of the [default] case for [name]. *)
Definition unknown_tool_response (name : string) : Response :=
  error_response ("Unknown tool: " ++ name).

Definition adapter_method : list (string * string) :=
  [ ("query", "query")
  ; ("execute_sql", "execute")
  ; ("list_tables", "listTables")
  ; ("describe_table", "describeTable")
  ; ("list_schemas", "listSchemas")
  ; ("explain_query", "explainQuery")
  ; ("get_indexes", "getIndexes")
  ; ("get_foreign_keys", "getForeignKeys")
  ; ("get_table_size", "getTableSize")
  ; ("list_views", "listViews")
  ; ("describe_view", "describeView")
  ; ("search_tables", "searchTables")
  ; ("get_table_stats", "getTableStats")
  ; ("redis_get", "get")
  ; ("redis_set", "set")
  ; ("redis_del", "del")
  ; ("redis_keys", "keys")
  ; ("redis_exists", "exists")
  ; ("redis_ttl", "ttl")
  ; ("redis_expire", "expire")
  ; ("redis_type", "type")
  ; ("redis_dbsize", "dbsize")
  ; ("redis_info", "info")
  ; ("redis_hget", "hget")
  ; ("redis_hset", "hset")
  ; ("redis_hgetall", "hgetall")
  ; ("redis_lrange", "lrange")
  ; ("redis_smembers", "smembers")
  ; ("redis_zrange", "zrange")
  ; ("mongo_find", "find")
  ; ("mongo_find_one", "findOne")
  ; ("mongo_insert_one", "insertOne")
  ; ("mongo_insert_many", "insertMany")
  ; ("mongo_update_one", "updateOne")
  ; ("mongo_update_many", "updateMany")
  ; ("mongo_delete_one", "deleteOne")
  ; ("mongo_delete_many", "deleteMany")
  ; ("mongo_count", "count")
  ; ("mongo_aggregate", "aggregate")
  ; ("mongo_list_collections", "listCollections")
  ; ("mongo_get_collection_stats", "getCollectionStats")
  ; ("mongo_get_indexes", "getIndexesForCollection")
  ; ("mongo_create_index", "createIndex")
  ; ("mongo_get_database_stats", "getDatabaseStats")
  ; ("ldap_search", "search")
  ; ("ldap_authenticate", "authenticate")
  ; ("ldap_add", "add")
  ; ("ldap_modify", "modify")
  ; ("ldap_delete", "delete")
  ; ("ldap_compare", "compare")
  ; ("ldap_search_folder_structure", "searchFolderStructure")
  ; ("ldap_list_folders", "listFolders") ].

Fixpoint assoc (table : list (string * string)) (k : string) : string :=
  match table with
  | [] => ""
  | (k', v) :: rest => if String.eqb k' k then v else assoc rest k
  end.

(** The adapter method a tool stands for. *)
Definition method_of (name : string) : string := assoc adapter_method name.

(** Arguments that fit a tool's declared input schema: an object that has
    every required property, each declared property that is present being
    of its declared type. *)
Definition conforms (t : Tool.t) (args : option JS.Object) : bool :=
  match args with
  | None => false
  | Some o =>
      forallb (fun k => match JS.get o k with JS.Undefined => false | _ => true end)
              (Tool.required t)
      && forallb (fun p => match JS.get o (fst p) with
                           | JS.Undefined => true
                           | v => JS.has_type v (snd p)
                           end)
                 (Tool.properties t)
  end.

(** Well-formed arguments pass validation: they fit the schema and, for
    [query], the statement passes the statement test. *)
Definition well_formed (t : Tool.t) (args : option JS.Object) : bool :=
  conforms t args
  && (if String.eqb (Tool.name t) "query"
      then match args with
           | Some o => match JS.get o "sql" with
                       | JS.Str s => is_select (JS.trim s)
                       | _ => false
                       end
           | None => false
           end
      else true).

(** The adapter methods behind the mutating operations. *)
Definition mutating_methods : list string := map method_of mutating_operations.

(** The tools whose case reads no property off the arguments, or reads it
    through optional chaining. *)
Definition no_argument_tools : list string :=
  [ "list_tables"; "list_schemas"; "list_views"; "redis_dbsize";
    "mongo_list_collections"; "mongo_get_database_stats" ].

(** The text after the first comma, when there is a comma. *)
Fixpoint after_first_comma (s : string) : option string :=
  match s with
  | EmptyString => None
  | String c rest =>
      if Ascii.eqb c ","%char then Some rest else after_first_comma rest
  end.

(** The strings of [ds] in the order of their first occurrence. *)
Fixpoint first_occurrences (seen ds : list string) : list string :=
  match ds with
  | [] => []
  | d :: rest =>
      if existsb (String.eqb d) seen then first_occurrences seen rest
      else d :: first_occurrences (d :: seen) rest
  end.

(** The DNs of [ds] without a parent among [ds]: those without a comma,
    and those whose text after the first comma is no DN of [ds] (or is
    empty). *)
Definition top_level (ds : list string) : list string :=
  let known := first_occurrences [] ds in
  filter (fun d =>
            match after_first_comma d with
            | None => true
            | Some p => negb (nonempty p) || negb (existsb (String.eqb p) known)
            end)
         known.

(** How SQL reads a double-quoted identifier, after its opening quote: up
    to the first quote that is not doubled; a doubled quote stands for one.
    The result is the identifier and the text after the closing quote. *)
Fixpoint read_quoted_body (s : string) : option (string * string) :=
  match s with
  | EmptyString => None
  | String c rest =>
      if Ascii.eqb c (ascii_of_nat 34) then
        match rest with
        | String c2 rest2 =>
            if Ascii.eqb c2 (ascii_of_nat 34) then
              match read_quoted_body rest2 with
              | Some (identifier, tail) => Some (String c identifier, tail)
              | None => None
              end
            else Some (EmptyString, rest)
        | EmptyString => Some (EmptyString, EmptyString)
        end
      else
        match read_quoted_body rest with
        | Some (identifier, tail) => Some (String c identifier, tail)
        | None => None
        end
  end.

Definition read_quoted (s : string) : option (string * string) :=
  match s with
  | String c rest =>
      if Ascii.eqb c (ascii_of_nat 34) then read_quoted_body rest else None
  | EmptyString => None
  end.

(** The arguments that the case of a tool hands to its adapter method,
    read off an arguments object. *)
Definition arguments_of (name : string) (o : JS.Object) : list JS.Value :=
  let p k := JS.get o k in
  let schema := JS.default (p "schema") (JS.Str "public") in
  let filter := JS.default (p "filter") (JS.Obj []) in
  match switch name with
  | None => []
  | Some c =>
      match c with
      | query | execute_sql | explain_query => [p "sql"]
      | list_tables | list_views => [JS.or (p "schema") (JS.Str "public")]
      | list_schemas | redis_dbsize | mongo_list_collections
      | mongo_get_database_stats => []
      | describe_table | get_indexes | get_foreign_keys | get_table_size
      | get_table_stats => [p "table"; schema]
      | describe_view => [p "view"; schema]
      | search_tables => [p "pattern"; schema]
      | redis_get | redis_del | redis_exists | redis_ttl | redis_type
      | redis_hgetall | redis_smembers => [p "key"]
      | redis_set => [p "key"; p "value"; p "ttl"]
      | redis_keys => [p "pattern"]
      | redis_expire => [p "key"; p "seconds"]
      | redis_info => [p "section"]
      | redis_hget => [p "key"; p "field"]
      | redis_hset => [p "key"; p "field"; p "value"]
      | redis_lrange => [p "key"; p "start"; p "stop"]
      | redis_zrange => [p "key"; p "start"; p "stop"; p "with_scores"]
      | mongo_find =>
          [p "collection"; filter; JS.default (p "limit") (JS.Num 100);
           JS.default (p "skip") (JS.Num 0)]
      | mongo_find_one | mongo_count => [p "collection"; filter]
      | mongo_insert_one => [p "collection"; p "document"]
      | mongo_insert_many => [p "collection"; p "documents"]
      | mongo_update_one | mongo_update_many =>
          [p "collection"; p "filter"; p "update"]
      | mongo_delete_one | mongo_delete_many => [p "collection"; p "filter"]
      | mongo_aggregate => [p "collection"; p "pipeline"]
      | mongo_get_collection_stats | mongo_get_indexes => [p "collection"]
      | mongo_create_index =>
          [p "collection"; p "keys"; JS.default (p "options") (JS.Obj [])]
      | ldap_search =>
          [p "base"; p "filter";
           JS.Obj [("scope", JS.default (p "scope") (JS.Str "sub"));
                   ("attributes",
                    JS.default (p "attributes") (JS.Arr [JS.Str "*"]))]]
      | ldap_authenticate => [p "dn"; p "password"]
      | ldap_add => [p "dn"; p "attributes"]
      | ldap_modify => [p "dn"; p "change"]
      | ldap_delete => [p "dn"]
      | ldap_compare => [p "dn"; p "attribute"; p "value"]
      | ldap_search_folder_structure =>
          [JS.default (p "base") (JS.Str "");
           JS.default (p "depth") (JS.Num 10);
           JS.default (p "include_entries") (JS.Bool false)]
      | ldap_list_folders => [JS.default (p "base") (JS.Str "")]
      end
  end.

(** What it is for a run of the handler to have reached the adapter
    method [m] with the arguments [margs]: the method ran on the adapter's
    state, once, and is recorded; the message of an error it threw (for a
    thrown value that is no [Error], its conversion to a string) comes back
    in the error envelope; and when it returned, the answer is a success
    envelope, unless the handler then failed to read the length of what was
    returned. *)
Definition reached {RT : Runtime} {St : Type} (a : Adapter St) (m : string)
  (margs : list JS.Value) (w : World St) (outcome : Settled * World St) : Prop :=
  snd outcome
  = {| adapter_state := snd (invoke a m margs (adapter_state w));
       calls := calls w ++ [(m, margs)] |}
  /\ match fst (invoke a m margs (adapter_state w)) with
     | inl (JS.Error message) => fst outcome = Resolved (error_response message)
     | inl (JS.NonError as_string) =>
         fst outcome = Resolved (error_response as_string)
     | inr _ =>
         (exists payload, fst outcome = Resolved (text_response payload))
         \/ fst outcome
            = Resolved (error_response (fault_message (JS.ReadOfNullish "length")))
         \/ fst outcome
            = Resolved (error_response (fault_message (JS.ReadOfNull "length")))
     end.


(** Whether a text is free of a character. *)
Fixpoint lacks (c : ascii) (s : string) : bool :=
  match s with
  | EmptyString => true
  | String d rest => negb (Ascii.eqb d c) && lacks c rest
  end.

(** The parent the second pass of [searchFolderStructure] gives an entry:
    its parent DN when that is a key of the map. *)
Definition expected_parent (keys : list string) (d : string) : option string :=
  match LDAPAdapter.parent_dn d with
  | Some p => if existsb (String.eqb p) keys then Some p else None
  | None => None
  end.

(* ================================================================== *)
(** ** Fixtures for running the model *)

Module Sample.

(** Messages as V8 words them. *)
Definition v8_message (f : JS.Fault) : string :=
  match f with
  | JS.CannotDestructure p =>
      "Cannot destructure property '" ++ p ++ "' of 'args' as it is undefined."
  | JS.ReadOfNullish p =>
      "Cannot read properties of undefined (reading '" ++ p ++ "')"
  | JS.ReadOfNull p =>
      "Cannot read properties of null (reading '" ++ p ++ "')"
  | JS.NotAFunction callee => callee ++ " is not a function"
  end.

(** A stand-in serializer that tells the shape of a value only. *)
Definition shape (v : JS.Value) : string :=
  match v with
  | JS.Undefined => "undefined"
  | JS.Null => "null"
  | JS.Bool true => "true"
  | JS.Bool false => "false"
  | JS.Num _ => "<number>"
  | JS.Str s => s
  | JS.Arr _ => "[...]"
  | JS.Obj fields => "{" ++ String.concat "," (map fst fields) ++ "}"
  end.

Definition runtime : Runtime :=
  {| JSON_stringify := shape; fault_message := v8_message |}.

(** An adapter class [cls] without state, all of whose methods resolve to
    [null]. *)
Definition adapter (cls : string) : Adapter unit :=
  {| constructor_name := cls; invoke := fun _ _ => ret JS.Null |}.

(** An adapter class all of whose methods reject with [Error(msg)]. *)
Definition failing_adapter (cls msg : string) : Adapter unit :=
  {| constructor_name := cls; invoke := fun _ _ => throw (JS.Error msg) |}.

Definition no_env : Env := fun _ => None.

Definition setenv (k v : string) : Env :=
  fun k' => if String.eqb k' k then Some v else None.

Definition world : World unit := {| adapter_state := tt; calls := [] |}.

(** A directory connection that records every operation it is asked for
    and accepts the binds of two accounts. *)
Definition accounts : list (string * string) :=
  [ ("cn=admin,dc=example,dc=org", "admin-secret");
    ("cn=alice,dc=example,dc=org", "wonderland") ].

Definition accepts (dn password : JS.Value) : bool :=
  match dn, password with
  | JS.Str d, JS.Str p =>
      existsb (fun acc => String.eqb (fst acc) d && String.eqb (snd acc) p) accounts
  | _, _ => false
  end.

Definition ldap_client : LDAPAdapter.Client (list Call) :=
  {| LDAPAdapter.client_bind := fun dn password log =>
       (if accepts dn password then inr tt
        else inl (JS.Error "Invalid Credentials"),
        (log ++ [("bind", [dn; password])])%list);
     LDAPAdapter.client_unbind := fun log => (inr tt, (log ++ [("unbind", [])])%list) |}.

(** An LDAP adapter after [connect] with the administrator's
    credentials. *)
Definition ldap_state : LDAPAdapter.State (list Call) :=
  snd (LDAPAdapter.connect ldap_client
         (Some "cn=admin,dc=example,dc=org") (Some "admin-secret")
         (LDAPAdapter.constructor "ldap://localhost:389" [])).

Definition no_others {S} : string -> list JS.Value -> Eff S JS.Value :=
  fun _ _ => ret JS.Undefined.

(** A database file that records the statements run on it.  A read-only
    handle refuses every statement but a SELECT. *)
Definition sqlite_driver : SQLiteAdapter.Driver (list string) string :=
  {| SQLiteAdapter.prepare := fun _ sql =>
       match sql with
       | JS.Str s => ret s
       | _ => throw (JS.Error "Expected first argument to be a string")
       end;
     SQLiteAdapter.run := fun handle stmt _ =>
       if SQLiteAdapter.readonly handle && negb (is_select (JS.trim stmt))
       then throw (JS.Error "attempt to write a readonly database")
       else fun f => (inr [("changes", JS.Num 1); ("lastInsertRowid", JS.Num 1)],
                      (f ++ [stmt])%list) |}.

(** A directory of three folders, one inside the other; its root DSE
    names nothing, and any other base is no object of it.  The connection
    records the operations it is asked for. *)
Definition folders : list LDAPAdapter.Entry :=
  [ {| LDAPAdapter.dn := "dc=example,dc=org";
       LDAPAdapter.raw := [("dc", LDAPAdapter.Text "example")] |};
    {| LDAPAdapter.dn := "ou=people,dc=example,dc=org";
       LDAPAdapter.raw := [("ou", LDAPAdapter.Text "people")] |};
    {| LDAPAdapter.dn := "ou=staff,ou=people,dc=example,dc=org";
       LDAPAdapter.raw := [("ou", LDAPAdapter.Buffer "staff")] |} ].

Definition directory : LDAPAdapter.Directory (list Call) :=
  {| LDAPAdapter.client_search := fun b options log =>
       (if String.eqb b "dc=example,dc=org" then inr folders
        else if String.eqb b "" then inr []
        else inl (JS.Error "Search failed. Code: 0x20 NO_OBJECT"),
        (log ++ [("search", [JS.Str b; JS.Obj options])])%list);
     LDAPAdapter.client_add := fun d attributes log =>
       (inr tt, (log ++ [("add", [d; attributes])])%list);
     LDAPAdapter.client_modify := fun d change log =>
       (inr tt, (log ++ [("modify", [d; change])])%list);
     LDAPAdapter.client_del := fun d log =>
       (inr tt, (log ++ [("del", [d])])%list);
     LDAPAdapter.client_compare := fun d attribute value log =>
       (inr (JS.Bool true), (log ++ [("compare", [d; attribute; value])])%list) |}.

(** [Buffer.toString] on text that is ASCII already. *)
Definition utf8 (bytes : string) : string := bytes.

(** A Redis connection that records the commands it is sent; the store
    behind it holds the one string key "greeting". *)
Definition holds (key : JS.Value) : bool :=
  match key with
  | JS.Str k => String.eqb k "greeting"
  | _ => false
  end.

Definition redis_client : RedisAdapter.Client (list Call) :=
  {| RedisAdapter.command := fun op args log =>
       (inr (JS.Str "OK"), (log ++ [(op, args)])%list);
     RedisAdapter.client_exists := fun key log =>
       (inr (if holds key then 1%Z else 0%Z), (log ++ [("exists", [key])])%list);
     RedisAdapter.client_type := fun key log =>
       (inr (if holds key then "string" else "none"),
        (log ++ [("type", [key])])%list);
     RedisAdapter.zRangeWithScores := fun key start stop log =>
       (inr [], (log ++ [("zRangeWithScores", [key; start; stop])])%list) |}.

(** An environment with the given variables. *)
Definition environment (variables : list (string * string)) : Env :=
  fun k =>
    match find (fun p => String.eqb (fst p) k) variables with
    | Some p => Some (snd p)
    | None => None
    end.

(** An Active Directory that knows alice by her DN below the domain, and
    records the binds it is asked for. *)
Definition knows (dn password : JS.Value) : bool :=
  match dn, password with
  | JS.Str d, JS.Str p =>
      String.eqb d "CN=alice,DC=example,DC=com" && String.eqb p "wonderland"
  | _, _ => false
  end.

Definition active_directory : LDAPAdapter.Client (list Call) :=
  {| LDAPAdapter.client_bind := fun dn password log =>
       (if knows dn password then inr tt
        else inl (JS.Error "Invalid Credentials"),
        (log ++ [("bind", [dn; password])])%list);
     LDAPAdapter.client_unbind := fun log => (inr tt, (log ++ [("unbind", [])])%list) |}.

(** [String(error)] for an error without a message. *)
Definition name_of (error : JS.Thrown) : string := "Error".

(** [new URL] on connection strings in the key=value form, none of which
    is a URL. *)
Definition no_url : string -> option MySQLAdapter.URL.t := fun _ => None.

(** [db.close()] on the recording database file. *)
Definition sqlite_close : SQLiteAdapter.Database -> Eff (list string) unit :=
  fun _ => ret tt.

End Sample.

(* ================================================================== *)
(** ** Basic facts *)

Lemma lookup_case_absent (labels : list (string * Case)) (name : string) :
  ~ In name (map fst labels) -> lookup_case labels name = None.
Proof.
  induction labels as [|[l c] rest IH]; simpl; intros Hnot.
  - reflexivity.
  - destruct (String.eqb_spec l name) as [E|E].
    + exfalso. apply Hnot. now left.
    + apply IH. intros Hin. apply Hnot. now right.
Qed.

Lemma case_labels_registry : map fst case_labels = map Tool.name registry.
Proof. reflexivity. Qed.

Lemma switch_unregistered (name : string) :
  ~ In name (map Tool.name registry) -> switch name = None.
Proof.
  intros Hnot. apply lookup_case_absent. now rewrite case_labels_registry.
Qed.

Lemma existsb_eqb_In (name : string) (l : list string) :
  existsb (String.eqb name) l = true <-> In name l.
Proof.
  rewrite existsb_exists. split.
  - intros [x [Hin Heq]]. apply String.eqb_eq in Heq. now subst.
  - intros Hin. exists name. split; [assumption | apply String.eqb_refl].
Qed.

Lemma env_isnt_false_zero (env : Env) :
  env_isnt env "READ_ONLY_MODE" "false" && env_isnt env "READ_ONLY_MODE" "0"
  = match env "READ_ONLY_MODE" with
    | Some v => negb (String.eqb v "false" || String.eqb v "0")
    | None => true
    end.
Proof.
  unfold env_isnt, env_is. destruct (env "READ_ONLY_MODE") as [v|]; [|reflexivity].
  now rewrite negb_orb.
Qed.

(* ================================================================== *)
(** ** The read-only policy *)

(** C1 (as the code has it).  The mode is [ReadWrite] exactly when
    READ_ONLY_MODE is the string "false" or the string "0", compared
    character by character; every other value, absence included, gives
    [ReadOnly].  So "false" and "0" give [ReadWrite], while "FALSE",
    "False", "", "true", "yes", "1" and an unset variable give
    [ReadOnly]. *)
Theorem C1_policy_mode_exact_tokens :
  forall (St : Type) (a : Adapter St),
    (forall env : Env,
        policy_mode (constructor a env)
        = match env "READ_ONLY_MODE" with
          | Some v => if String.eqb v "false" || String.eqb v "0"
                      then ReadWrite else ReadOnly
          | None => ReadOnly
          end)
    /\ policy_mode (constructor a (Sample.setenv "READ_ONLY_MODE" "false")) = ReadWrite
    /\ policy_mode (constructor a (Sample.setenv "READ_ONLY_MODE" "0")) = ReadWrite
    /\ policy_mode (constructor a (Sample.setenv "READ_ONLY_MODE" "FALSE")) = ReadOnly
    /\ policy_mode (constructor a (Sample.setenv "READ_ONLY_MODE" "False")) = ReadOnly
    /\ policy_mode (constructor a Sample.no_env) = ReadOnly
    /\ policy_mode (constructor a (Sample.setenv "READ_ONLY_MODE" "")) = ReadOnly
    /\ policy_mode (constructor a (Sample.setenv "READ_ONLY_MODE" "true")) = ReadOnly
    /\ policy_mode (constructor a (Sample.setenv "READ_ONLY_MODE" "yes")) = ReadOnly
    /\ policy_mode (constructor a (Sample.setenv "READ_ONLY_MODE" "1")) = ReadOnly.
Proof.
  intros St a. split; [|repeat split; reflexivity].
  intros env. unfold policy_mode, constructor. cbn [readOnly].
  rewrite env_isnt_false_zero.
  destruct (env "READ_ONLY_MODE") as [v|]; [|reflexivity].
  now destruct (String.eqb v "false" || String.eqb v "0").
Qed.

(** C1 (as stated) fails: the upper-case token "FALSE" does not give
    [ReadWrite]. *)
Lemma C1_uppercase_FALSE_is_read_only :
  policy_mode (constructor (Sample.adapter "PostgresAdapter")
                           (Sample.setenv "READ_ONLY_MODE" "FALSE"))
  <> ReadWrite.
Proof. discriminate. Qed.

(** [run_handler] unfolds the handler on a concrete tool name; [reach]
    then splits on what the adapter returns and on what the payload
    construction does with it. *)
Ltac run_handler :=
  cbv beta iota zeta delta
    [CallTool try_catch try_block catch_block bind ret throw call respond
     run_case switch lookup_case case_labels destructure destructure_defaulted
     table_and_schema
     only_for checkReadOnly type_error length_of trim_of text_response
     Request.name Request.arguments adapter isRedis isMongo isLDAP readOnly
     Tool.name String.eqb Ascii.eqb Bool.eqb negb andb method_of assoc
     adapter_method].

Ltac reach :=
  unfold reached;
  cbv beta iota zeta delta [arguments_of];
  run_handler;
  cbn [adapter_state calls];
  match goal with
  | |- context [invoke ?a ?m ?args ?st] =>
      destruct (invoke a m args st) as [[[?|?]|v] ?]; [| |try destruct v]
  end;
  cbn [fst snd];
  (split;
   [ reflexivity
   | first [ reflexivity
           | left; eexists; reflexivity
           | right; left; reflexivity
           | right; right; reflexivity ] ]).

Section Dispatch.

Context {RT : Runtime} {St : Type}.

(** C2.  With [readOnly] set, a call of any of the fifteen mutating
    operations resolves to the error envelope with the fixed read-only
    message, and the world is as before: no adapter method was invoked and
    the adapter's state is untouched. *)
Theorem C2_mutating_blocked_when_read_only
  (this : DatabaseMCPServer St) (a : Adapter St) (request : Request.t)
  (w : World St) :
  adapter this = Some a ->
  readOnly this = true ->
  In (Request.name request) mutating_operations ->
  CallTool this request w = (Resolved (error_response read_only_message), w).
Proof.
  intros Ha Hro Hin.
  destruct this as [ad r m l ro], request as [name args]; simpl in *; subst.
  unfold mutating_operations in Hin; simpl in Hin.
  repeat (destruct Hin as [Hin|Hin]; [subst name; reflexivity|]).
  contradiction.
Qed.

(** C5.  A name that no registry declares falls to the [default] case: the
    call resolves to the error envelope "Error: Unknown tool: <name>" and
    the world is as before, so no adapter method was invoked. *)
Theorem C5_unknown_operation
  (this : DatabaseMCPServer St) (a : Adapter St) (request : Request.t)
  (w : World St) :
  adapter this = Some a ->
  ~ In (Request.name request) (map Tool.name registry) ->
  CallTool this request w
  = (Resolved (unknown_tool_response (Request.name request)), w).
Proof.
  intros Ha Hnot. unfold CallTool, try_catch, try_block.
  rewrite Ha, (switch_unregistered _ Hnot). reflexivity.
Qed.

(** C3 (as the code has it).  A backend-native operation whose backend is
    not the active one resolves to an error envelope and leaves the world
    as it was.  Its message is the fixed read-only message when the
    operation is mutating and the server is read-only, and otherwise "This
    tool is only available for <backend>"; in both cases the response
    differs from the unknown-tool response for that name. *)
Theorem C3_foreign_native_tool_rejected
  (this : DatabaseMCPServer St) (a : Adapter St) (name : string)
  (args : option JS.Object) (w : World St) :
  adapter this = Some a ->
  native name = true ->
  flag_of this (applies_to name) = false ->
  let message :=
    if readOnly this && mutating name then read_only_message
    else "This tool is only available for " ++ backend_label (applies_to name) in
  CallTool this (Request.make name args) w = (Resolved (error_response message), w)
  /\ error_response message <> unknown_tool_response name.
Proof.
  intros Ha Hnat Hflag. cbv zeta.
  apply existsb_eqb_In in Hnat.
  destruct this as [ad r m l ro]; simpl in Ha; subst ad.
  simpl in Hnat.
  repeat (destruct Hnat as [Hnat|Hnat];
          [ subst name; cbn in Hflag; subst;
            destruct ro;
            (split; [reflexivity | intros Heq; vm_compute in Heq; discriminate Heq]) |]).
  contradiction.
Qed.

Lemma distinct_NoDup (l : list string) : distinct l = true -> NoDup l.
Proof.
  induction l as [|x rest IH]; simpl; intros H.
  - constructor.
  - apply andb_prop in H as [Hx Hrest]. constructor.
    + intros Hin. apply existsb_eqb_In in Hin. rewrite Hin in Hx. discriminate.
    + now apply IH.
Qed.

(** C7.  For every adapter class, the listed catalogue has no duplicate
    names and every listed operation is meant for the active backend kind:
    the generic tools for the SQL adapters, [redis_*] for Redis, [mongo_*]
    for MongoDB, [ldap_*] for LDAP.  Listing has no effect on the world and
    its result does not depend on the world, so two listings agree. *)
Theorem C7_catalog_sound_and_stable
  (a : Adapter St) (env : Env) (w w' : World St) :
  let this := constructor a env in
  NoDup (map Tool.name (ListTools this))
  /\ Forall (fun t => applies_to (Tool.name t) = active_kind this) (ListTools this)
  /\ ListTools_handler this w = (inr (ListTools this), w)
  /\ fst (ListTools_handler this w') = fst (ListTools_handler this w).
Proof.
  cbv zeta. unfold ListTools, active_kind, constructor. cbn [isRedis isMongo isLDAP].
  split; [|split; [|split; reflexivity]].
  - destruct (String.eqb_spec (constructor_name a) "RedisAdapter") as [E1|E1];
      destruct (String.eqb_spec (constructor_name a) "MongoAdapter") as [E2|E2];
      destruct (String.eqb_spec (constructor_name a) "LDAPAdapter") as [E3|E3];
      try (rewrite E1 in *; discriminate); try (rewrite E2 in *; discriminate);
      apply distinct_NoDup; reflexivity.
  - destruct (String.eqb_spec (constructor_name a) "RedisAdapter") as [E1|E1];
      destruct (String.eqb_spec (constructor_name a) "MongoAdapter") as [E2|E2];
      destruct (String.eqb_spec (constructor_name a) "LDAPAdapter") as [E3|E3];
      try (rewrite E1 in *; discriminate); try (rewrite E2 in *; discriminate);
      cbn [negb andb app]; repeat constructor.
Qed.

Lemma In_ListTools (this : DatabaseMCPServer St) (t : Tool.t) :
  In t (ListTools this) ->
  In t sql_tools
  \/ (isRedis this = true /\ In t redis_tools)
  \/ (isMongo this = true /\ In t mongo_tools)
  \/ (isLDAP this = true /\ In t ldap_tools).
Proof.
  unfold ListTools. intros H.
  apply in_app_or in H as [H|H].
  { left. destruct (negb (isRedis this) && negb (isMongo this) && negb (isLDAP this));
      [assumption | contradiction]. }
  apply in_app_or in H as [H|H].
  { right; left. destruct (isRedis this); [now split | contradiction]. }
  apply in_app_or in H as [H|H].
  { right; right; left. destruct (isMongo this); [now split | contradiction]. }
  right; right; right. destruct (isLDAP this); [now split | contradiction].
Qed.

(** The adapter test sits before the [try]: a server object without an
    adapter, which the constructor never makes, would reject instead of
    resolving. *)
Remark CallTool_without_adapter
  (r m l ro : bool) (request : Request.t) (w : World St) :
  CallTool {| adapter := None; isRedis := r; isMongo := m; isLDAP := l;
              readOnly := ro |} request w
  = (Rejected (JS.Error "Database adapter not initialized"), w).
Proof. reflexivity. Qed.

(** The generic tools carry no applicability test: on a read-write server
    of any backend, [execute_sql] goes to the adapter's [execute]. *)
Lemma execute_sql_passes_when_read_write
  (this : DatabaseMCPServer St) (a : Adapter St) (o : JS.Object) (w : World St) :
  adapter this = Some a ->
  readOnly this = false ->
  calls (snd (CallTool this (Request.make "execute_sql" (Some o)) w))
  = (calls w ++ [("execute", [JS.get o "sql"])])%list
  /\ fst (CallTool this (Request.make "execute_sql" (Some o)) w)
     = match fst (invoke a "execute" [JS.get o "sql"] (adapter_state w)) with
       | inl e => Resolved (error_response (errorMessage_of e))
       | inr result => Resolved (text_response result)
       end
  /\ adapter_state (snd (CallTool this (Request.make "execute_sql" (Some o)) w))
     = snd (invoke a "execute" [JS.get o "sql"] (adapter_state w)).
Proof.
  intros Ha Hrw.
  destruct this as [ad r m l ro]; cbn [adapter readOnly] in *; subst ad ro.
  run_handler.
  destruct (invoke a "execute" [JS.get o "sql"] (adapter_state w)) as [[e|v] s'];
    repeat split.
Qed.

End Dispatch.

(* ================================================================== *)
(** ** The SQLite handle and the read-only override *)

Section SQLite.

Context {RT : Runtime} {D Stmt : Type} (driver : SQLiteAdapter.Driver D Stmt).
Variable others : string -> list JS.Value -> Eff (SQLiteAdapter.State D) JS.Value.

(** [execute] on an open handle: a statement that prepares and whose run
    the driver refuses makes [execute] throw the driver's error. *)
Lemma execute_on_handle
  (this : SQLiteAdapter.State D) (handle : SQLiteAdapter.Database)
  (s : string) (stmt : Stmt) (e : JS.Thrown) (f1 f2 : D) :
  SQLiteAdapter.db this = Some handle ->
  SQLiteAdapter.prepare driver handle (JS.Str s) (SQLiteAdapter.file this)
  = (inr stmt, f1) ->
  SQLiteAdapter.run driver handle stmt [] f1 = (inl e, f2) ->
  SQLiteAdapter.execute driver (JS.Str s) None this
  = (inl e, {| SQLiteAdapter.db := Some handle; SQLiteAdapter.file := f2 |}).
Proof.
  intros Hdb Hprep Hrun.
  unfold SQLiteAdapter.execute, bind, get_state. rewrite Hdb.
  unfold SQLiteAdapter.on_file at 1. rewrite Hprep.
  cbn [SQLiteAdapter.command_of ret SQLiteAdapter.db SQLiteAdapter.file].
  unfold SQLiteAdapter.on_file.
  cbn [SQLiteAdapter.db SQLiteAdapter.file]. rewrite Hdb, Hrun. reflexivity.
Qed.

(** C9.  The SQLite adapter opens its file read-only unless READ_ONLY_MODE
    is exactly "false", whereas the server is read-only unless it is
    "false" or "0".  Under READ_ONLY_MODE = "0" the server is therefore
    read-write while the handle is read-only: [execute_sql] passes the
    read-only check, the adapter's [execute] is invoked and runs the
    statement on the read-only handle, and a statement that the driver
    refuses on such a handle comes back as an error envelope carrying the
    driver's message. *)
Theorem C9_sqlite_handle_read_only_under_zero
  (connectionString : string) (env : Env) (o : JS.Object) (s : string)
  (stmt : Stmt) (e : JS.Thrown) (f f1 f2 : D) (log : list Call) :
  let handle := {| SQLiteAdapter.path := SQLiteAdapter.dbPath_of connectionString;
                   SQLiteAdapter.readonly := true |} in
  let a := SQLiteAdapter.as_adapter driver others in
  let this := constructor a env in
  let w := {| adapter_state := SQLiteAdapter.constructor connectionString env f;
              calls := log |} in
  env "READ_ONLY_MODE" = Some "0" ->
  JS.get o "sql" = JS.Str s ->
  SQLiteAdapter.prepare driver handle (JS.Str s) f = (inr stmt, f1) ->
  SQLiteAdapter.run driver handle stmt [] f1 = (inl e, f2) ->
  (forall env' : Env,
      SQLiteAdapter.readonly_option env' = env_isnt env' "READ_ONLY_MODE" "false"
      /\ readOnly (constructor a env')
         = SQLiteAdapter.readonly_option env' && env_isnt env' "READ_ONLY_MODE" "0")
  /\ readOnly this = false
  /\ SQLiteAdapter.db (adapter_state w) = Some handle
  /\ CallTool this (Request.make "execute_sql" (Some o)) w
     = (Resolved (error_response (errorMessage_of e)),
        {| adapter_state := {| SQLiteAdapter.db := Some handle;
                               SQLiteAdapter.file := f2 |};
           calls := (log ++ [("execute", [JS.Str s])])%list |}).
Proof.
  cbv zeta. intros Henv Hsql Hprep Hrun.
  assert (Hopt : SQLiteAdapter.readonly_option env = true).
  { unfold SQLiteAdapter.readonly_option, env_isnt, env_is. now rewrite Henv. }
  assert (Hro : readOnly (constructor (SQLiteAdapter.as_adapter driver others) env)
                = false).
  { unfold constructor, env_isnt, env_is. cbn [readOnly]. now rewrite Henv. }
  split; [|split; [|split]].
  - intros env'. unfold SQLiteAdapter.readonly_option, constructor, env_isnt, env_is.
    cbn [readOnly]. destruct (env' "READ_ONLY_MODE") as [v|]; [|split; reflexivity].
    destruct (String.eqb_spec v "true") as [->|]; split; reflexivity.
  - exact Hro.
  - unfold SQLiteAdapter.constructor. cbn. now rewrite Hopt.
  - pose proof (execute_sql_passes_when_read_write
                  (constructor (SQLiteAdapter.as_adapter driver others) env)
                  (SQLiteAdapter.as_adapter driver others) o
                  {| adapter_state := SQLiteAdapter.constructor connectionString env f;
                     calls := log |} eq_refl Hro) as [Hcalls [Hresp Hstate]].
    destruct (CallTool _ _ _) as [r [st' cl']].
    rewrite Hsql in Hcalls, Hresp, Hstate.
    cbn [invoke SQLiteAdapter.as_adapter String.eqb Ascii.eqb Bool.eqb nth
         adapter_state calls fst snd] in Hcalls, Hresp, Hstate.
    unfold SQLiteAdapter.constructor in Hresp, Hstate.
    rewrite Hopt in Hresp, Hstate.
    rewrite (execute_on_handle
               {| SQLiteAdapter.db :=
                    Some {| SQLiteAdapter.path := SQLiteAdapter.dbPath_of connectionString;
                            SQLiteAdapter.readonly := true |};
                  SQLiteAdapter.file := f |}
               _ s stmt e f1 f2 eq_refl Hprep Hrun) in Hresp, Hstate.
    cbn [fst snd] in Hresp, Hstate.
    now subst.
Qed.

End SQLite.

(* ================================================================== *)
(** ** LDAP authentication *)

Section LDAP.

Context {RT : Runtime} {C : Type} (ldapts : LDAPAdapter.Client C).
Variable others : string -> list JS.Value -> Eff (LDAPAdapter.State C) JS.Value.

(** [authenticate] always returns a boolean; nothing is thrown. *)
Lemma authenticate_total (dn password : JS.Value) (this : LDAPAdapter.State C) :
  exists b this',
    LDAPAdapter.authenticate ldapts dn password this = (inr b, this').
Proof.
  unfold LDAPAdapter.authenticate, try_catch.
  match goal with |- context [match ?body this with _ => _ end] =>
    destruct (body this) as [[e|b] this'] end.
  - now exists false, this'.
  - now exists b, this'.
Qed.

Ltac authenticate_steps :=
  cbv beta iota zeta delta
    [LDAPAdapter.authenticate try_catch bind ret LDAPAdapter.bind
     LDAPAdapter.unbind LDAPAdapter.on_client get_state
     LDAPAdapter.has_credentials LDAPAdapter.client LDAPAdapter.url
     LDAPAdapter.bindDN LDAPAdapter.bindPassword fst snd completed];
  cbn [andb].

(** C10 (as the code has it).  [authenticate] never throws.  On a live
    client it returns [true] exactly when the bind with the given
    credentials, the unbind and, when original credentials are stored, the
    re-bind with them all complete, and [false] as soon as one of them
    fails; when it returns [true] the connection is left as the last of
    these steps left it, so the re-bind follows a successful bind and
    unbind.  With the LDAP adapter active and an arguments object present,
    [ldap_authenticate] resolves to a success envelope, [isError] absent,
    whose payload holds [dn] and a boolean [authenticated]. *)
Theorem C10_authenticate_never_throws
  (dn password : JS.Value) (this : LDAPAdapter.State C) (c : C) :
  LDAPAdapter.client this = Some c ->
  let r1 := LDAPAdapter.client_bind ldapts dn password c in
  let r2 := LDAPAdapter.client_unbind ldapts (snd r1) in
  let r3 :=
    if LDAPAdapter.has_credentials this
    then LDAPAdapter.client_bind ldapts
           (JS.Str (LDAPAdapter.bindDN this))
           (JS.Str (LDAPAdapter.bindPassword this)) (snd r2)
    else (inr tt, snd r2) in
  let ok := completed (fst r1) && completed (fst r2) && completed (fst r3) in
  (forall d p (st : LDAPAdapter.State C),
      exists b st', LDAPAdapter.authenticate ldapts d p st = (inr b, st'))
  /\ fst (LDAPAdapter.authenticate ldapts dn password this) = inr ok
  /\ (if ok
      then LDAPAdapter.client (snd (LDAPAdapter.authenticate ldapts dn password this))
           = Some (snd r3)
      else True)
  /\ (forall (env : Env) (o : JS.Object) (w : World (LDAPAdapter.State C)),
        exists b,
          fst (CallTool (constructor (LDAPAdapter.as_adapter ldapts others) env)
                        (Request.make "ldap_authenticate" (Some o)) w)
          = Resolved
              {| content :=
                   [ {| type := "text";
                        text := Some (JSON_stringify
                                        (JS.Obj [("dn", JS.get o "dn");
                                                 ("authenticated", JS.Bool b)])) |} ];
                 isError := None |}).
Proof.
  intros Hc. cbv zeta. split; [|split; [|split]].
  - intros d p st. apply authenticate_total.
  - destruct this as [cl u bd bp]; cbn [LDAPAdapter.client] in Hc; subst cl.
    authenticate_steps.
    destruct (LDAPAdapter.client_bind ldapts dn password c) as [[e1|[]] c1];
      authenticate_steps; [reflexivity|].
    destruct (LDAPAdapter.client_unbind ldapts c1) as [[e2|[]] c2];
      authenticate_steps; [reflexivity|].
    destruct (nonempty bd && nonempty bp); authenticate_steps; [|reflexivity].
    destruct (LDAPAdapter.client_bind ldapts (JS.Str bd) (JS.Str bp) c2)
      as [[e3|[]] c3]; reflexivity.
  - destruct this as [cl u bd bp]; cbn [LDAPAdapter.client] in Hc; subst cl.
    authenticate_steps.
    destruct (LDAPAdapter.client_bind ldapts dn password c) as [[e1|[]] c1];
      authenticate_steps; [exact I|].
    destruct (LDAPAdapter.client_unbind ldapts c1) as [[e2|[]] c2];
      authenticate_steps; [exact I|].
    destruct (nonempty bd && nonempty bp); authenticate_steps; [|reflexivity].
    destruct (LDAPAdapter.client_bind ldapts (JS.Str bd) (JS.Str bp) c2)
      as [[e3|[]] c3]; authenticate_steps; [exact I | reflexivity].
  - intros env o w.
    destruct (authenticate_total (JS.get o "dn") (JS.get o "password")
                (adapter_state w)) as [b [st' Hauth]].
    exists b. run_handler.
    cbv beta iota zeta delta
      [constructor constructor_name LDAPAdapter.as_adapter isLDAP adapter
       String.eqb Ascii.eqb Bool.eqb negb invoke nth bind ret fst snd].
    rewrite Hauth. reflexivity.
Qed.

End LDAP.

(* ================================================================== *)
(** ** The theorems at concrete requests *)

Lemma C2_redis_set_blocked :
  let a := Sample.adapter "RedisAdapter" in
  let this := constructor a Sample.no_env in
  let request :=
    Request.make "redis_set" (Some [("key", JS.Str "k"); ("value", JS.Str "v")]) in
  adapter this = Some a
  /\ readOnly this = true
  /\ In (Request.name request) mutating_operations
  /\ @CallTool Sample.runtime unit this request Sample.world
     = (Resolved (error_response read_only_message), Sample.world).
Proof.
  cbv zeta.
  assert (H3 : In "redis_set" mutating_operations) by (simpl; tauto).
  split; [reflexivity | split; [reflexivity | split; [exact H3|]]].
  apply (@C2_mutating_blocked_when_read_only Sample.runtime unit
           (constructor (Sample.adapter "RedisAdapter") Sample.no_env)
           (Sample.adapter "RedisAdapter")); [reflexivity | reflexivity | exact H3].
Defined.

(** C3 (as stated) fails: on a PostgreSQL server the response to
    [redis_get] is not the unknown-tool response, neither the one for its
    own name nor the one an unregistered name gets, so the caller can tell
    that the operation exists for another backend. *)
Lemma C3_redis_get_on_postgres_is_told_apart :
  let this := constructor (Sample.adapter "PostgresAdapter") Sample.no_env in
  let args := Some [("key", JS.Str "k")] in
  fst (@CallTool Sample.runtime unit this (Request.make "redis_get" args) Sample.world)
  = Resolved (error_response "This tool is only available for Redis")
  /\ fst (@CallTool Sample.runtime unit this (Request.make "no_such_tool" args) Sample.world)
     = Resolved (error_response "Unknown tool: no_such_tool")
  /\ fst (@CallTool Sample.runtime unit this (Request.make "redis_get" args) Sample.world)
     <> Resolved (unknown_tool_response "redis_get")
  /\ fst (@CallTool Sample.runtime unit this (Request.make "redis_get" args) Sample.world)
     <> fst (@CallTool Sample.runtime unit this (Request.make "no_such_tool" args)
               Sample.world).
Proof.
  cbv zeta. repeat split; try reflexivity;
    intros Heq; vm_compute in Heq; discriminate Heq.
Qed.

Lemma C3_redis_get_on_postgres :
  let a := Sample.adapter "PostgresAdapter" in
  let this := constructor a Sample.no_env in
  adapter this = Some a
  /\ native "redis_get" = true
  /\ flag_of this (applies_to "redis_get") = false
  /\ @CallTool Sample.runtime unit this
       (Request.make "redis_get" (Some [("key", JS.Str "k")])) Sample.world
     = (Resolved (error_response "This tool is only available for Redis"),
        Sample.world).
Proof.
  cbv zeta. split; [reflexivity | split; [reflexivity | split; [reflexivity|]]].
  exact (proj1 (@C3_foreign_native_tool_rejected Sample.runtime unit
                  (constructor (Sample.adapter "PostgresAdapter") Sample.no_env)
                  (Sample.adapter "PostgresAdapter") "redis_get"
                  (Some [("key", JS.Str "k")]) Sample.world
                  eq_refl eq_refl eq_refl)).
Defined.

Lemma C5_drop_database_unknown :
  let a := Sample.adapter "MongoAdapter" in
  let this := constructor a Sample.no_env in
  let request := Request.make "drop_database" None in
  adapter this = Some a
  /\ ~ In (Request.name request) (map Tool.name registry)
  /\ @CallTool Sample.runtime unit this request Sample.world
     = (Resolved (error_response "Unknown tool: drop_database"), Sample.world).
Proof.
  cbv zeta.
  assert (H2 : ~ In "drop_database" (map Tool.name registry)).
  { intros Hin. apply existsb_eqb_In in Hin. vm_compute in Hin. discriminate Hin. }
  split; [reflexivity | split; [exact H2|]].
  apply (@C5_unknown_operation Sample.runtime unit
           (constructor (Sample.adapter "MongoAdapter") Sample.no_env)
           (Sample.adapter "MongoAdapter") (Request.make "drop_database" None));
    [reflexivity | exact H2].
Defined.

Lemma C9_delete_under_zero :
  let env := Sample.setenv "READ_ONLY_MODE" "0" in
  let handle := {| SQLiteAdapter.path := "./database.sqlite";
                   SQLiteAdapter.readonly := true |} in
  let a := SQLiteAdapter.as_adapter (RT := Sample.runtime)
             Sample.sqlite_driver Sample.no_others in
  let o := [("sql", JS.Str "DELETE FROM t")] in
  let refusal := JS.Error "attempt to write a readonly database" in
  env "READ_ONLY_MODE" = Some "0"
  /\ JS.get o "sql" = JS.Str "DELETE FROM t"
  /\ SQLiteAdapter.prepare Sample.sqlite_driver handle (JS.Str "DELETE FROM t") []
     = (inr "DELETE FROM t", [])
  /\ SQLiteAdapter.run Sample.sqlite_driver handle "DELETE FROM t" [] []
     = (inl refusal, [])
  /\ readOnly (constructor a env) = false
  /\ @CallTool Sample.runtime _ (constructor a env)
       (Request.make "execute_sql" (Some o))
       {| adapter_state :=
            SQLiteAdapter.constructor "sqlite://./database.sqlite" env [];
          calls := [] |}
     = (Resolved (error_response "attempt to write a readonly database"),
        {| adapter_state := {| SQLiteAdapter.db := Some handle;
                               SQLiteAdapter.file := [] |};
           calls := [("execute", [JS.Str "DELETE FROM t"])] |}).
Proof.
  cbv zeta.
  split; [reflexivity | split; [reflexivity | split; [reflexivity | split; [reflexivity|]]]].
  pose proof (@C9_sqlite_handle_read_only_under_zero Sample.runtime _ _
                Sample.sqlite_driver Sample.no_others
                "sqlite://./database.sqlite" (Sample.setenv "READ_ONLY_MODE" "0")
                [("sql", JS.Str "DELETE FROM t")] "DELETE FROM t" "DELETE FROM t"
                (JS.Error "attempt to write a readonly database") [] [] [] []
                eq_refl eq_refl eq_refl eq_refl) as [_ [Hro [_ Hcall]]].
  split; [exact Hro | exact Hcall].
Defined.

Lemma C10_alice_authenticates :
  let dn := JS.Str "cn=alice,dc=example,dc=org" in
  let password := JS.Str "wonderland" in
  let admin := [JS.Str "cn=admin,dc=example,dc=org"; JS.Str "admin-secret"] in
  LDAPAdapter.client Sample.ldap_state = Some [("bind", admin)]
  /\ fst (LDAPAdapter.authenticate Sample.ldap_client dn password Sample.ldap_state)
     = inr true
  /\ LDAPAdapter.client
       (snd (LDAPAdapter.authenticate Sample.ldap_client dn password Sample.ldap_state))
     = Some [ ("bind", admin); ("bind", [dn; password]); ("unbind", []);
              ("bind", admin) ].
Proof.
  cbv zeta. split; [reflexivity|].
  pose proof (@C10_authenticate_never_throws Sample.runtime _
                Sample.ldap_client Sample.no_others
                (JS.Str "cn=alice,dc=example,dc=org") (JS.Str "wonderland")
                Sample.ldap_state
                [("bind", [JS.Str "cn=admin,dc=example,dc=org"; JS.Str "admin-secret"])]
                eq_refl) as [_ [Hres [Hconn _]]].
  split; [exact Hres | exact Hconn].
Defined.

(** C10 (as stated) fails.  With the administrator's credentials stored, a
    failed authentication is answered [false] and the failed bind is the
    last operation the client sees: there is no re-bind with the stored
    credentials.  A bind that succeeds is still answered [false] when the
    re-bind with stored, stale credentials fails.  And on a server whose
    adapter is not the LDAP one, or without an arguments object,
    [ldap_authenticate] resolves to an error envelope. *)
Lemma C10_failed_bind_is_not_followed_by_rebind :
  let eve := JS.Str "cn=eve,dc=example,dc=org" in
  let alice := JS.Str "cn=alice,dc=example,dc=org" in
  let stale := {| LDAPAdapter.client := Some [];
                  LDAPAdapter.url := "ldap://localhost:389";
                  LDAPAdapter.bindDN := "cn=admin,dc=example,dc=org";
                  LDAPAdapter.bindPassword := "changed-since" |} in
  LDAPAdapter.has_credentials Sample.ldap_state = true
  /\ fst (LDAPAdapter.authenticate Sample.ldap_client eve (JS.Str "guess")
            Sample.ldap_state) = inr false
  /\ LDAPAdapter.client
       (snd (LDAPAdapter.authenticate Sample.ldap_client eve (JS.Str "guess")
               Sample.ldap_state))
     = Some [ ("bind", [JS.Str "cn=admin,dc=example,dc=org"; JS.Str "admin-secret"]);
              ("bind", [eve; JS.Str "guess"]) ]
  /\ Sample.accepts alice (JS.Str "wonderland") = true
  /\ fst (LDAPAdapter.authenticate Sample.ldap_client alice (JS.Str "wonderland")
            stale) = inr false
  /\ fst (@CallTool Sample.runtime _
            (constructor (Sample.adapter "PostgresAdapter") Sample.no_env)
            (Request.make "ldap_authenticate"
               (Some [("dn", alice); ("password", JS.Str "wonderland")]))
            Sample.world)
     = Resolved (error_response "This tool is only available for LDAP")
  /\ fst (@CallTool Sample.runtime _
            (constructor (LDAPAdapter.as_adapter Sample.ldap_client Sample.no_others)
                         Sample.no_env)
            (Request.make "ldap_authenticate" None)
            {| adapter_state := Sample.ldap_state; calls := [] |})
     = Resolved (error_response
                   "Cannot destructure property 'dn' of 'args' as it is undefined.").
Proof. cbv zeta. repeat split. Qed.

(** An error thrown by the adapter is reported in the envelope. *)
Example adapter_error_is_enveloped :
  @CallTool Sample.runtime unit
    (constructor (Sample.failing_adapter "PostgresAdapter" "connection refused")
                 Sample.no_env)
    (Request.make "list_schemas" None) Sample.world
  = (Resolved (error_response "connection refused"),
     {| adapter_state := tt; calls := [("listSchemas", [])] |}).
Proof. reflexivity. Qed.

(** A statement with leading blanks and in lower case passes the test of
    the [query] case and reaches the adapter. *)
Example query_select_reaches_adapter :
  calls (snd (@CallTool Sample.runtime unit
                (constructor (Sample.adapter "PostgresAdapter") Sample.no_env)
                (Request.make "query" (Some [("sql", JS.Str "  select 1")]))
                Sample.world))
  = [("query", [JS.Str "  select 1"])].
Proof. reflexivity. Qed.

(** The generic tools are dispatched on every backend: on a Redis server
    [list_tables], which the catalogue does not list, still reaches the
    adapter. *)
Example generic_tool_dispatched_on_redis :
  existsb (String.eqb "list_tables")
    (map Tool.name (ListTools (constructor (Sample.adapter "RedisAdapter") Sample.no_env)))
  = false
  /\ calls (snd (@CallTool Sample.runtime unit
                   (constructor (Sample.adapter "RedisAdapter") Sample.no_env)
                   (Request.make "list_tables" None) Sample.world))
     = [("listTables", [JS.Str "public"])].
Proof. split; reflexivity. Qed.

(* ================================================================== *)
(** ** More about the dispatcher *)

(** [crack] unfolds the handler and splits on the flags, on the presence
    of the arguments and on what the adapter returned, until the run is
    decided. *)
Ltac crack :=
  run_handler;
  repeat match goal with
         | |- context [match ?x with _ => _ end] =>
             is_var x; destruct x; run_handler
         | |- context [match JS.get ?o ?k with _ => _ end] =>
             destruct (JS.get o k) eqn:?; run_handler
         | |- context [match is_select ?t with _ => _ end] =>
             destruct (is_select t) eqn:?; run_handler
         | |- context [invoke ?a ?m ?args ?st] =>
             let r := fresh "r" in
             let s := fresh "s" in
             destruct (invoke a m args st) as [r s] eqn:?; run_handler
         end.

Section DispatchMore.

Context {RT : Runtime} {St : Type}.

(** What one run of the handler does.  Either the handler stopped with an
    error of its own and the world is as it was; or it reached exactly one
    adapter method that some tool stands for, which on a read-only server
    is none of the mutating ones. *)
Lemma CallTool_trace
  (this : DatabaseMCPServer St) (a : Adapter St) (request : Request.t)
  (w : World St) :
  adapter this = Some a ->
  (exists message,
      CallTool this request w = (Resolved (error_response message), w))
  \/ exists m args,
       existsb (String.eqb m) (map snd adapter_method) = true
       /\ reached a m args w (CallTool this request w)
       /\ (readOnly this = true -> existsb (String.eqb m) mutating_methods = false).
Proof.
  intros Ha.
  destruct this as [ad r m l ro], request as [name args], w as [st cl].
  cbn [adapter] in Ha; subst ad.
  unfold CallTool, try_catch, try_block.
  cbn [adapter Request.name Request.arguments readOnly].
  destruct (switch name) as [c|]; [|left; eexists; reflexivity].
  destruct c; crack;
    first
      [ left; eexists; reflexivity
      | right;
        match goal with
        | H : invoke _ ?m ?margs _ = _ |- _ =>
            exists m, margs; unfold reached;
            cbn [adapter_state calls fst snd] in *; rewrite H; cbn [fst snd];
            repeat match goal with t : JS.Thrown |- _ => destruct t end;
            (split; [reflexivity|];
             split; [|first [reflexivity | discriminate]];
             split; [reflexivity|];
             first [ reflexivity
                   | left; eexists; reflexivity
                   | right; left; reflexivity
                   | right; right; reflexivity ])
        end ].
Qed.

(** X1.  One run of the CallTool handler invokes at most one adapter
    method: the world is left as it was, or the record of invocations
    grows by exactly one call of a method that some tool stands for, and the
    adapter's state is the one that method left.  The handler itself never
    touches the adapter's state. *)
Theorem X1_at_most_one_adapter_call
  (this : DatabaseMCPServer St) (a : Adapter St) (request : Request.t)
  (w : World St) :
  adapter this = Some a ->
  snd (CallTool this request w) = w
  \/ exists m args,
       existsb (String.eqb m) (map snd adapter_method) = true
       /\ calls (snd (CallTool this request w)) = (calls w ++ [(m, args)])%list
       /\ adapter_state (snd (CallTool this request w))
          = snd (invoke a m args (adapter_state w)).
Proof.
  intros Ha.
  destruct (CallTool_trace this a request w Ha)
    as [[message H]|[m [args [H1 [[H2 _] _]]]]].
  - left. now rewrite H.
  - right. exists m, args. rewrite H2. now repeat split.
Qed.


Lemma not_grown {A : Type} (l : list A) (x : A) : l <> (l ++ [x])%list.
Proof.
  intros H. apply (f_equal (@List.length A)) in H.
  rewrite length_app in H. cbn in H. lia.
Qed.

(** C6.  On a server made by the constructor the handler always resolves;
    it never rejects.  The answer is a success envelope, or the envelope
    whose single text item is "Error: " followed by a message and whose
    [isError] is [true].  It is the latter whenever the handler stops
    before it reaches the adapter, by validation, by the read-only check
    or by the applicability check.  And when the adapter method that was
    invoked throws, the message is that of the error thrown, and for a
    thrown value that is no [Error], its conversion to a string. *)
Theorem C6_errors_become_envelopes
  (a : Adapter St) (env : Env) (request : Request.t) (w : World St) :
  let outcome := CallTool (constructor a env) request w in
  let envelope (message : string) : Response :=
    {| content := [ {| type := "text"; text := Some ("Error: " ++ message) |} ];
       isError := Some true |} in
  exists response,
    fst outcome = Resolved response
    /\ (isError response = None \/ exists message, response = envelope message)
    /\ (snd outcome = w -> exists message, response = envelope message)
    /\ (forall m args,
          calls (snd outcome) = (calls w ++ [(m, args)])%list ->
          adapter_state (snd outcome) = snd (invoke a m args (adapter_state w))
          /\ (forall message,
                fst (invoke a m args (adapter_state w)) = inl (JS.Error message) ->
                response = envelope message)
          /\ (forall as_string,
                fst (invoke a m args (adapter_state w))
                = inl (JS.NonError as_string) ->
                response = envelope as_string)).
Proof.
  cbv zeta.
  destruct (CallTool_trace (constructor a env) a request w eq_refl)
    as [[message H]|[m0 [args0 [_ [[H1 H2] _]]]]].
  - rewrite H. cbn [fst snd]. exists (error_response message).
    split; [reflexivity|]. split; [right; now exists message|].
    split; [intros _; now exists message|].
    intros m args Hcalls. now destruct (not_grown _ _ Hcalls).
  - destruct (CallTool (constructor a env) request w) as [settled w'].
    cbn [fst snd] in *. subst w'. cbn [calls adapter_state].
    destruct (invoke a m0 args0 (adapter_state w)) as [[error|v] st'] eqn:Hinv;
      cbn [fst snd] in H2.
    + assert (E : settled = Resolved (error_response (errorMessage_of error)))
        by (now destruct error).
      clear H2. subst settled. exists (error_response (errorMessage_of error)).
      split; [reflexivity|].
      split; [right; now exists (errorMessage_of error)|].
      split.
      { intros Hw. apply (f_equal calls) in Hw. cbn [calls] in Hw.
        symmetry in Hw. now destruct (not_grown _ _ Hw). }
      intros m args Hcalls. apply app_inv_head in Hcalls.
      injection Hcalls as <- <-. rewrite Hinv. cbn [fst snd].
      split; [reflexivity|].
      split; intros x Hx; injection Hx as ->; reflexivity.
    + assert (G : exists response,
                 settled = Resolved response
                 /\ (isError response = None
                     \/ exists message, response = error_response message)).
      { destruct H2 as [[payload H2]|[H2|H2]]; subst settled;
          eexists; (split; [reflexivity|]);
          first [ left; reflexivity | right; eexists; reflexivity ]. }
      destruct G as [response [-> G]]. exists response.
      split; [reflexivity|]. split; [exact G|].
      split.
      { intros Hw. apply (f_equal calls) in Hw. cbn [calls] in Hw.
        symmetry in Hw. now destruct (not_grown _ _ Hw). }
      intros m args Hcalls. apply app_inv_head in Hcalls.
      injection Hcalls as <- <-. rewrite Hinv. cbn [fst snd].
      split; [reflexivity|]. split; intros x Hx; discriminate Hx.
Qed.

(** A listed tool is a registered one, and a listed native tool is one of
    the active backend. *)
Lemma listed_is_registered (this : DatabaseMCPServer St) (t : Tool.t) :
  In t (ListTools this) -> In (Tool.name t) (map Tool.name registry).
Proof.
  intros Hin. apply In_ListTools in Hin.
  unfold registry. rewrite !map_app, !in_app_iff.
  destruct Hin as [H|[[_ H]|[[_ H]|[_ H]]]];
    [left | right; left | right; right; left | right; right; right];
    now apply in_map.
Qed.

Lemma listed_native_is_active (this : DatabaseMCPServer St) (t : Tool.t) :
  In t (ListTools this) ->
  native (Tool.name t) = true ->
  flag_of this (applies_to (Tool.name t)) = true.
Proof.
  intros Hin Hnat. apply In_ListTools in Hin.
  destruct Hin as [H|[[Hf H]|[[Hf H]|[Hf H]]]]; simpl in H;
    repeat (destruct H as [H|H];
            [subst t; first [discriminate Hnat | exact Hf] |]);
    contradiction.
Qed.

(** Well-formed arguments of [query] hold a statement that passes the
    statement test. *)
Lemma well_formed_query (t : Tool.t) (o : JS.Object) :
  well_formed t (Some o) = true ->
  Tool.name t = "query" ->
  exists s, JS.get o "sql" = JS.Str s /\ is_select (JS.trim s) = true.
Proof.
  intros Hwf Hname. unfold well_formed in Hwf. rewrite Hname in Hwf.
  apply andb_prop in Hwf as [_ Hwf]. cbn [String.eqb Ascii.eqb Bool.eqb] in Hwf.
  destruct (JS.get o "sql") as [| | | |s| |]; try discriminate Hwf.
  now exists s.
Qed.

(** A registered tool whose guards pass reaches its adapter method with
    the arguments of its case: the backend flag for a native tool, a
    read-write server for a mutating tool, and the statement test for
    [query]. *)
Lemma guarded_tool_reaches_adapter
  (this : DatabaseMCPServer St) (a : Adapter St) (name : string)
  (o : JS.Object) (w : World St) :
  adapter this = Some a ->
  In name (map Tool.name registry) ->
  (native name = true -> flag_of this (applies_to name) = true) ->
  (mutating name = true -> readOnly this = false) ->
  (name = "query" ->
   exists s, JS.get o "sql" = JS.Str s /\ is_select (JS.trim s) = true) ->
  reached a (method_of name) (arguments_of name o) w
    (CallTool this (Request.make name (Some o)) w).
Proof.
  intros Ha Hin Hflag Hrw Hq.
  destruct this as [ad r m l ro], w as [st cl];
    cbn [adapter readOnly] in *; subst ad.
  simpl in Hin.
  destruct Hin as [Hin|Hin].
  { subst name. destruct (Hq eq_refl) as [s [Hsql Hsel]].
    unfold reached. cbv beta iota zeta delta [arguments_of].
    run_handler. rewrite Hsql. run_handler. rewrite Hsel. reach. }
  clear Hq.
  repeat (destruct Hin as [Hin|Hin];
          [ subst name;
            try (specialize (Hflag eq_refl); cbn in Hflag; subst);
            try (specialize (Hrw eq_refl); subst);
            reach |]).
  contradiction.
Qed.

(** X3.  On a read-write server every listed mutating operation, called
    with an arguments object, reaches the adapter method it stands for:
    the method is invoked once, on the adapter's state, with the arguments
    that the case reads off the arguments object, and what it throws comes
    back in the error envelope.  The read-only check is the only thing that
    keeps the fifteen mutating tools from the adapter. *)
Theorem X3_mutating_reaches_adapter_when_read_write
  (this : DatabaseMCPServer St) (a : Adapter St) (t : Tool.t)
  (o : JS.Object) (w : World St) :
  adapter this = Some a ->
  readOnly this = false ->
  In t (ListTools this) ->
  mutating (Tool.name t) = true ->
  reached a (method_of (Tool.name t)) (arguments_of (Tool.name t) o) w
    (CallTool this (Request.make (Tool.name t) (Some o)) w).
Proof.
  intros Ha Hrw Hin Hmut.
  apply guarded_tool_reaches_adapter; try assumption.
  - exact (listed_is_registered this t Hin).
  - exact (listed_native_is_active this t Hin).
  - intros _. exact Hrw.
  - intros Hname. rewrite Hname in Hmut. discriminate Hmut.
Qed.

(** C8.  On a read-only server, a call of a listed operation that is not
    mutating, with well-formed arguments, reaches the adapter method the
    operation stands for: that method is invoked, once, on the adapter's
    state and with the arguments that the case reads off the arguments
    object; the world afterwards is the state the method left and the old
    record followed by that invocation; an error of the method comes back
    in the error envelope, and when the method returns the answer is a
    success envelope (or the error of reading the length of what was
    returned).  The read-only check does not stand in the way. *)
Theorem C8_non_mutating_reaches_adapter
  (this : DatabaseMCPServer St) (a : Adapter St) (t : Tool.t)
  (args : option JS.Object) (w : World St) :
  adapter this = Some a ->
  readOnly this = true ->
  In t (ListTools this) ->
  mutating (Tool.name t) = false ->
  well_formed t args = true ->
  exists o,
    args = Some o
    /\ reached a (method_of (Tool.name t)) (arguments_of (Tool.name t) o) w
         (CallTool this (Request.make (Tool.name t) args) w).
Proof.
  intros Ha Hro Hin Hmut Hwf.
  destruct args as [o|]; [|discriminate Hwf].
  exists o. split; [reflexivity|].
  apply guarded_tool_reaches_adapter; try assumption.
  - exact (listed_is_registered this t Hin).
  - exact (listed_native_is_active this t Hin).
  - intros H. rewrite H in Hmut. discriminate Hmut.
  - now apply well_formed_query.
Qed.

End DispatchMore.

Section DispatchEdges.

Context {RT : Runtime} {St : Type}.

(** X4.  Without an arguments object, every registered tool other than
    [list_tables], [list_schemas], [list_views], [redis_dbsize],
    [mongo_list_collections] and [mongo_get_database_stats] resolves to an
    error envelope and leaves the world as it was: no adapter method is
    invoked.  This holds as well for the tools none of whose properties is
    required, such as [redis_info], [ldap_search_folder_structure] and
    [ldap_list_folders]. *)
Theorem X4_absent_arguments_are_an_error
  (this : DatabaseMCPServer St) (a : Adapter St) (name : string) (w : World St) :
  adapter this = Some a ->
  In name (map Tool.name registry) ->
  existsb (String.eqb name) no_argument_tools = false ->
  exists message,
    CallTool this (Request.make name None) w
    = (Resolved (error_response message), w).
Proof.
  intros Ha Hin Hnot.
  destruct this as [ad r m l ro]; cbn [adapter] in Ha; subst ad.
  simpl in Hin.
  repeat (destruct Hin as [Hin|Hin];
          [ subst name; first [discriminate Hnot | crack; eexists; reflexivity] |]).
  contradiction.
Qed.

(** X5.  The six tools that need no arguments reach their adapter method
    when the arguments object is absent, provided the backend matches for
    the native ones; [list_tables] and [list_views] then pass the schema
    "public". *)
Theorem X5_tools_without_arguments
  (this : DatabaseMCPServer St) (a : Adapter St) (name : string) (w : World St) :
  adapter this = Some a ->
  In name no_argument_tools ->
  (native name = true -> flag_of this (applies_to name) = true) ->
  calls (snd (CallTool this (Request.make name None) w))
  = (calls w
       ++ [(method_of name,
            if String.eqb name "list_tables" || String.eqb name "list_views"
            then [JS.Str "public"] else [])])%list.
Proof.
  intros Ha Hin Hflag.
  destruct this as [ad r m l ro]; cbn [adapter] in Ha; subst ad.
  simpl in Hin.
  repeat (destruct Hin as [Hin|Hin];
          [ subst name;
            try (specialize (Hflag eq_refl); cbn in Hflag; subst);
            crack; reflexivity |]).
  contradiction.
Qed.

(** X6.  The generic tools carry no backend test.  On a server whose
    adapter is the Redis, MongoDB or LDAP one, the catalogue lists none of
    them, and yet a call of any of them with well-formed arguments reaches
    the adapter method it stands for (for [execute_sql], on a read-write
    server): the method is invoked once, on the adapter's state, with the
    arguments that the case reads off the arguments object. *)
Theorem X6_generic_tools_are_dispatched_on_every_backend
  (a : Adapter St) (env : Env) (t : Tool.t) (args : option JS.Object)
  (w : World St) :
  let this := constructor a env in
  In t sql_tools ->
  active_kind this <> RelationalSQL ->
  well_formed t args = true ->
  (mutating (Tool.name t) = true -> readOnly this = false) ->
  existsb (String.eqb (Tool.name t)) (map Tool.name (ListTools this)) = false
  /\ exists o,
       args = Some o
       /\ reached a (method_of (Tool.name t)) (arguments_of (Tool.name t) o) w
            (CallTool this (Request.make (Tool.name t) args) w).
Proof.
  cbv zeta. intros Hin Hkind Hwf Hrw. split.
  - unfold ListTools, active_kind, constructor in *.
    cbn [isRedis isMongo isLDAP] in *.
    destruct (String.eqb_spec (constructor_name a) "RedisAdapter") as [E1|E1];
      destruct (String.eqb_spec (constructor_name a) "MongoAdapter") as [E2|E2];
      destruct (String.eqb_spec (constructor_name a) "LDAPAdapter") as [E3|E3];
      try (rewrite E1 in *; discriminate); try (rewrite E2 in *; discriminate);
      try (exfalso; apply Hkind; reflexivity);
      simpl in Hin;
      repeat (destruct Hin as [Hin|Hin]; [subst t; reflexivity|]);
      contradiction.
  - destruct args as [o|]; [|discriminate Hwf].
    exists o. split; [reflexivity|].
    apply guarded_tool_reaches_adapter.
    + reflexivity.
    + unfold registry. rewrite map_app, in_app_iff. left. now apply in_map.
    + intros Hnat. simpl in Hin.
      repeat (destruct Hin as [Hin|Hin]; [subst t; discriminate Hnat|]).
      contradiction.
    + exact Hrw.
    + now apply well_formed_query.
Qed.

End DispatchEdges.

(* ================================================================== *)
(** ** The statement test of [query] *)

Lemma append_assoc (x y z : string) : ((x ++ y) ++ z = x ++ (y ++ z))%string.
Proof. induction x as [|c x IH]; simpl; [reflexivity | now rewrite IH]. Qed.

Lemma reverse_append (x y acc : string) :
  JS.reverse (x ++ y) acc = JS.reverse y (JS.reverse x acc).
Proof.
  revert acc. induction x as [|c x IH]; intros acc; simpl; [reflexivity | apply IH].
Qed.

Lemma reverse_acc (s acc : string) :
  JS.reverse s acc = (JS.reverse s "" ++ acc)%string.
Proof.
  revert acc. induction s as [|c s IH]; intros acc; simpl; [reflexivity|].
  rewrite (IH (String c acc)), (IH (String c "")), append_assoc. reflexivity.
Qed.

(** Leading white space goes; the rest stays. *)
Lemma trimStart_blank_prefix (blank s : string) :
  JS.trimStart blank = "" -> JS.trimStart (blank ++ s) = JS.trimStart s.
Proof.
  induction blank as [|c blank IH]; simpl; intros H; [reflexivity|].
  destruct (JS.is_whitespace c); [now apply IH | discriminate H].
Qed.

(** [trimStart] keeps everything from a character that is not white
    space. *)
Lemma trimStart_keeps_suffix (x : string) (c : ascii) (y : string) :
  JS.is_whitespace c = false ->
  exists z, JS.trimStart (x ++ String c y) = (z ++ String c y)%string.
Proof.
  intros Hc. induction x as [|d x [z IH]]; simpl.
  - rewrite Hc. now exists "".
  - destruct (JS.is_whitespace d).
    + now exists z.
    + now exists (String d x).
Qed.

Lemma append_empty (x : string) : (x ++ "")%string = x.
Proof. induction x as [|c x IH]; simpl; [reflexivity | now rewrite IH]. Qed.

Lemma reverse_reverse (x acc acc' : string) :
  JS.reverse (JS.reverse x acc) acc' = JS.reverse acc (x ++ acc').
Proof.
  revert acc. induction x as [|c x IH]; intros acc; simpl; [reflexivity|].
  now rewrite IH.
Qed.

(** [trimEnd] keeps everything up to a character that is not white
    space. *)
Lemma trimEnd_keeps_prefix (x : string) (c : ascii) (y : string) :
  JS.is_whitespace c = false ->
  exists z, JS.trimEnd (x ++ String c y) = (x ++ String c z)%string.
Proof.
  intros Hc. unfold JS.trimEnd.
  rewrite reverse_append. simpl.
  rewrite (reverse_acc y).
  destruct (trimStart_keeps_suffix (JS.reverse y "") c (JS.reverse x "") Hc)
    as [z Hz].
  rewrite Hz, reverse_append. simpl.
  exists (JS.reverse z "").
  rewrite (reverse_acc (JS.reverse x "")), reverse_reverse. simpl.
  now rewrite append_empty.
Qed.

Lemma toUpperCase_append (x y : string) :
  JS.toUpperCase (x ++ y) = (JS.toUpperCase x ++ JS.toUpperCase y)%string.
Proof. induction x as [|c x IH]; simpl; [reflexivity | now rewrite IH]. Qed.

(** A character whose upper-case form is a letter is not white space. *)
Lemma letter_is_not_whitespace (c : ascii) :
  JS.is_letter (JS.upper c) = true -> JS.is_whitespace c = false.
Proof.
  destruct c as [[] [] [] [] [] [] [] []]; vm_compute; intros H;
    first [reflexivity | discriminate H].
Qed.

(** A statement that, after leading white space, starts with the word
    SELECT in any letter case passes the test, whatever follows. *)
Lemma is_select_by_prefix (blank word tail : string) :
  JS.trimStart blank = "" ->
  JS.toUpperCase word = "SELECT" ->
  is_select (JS.trim (blank ++ word ++ tail)) = true.
Proof.
  intros Hblank Hword.
  destruct word as [|c1 [|c2 [|c3 [|c4 [|c5 [|c6 [|c7 rest]]]]]]];
    try discriminate Hword.
  simpl in Hword. injection Hword as H1 H2 H3 H4 H5 H6.
  assert (N1 : JS.is_whitespace c1 = false)
    by (apply letter_is_not_whitespace; now rewrite H1).
  assert (N6 : JS.is_whitespace c6 = false)
    by (apply letter_is_not_whitespace; now rewrite H6).
  unfold JS.trim. rewrite (trimStart_blank_prefix _ _ Hblank).
  cbn [append JS.trimStart]. rewrite N1.
  change (String c1 (String c2 (String c3 (String c4 (String c5 (String c6 tail))))))
    with (String c1 (String c2 (String c3 (String c4 (String c5 "")))) ++ String c6 tail)%string.
  destruct (trimEnd_keeps_prefix
              (String c1 (String c2 (String c3 (String c4 (String c5 ""))))) c6 tail N6)
    as [z Hz].
  rewrite Hz. unfold is_select, JS.startsWith.
  cbn [append JS.toUpperCase]. rewrite H1, H2, H3, H4, H5, H6.
  cbn. now destruct (JS.toUpperCase z).
Qed.






Section SelectTest.

Context {RT : Runtime} {St : Type}.


End SelectTest.

Section SelectPrefix.

Context {RT : Runtime} {St : Type}.

(** X7.  The statement test of [query] looks at the first word only: a
    statement that, after leading white space, starts with SELECT in any
    letter case is handed to the adapter's [query] unchanged, whatever
    text follows the word, and on a read-only server as well as on a
    read-write one. *)
Theorem X7_query_passes_anything_after_select
  (this : DatabaseMCPServer St) (a : Adapter St) (o : JS.Object)
  (blank word tail : string) (w : World St) :
  adapter this = Some a ->
  JS.get o "sql" = JS.Str (blank ++ word ++ tail) ->
  JS.trimStart blank = "" ->
  JS.toUpperCase word = "SELECT" ->
  calls (snd (CallTool this (Request.make "query" (Some o)) w))
  = (calls w ++ [("query", [JS.Str (blank ++ word ++ tail)])])%list.
Proof.
  intros Ha Hsql Hblank Hword.
  destruct this as [ad r m l ro]; cbn [adapter] in Ha; subst ad.
  run_handler. rewrite Hsql. run_handler.
  rewrite (is_select_by_prefix blank word tail Hblank Hword).
  run_handler.
  destruct (invoke a "query" _ _) as [[e|v] s']; reflexivity.
Qed.

End SelectPrefix.


(* ================================================================== *)
(** ** The LDAP adapter: connection life cycle *)

Ltac ldap_steps :=
  cbv beta iota zeta delta
    [LDAPAdapter.authenticate try_catch bind ret throw LDAPAdapter.bind
     LDAPAdapter.unbind LDAPAdapter.on_client get_state
     LDAPAdapter.has_credentials LDAPAdapter.client LDAPAdapter.url
     LDAPAdapter.bindDN LDAPAdapter.bindPassword fst snd].

Section LDAPLifeCycle.

Context {C : Type} (ldapts : LDAPAdapter.Client C).

(** X8.  On a live client, [connect] with a non-empty DN and a non-empty
    password stores both before it binds: they are the stored credentials
    afterwards whether the bind succeeded or threw, and the outcome of
    [connect] is the outcome of that bind.  When the DN or the password is
    missing or empty, [connect] sends nothing and stores nothing. *)
Theorem X8_connect_stores_credentials_before_binding
  (d p : string) (this : LDAPAdapter.State C) (c : C) :
  LDAPAdapter.client this = Some c ->
  (nonempty d && nonempty p = true ->
   let after := LDAPAdapter.connect ldapts (Some d) (Some p) this in
   fst after = fst (LDAPAdapter.client_bind ldapts (JS.Str d) (JS.Str p) c)
   /\ LDAPAdapter.client (snd after)
      = Some (snd (LDAPAdapter.client_bind ldapts (JS.Str d) (JS.Str p) c))
   /\ LDAPAdapter.bindDN (snd after) = d
   /\ LDAPAdapter.bindPassword (snd after) = p)
  /\ (nonempty d && nonempty p = false ->
      LDAPAdapter.connect ldapts (Some d) (Some p) this = (inr tt, this))
  /\ LDAPAdapter.connect ldapts None (Some p) this = (inr tt, this)
  /\ LDAPAdapter.connect ldapts (Some d) None this = (inr tt, this).
Proof.
  intros Hc.
  destruct this as [cl u bd bp]; cbn [LDAPAdapter.client] in Hc; subst cl.
  unfold LDAPAdapter.connect, LDAPAdapter.remember, LDAPAdapter.bind,
    LDAPAdapter.on_client, bind, get_state, ret.
  cbn [LDAPAdapter.client LDAPAdapter.url LDAPAdapter.bindDN
       LDAPAdapter.bindPassword].
  split; [|split; [|split; reflexivity]].
  - intros H. rewrite H. cbn.
    now destruct (LDAPAdapter.client_bind ldapts (JS.Str d) (JS.Str p) c).
  - intros H. now rewrite H.
Qed.

(** X9.  [authenticate] changes nothing but the connection: the URL and the
    stored credentials are as before, and the client is absent afterwards
    exactly when it was absent before, in which case the answer is
    [false] and the state is untouched. *)
Theorem X9_authenticate_keeps_the_stored_credentials
  (d p : JS.Value) (this : LDAPAdapter.State C) :
  let after := snd (LDAPAdapter.authenticate ldapts d p this) in
  LDAPAdapter.url after = LDAPAdapter.url this
  /\ LDAPAdapter.bindDN after = LDAPAdapter.bindDN this
  /\ LDAPAdapter.bindPassword after = LDAPAdapter.bindPassword this
  /\ match LDAPAdapter.client this with
     | Some _ => LDAPAdapter.client after <> None
     | None => LDAPAdapter.authenticate ldapts d p this = (inr false, this)
     end.
Proof.
  cbv zeta. destruct this as [[c|] u bd bp].
  - ldap_steps.
    destruct (LDAPAdapter.client_bind ldapts d p c) as [[e1|[]] c1];
      ldap_steps; [repeat split; discriminate|].
    destruct (LDAPAdapter.client_unbind ldapts c1) as [[e2|[]] c2];
      ldap_steps; [repeat split; discriminate|].
    destruct (nonempty bd && nonempty bp); ldap_steps;
      [|repeat split; discriminate].
    destruct (LDAPAdapter.client_bind ldapts (JS.Str bd) (JS.Str bp) c2)
      as [[e3|[]] c3]; ldap_steps; repeat split; discriminate.
  - repeat split.
Qed.

End LDAPLifeCycle.


(* ================================================================== *)
(** ** The LDAP adapter: the folder structure *)

Lemma split_not_empty (sep : ascii) (s : string) : JS.split sep s <> [].
Proof.
  destruct s as [|c s]; simpl; [discriminate|].
  destruct (Ascii.eqb c sep); [discriminate|].
  destruct (JS.split sep s); discriminate.
Qed.

(** Joining the pieces of a split gives the string back. *)
Lemma join_split (s : string) : JS.join "," (JS.split ","%char s) = s.
Proof.
  unfold JS.join. induction s as [|c s IH]; [reflexivity|].
  simpl. destruct (Ascii.eqb_spec c ","%char) as [->|Hc].
  - destruct (JS.split "," s) as [|p ps] eqn:E.
    + now destruct (split_not_empty _ _ E).
    + change (String.concat "," ("" :: p :: ps))
        with (String "," (String.concat "," (p :: ps))).
      now rewrite IH.
  - destruct (JS.split "," s) as [|p ps] eqn:E.
    + now destruct (split_not_empty _ _ E).
    + rewrite <- IH. destruct ps; reflexivity.
Qed.

Lemma parent_dn_after_first_comma (d : string) :
  LDAPAdapter.parent_dn d = after_first_comma d.
Proof.
  unfold LDAPAdapter.parent_dn. induction d as [|c d IH]; [reflexivity|].
  cbn [JS.split after_first_comma].
  destruct (Ascii.eqb_spec c ","%char) as [->|Hc].
  - destruct (JS.split "," d) as [|p ps] eqn:E.
    + now destruct (split_not_empty _ _ E).
    + f_equal. rewrite <- E. apply join_split.
  - destruct (JS.split "," d) as [|p ps] eqn:E.
    + now destruct (split_not_empty _ _ E).
    + exact IH.
Qed.

Lemma keys_map_set (m : list LDAPAdapter.Folder) (f : LDAPAdapter.Folder) :
  map LDAPAdapter.f_dn (LDAPAdapter.map_set m f)
  = if existsb (String.eqb (LDAPAdapter.f_dn f)) (map LDAPAdapter.f_dn m)
    then map LDAPAdapter.f_dn m
    else (map LDAPAdapter.f_dn m ++ [LDAPAdapter.f_dn f])%list.
Proof.
  induction m as [|g m IH]; [reflexivity|].
  cbn [LDAPAdapter.map_set map existsb].
  rewrite (String.eqb_sym (LDAPAdapter.f_dn f)).
  destruct (String.eqb_spec (LDAPAdapter.f_dn g) (LDAPAdapter.f_dn f)) as [E|E].
  - cbn [orb map]. now rewrite E.
  - cbn [orb map]. rewrite IH.
    now destruct (existsb _ (map LDAPAdapter.f_dn m)).
Qed.

Lemma first_occurrences_ext (seen seen' ds : list string) :
  (forall x, existsb (String.eqb x) seen = existsb (String.eqb x) seen') ->
  first_occurrences seen ds = first_occurrences seen' ds.
Proof.
  revert seen seen'. induction ds as [|d ds IH]; intros seen seen' H; [reflexivity|].
  cbn [first_occurrences]. rewrite <- (H d).
  destruct (existsb (String.eqb d) seen); [now apply IH|].
  f_equal. apply IH. intros x. cbn [existsb]. now rewrite H.
Qed.

Lemma keys_first_pass (fs m : list LDAPAdapter.Folder) :
  map LDAPAdapter.f_dn (fold_left LDAPAdapter.map_set fs m)
  = (map LDAPAdapter.f_dn m
     ++ first_occurrences (map LDAPAdapter.f_dn m) (map LDAPAdapter.f_dn fs))%list.
Proof.
  revert m. induction fs as [|f fs IH]; intros m.
  - cbn. now rewrite app_nil_r.
  - cbn [fold_left map first_occurrences]. rewrite IH, keys_map_set.
    destruct (existsb (String.eqb (LDAPAdapter.f_dn f)) (map LDAPAdapter.f_dn m))
      eqn:E; [reflexivity|].
    rewrite <- app_assoc. cbn [app]. do 2 f_equal.
    apply first_occurrences_ext. intros x.
    rewrite existsb_app. cbn [existsb]. now rewrite orb_false_r, orb_comm.
Qed.

Lemma f_dn_folder_of (e : LDAPAdapter.Found) :
  LDAPAdapter.f_dn (LDAPAdapter.folder_of e) = LDAPAdapter.found_dn e.
Proof.
  unfold LDAPAdapter.folder_of.
  now destruct (LDAPAdapter.name_and_type _ _ _).
Qed.

Lemma f_parent_folder_of (e : LDAPAdapter.Found) :
  LDAPAdapter.f_parent (LDAPAdapter.folder_of e) = None.
Proof.
  unfold LDAPAdapter.folder_of.
  now destruct (LDAPAdapter.name_and_type _ _ _).
Qed.

Lemma parents_first_pass (fs m : list LDAPAdapter.Folder) :
  Forall (fun e => LDAPAdapter.f_parent e = None) fs ->
  Forall (fun e => LDAPAdapter.f_parent e = None) m ->
  Forall (fun e => LDAPAdapter.f_parent e = None)
         (fold_left LDAPAdapter.map_set fs m).
Proof.
  revert m. induction fs as [|f fs IH]; intros m Hfs Hm; [exact Hm|].
  inversion Hfs as [|? ? Hf Hfs']; subst. cbn [fold_left]. apply IH; [exact Hfs'|].
  clear IH Hfs Hfs'. induction m as [|g m IHm]; cbn [LDAPAdapter.map_set].
  - now constructor.
  - inversion Hm; subst.
    destruct (String.eqb (LDAPAdapter.f_dn g) (LDAPAdapter.f_dn f));
      constructor; auto.
Qed.

Lemma map_has_keys (m : list LDAPAdapter.Folder) (k : string) :
  LDAPAdapter.map_has m k = existsb (String.eqb k) (map LDAPAdapter.f_dn m).
Proof.
  unfold LDAPAdapter.map_has. induction m as [|g m IH]; [reflexivity|].
  cbn [LDAPAdapter.map_get map existsb]. rewrite (String.eqb_sym k).
  destruct (String.eqb (LDAPAdapter.f_dn g) k); [reflexivity | exact IH].
Qed.

Lemma link_keys (m : list LDAPAdapter.Folder) (d : string) :
  map LDAPAdapter.f_dn (LDAPAdapter.link m d) = map LDAPAdapter.f_dn m.
Proof.
  unfold LDAPAdapter.link.
  destruct (LDAPAdapter.parent_dn d) as [p|]; [|reflexivity].
  destruct (LDAPAdapter.map_has m p); [|reflexivity].
  unfold LDAPAdapter.map_update. rewrite !map_map. apply map_ext. intros g.
  destruct (String.eqb (LDAPAdapter.f_dn g) d); cbn [LDAPAdapter.f_dn];
    destruct (String.eqb (LDAPAdapter.f_dn g) p); reflexivity.
Qed.

Lemma link_parents (m : list LDAPAdapter.Folder) (d : string) (l : list string) :
  Forall (fun e => LDAPAdapter.f_parent e
                   = expected_parent (map LDAPAdapter.f_dn m) (LDAPAdapter.f_dn e)
                   \/ (LDAPAdapter.f_parent e = None
                       /\ In (LDAPAdapter.f_dn e) (d :: l))) m ->
  Forall (fun e => LDAPAdapter.f_parent e
                   = expected_parent (map LDAPAdapter.f_dn m) (LDAPAdapter.f_dn e)
                   \/ (LDAPAdapter.f_parent e = None
                       /\ In (LDAPAdapter.f_dn e) l)) (LDAPAdapter.link m d).
Proof.
  intros H. unfold LDAPAdapter.link.
  destruct (LDAPAdapter.parent_dn d) as [p|] eqn:Ep.
  - rewrite map_has_keys.
    destruct (existsb (String.eqb p) (map LDAPAdapter.f_dn m)) eqn:Eh.
    + unfold LDAPAdapter.map_update. rewrite map_map.
      apply Forall_map. eapply Forall_impl; [|exact H].
      intros g Hg. cbv beta.
      destruct (String.eqb_spec (LDAPAdapter.f_dn g) d) as [E|E].
      * cbn [LDAPAdapter.f_dn].
        destruct (String.eqb (LDAPAdapter.f_dn g) p);
          cbn [LDAPAdapter.f_parent LDAPAdapter.f_dn];
          left; unfold expected_parent; rewrite E, Ep, Eh; reflexivity.
      * destruct (String.eqb (LDAPAdapter.f_dn g) p);
          cbn [LDAPAdapter.f_parent LDAPAdapter.f_dn];
          (destruct Hg as [Hg|[Hn [Hd|Hl]]];
           [now left | now destruct E | now right]).
    + eapply Forall_impl; [|exact H]. intros g [Hg|[Hn [Hd|Hl]]].
      * now left.
      * left. unfold expected_parent. rewrite <- Hd, Ep, Eh. exact Hn.
      * now right.
  - eapply Forall_impl; [|exact H]. intros g [Hg|[Hn [Hd|Hl]]].
    + now left.
    + left. unfold expected_parent. rewrite <- Hd, Ep. exact Hn.
    + now right.
Qed.

Lemma second_pass (l : list string) (m : list LDAPAdapter.Folder) :
  Forall (fun e => LDAPAdapter.f_parent e
                   = expected_parent (map LDAPAdapter.f_dn m) (LDAPAdapter.f_dn e)
                   \/ (LDAPAdapter.f_parent e = None
                       /\ In (LDAPAdapter.f_dn e) l)) m ->
  map LDAPAdapter.f_dn (fold_left LDAPAdapter.link l m) = map LDAPAdapter.f_dn m
  /\ Forall (fun e => LDAPAdapter.f_parent e
                      = expected_parent (map LDAPAdapter.f_dn m) (LDAPAdapter.f_dn e))
            (fold_left LDAPAdapter.link l m).
Proof.
  revert m. induction l as [|d l IH]; intros m H.
  - split; [reflexivity|]. eapply Forall_impl; [|exact H].
    intros g [Hg|[_ []]]. exact Hg.
  - cbn [fold_left]. pose proof (link_parents m d l H) as H'.
    rewrite <- (link_keys m d) in H'.
    destruct (IH _ H') as [K P]. rewrite link_keys in K, P. now split.
Qed.

Lemma entry_map_parents (entries : list LDAPAdapter.Found) :
  map LDAPAdapter.f_dn (LDAPAdapter.entry_map entries)
  = first_occurrences [] (map LDAPAdapter.found_dn entries)
  /\ Forall (fun e => LDAPAdapter.f_parent e
                      = expected_parent
                          (first_occurrences [] (map LDAPAdapter.found_dn entries))
                          (LDAPAdapter.f_dn e))
            (LDAPAdapter.entry_map entries).
Proof.
  unfold LDAPAdapter.entry_map. cbv zeta.
  set (m := fold_left LDAPAdapter.map_set (map LDAPAdapter.folder_of entries) []).
  assert (K : map LDAPAdapter.f_dn m
              = first_occurrences [] (map LDAPAdapter.found_dn entries)).
  { unfold m. rewrite keys_first_pass. cbn [map app]. rewrite map_map.
    f_equal. apply map_ext. apply f_dn_folder_of. }
  assert (P : Forall (fun e => LDAPAdapter.f_parent e = None) m).
  { unfold m. apply parents_first_pass; [|constructor].
    apply Forall_map. apply Forall_forall. intros e _. apply f_parent_folder_of. }
  destruct (second_pass (map LDAPAdapter.f_dn m) m) as [K' P'].
  { apply Forall_forall. intros e He. right. split.
    - exact (proj1 (Forall_forall _ _) P e He).
    - now apply in_map. }
  rewrite K in *. split; [exact K' | exact P'].
Qed.

Lemma map_filter_pointwise {A B} (f : A -> bool) (g : B -> bool) (h : A -> B)
  (l : list A) :
  Forall (fun x => f x = g (h x)) l -> map h (filter f l) = filter g (map h l).
Proof.
  induction 1 as [|x l Hx _ IH]; [reflexivity|].
  cbn [filter map]. rewrite <- Hx. destruct (f x); cbn [map]; now rewrite IH.
Qed.

(** A tree cut after its first level lists its root only. *)
Lemma collect_first_level (m : list LDAPAdapter.Folder) (inc : bool)
  (e : LDAPAdapter.Folder) :
  LDAPAdapter.collect (LDAPAdapter.buildTree m inc 1 e) = [LDAPAdapter.f_dn e].
Proof.
  cbn [LDAPAdapter.buildTree LDAPAdapter.collect LDAPAdapter.collectDNs].
  destruct (LDAPAdapter.f_children e) as [|c cs]; [reflexivity|].
  f_equal.
  assert (H : forall l,
             flat_map (fun k => match LDAPAdapter.map_get m k with
                                | Some _ => []
                                | None => []
                                end) l = (@nil LDAPAdapter.Node)).
  { induction l as [|k l IHl]; [reflexivity|]. cbn [flat_map].
    rewrite IHl. now destruct (LDAPAdapter.map_get m k). }
  rewrite H. reflexivity.
Qed.

(** With the depth 1 of [listFolders], the collected DNs are those of the
    entries that have no parent among the entries found. *)
Lemma folders_at_depth_one (b : string) (entries : list LDAPAdapter.Found) :
  LDAPAdapter.folders_of (LDAPAdapter.structure_of b entries 1 false)
  = top_level (map LDAPAdapter.found_dn entries).
Proof.
  destruct (entry_map_parents entries) as [K P].
  unfold LDAPAdapter.folders_of, LDAPAdapter.structure_of. cbv zeta.
  cbn [LDAPAdapter.structure].
  set (m := LDAPAdapter.entry_map entries) in *.
  set (roots := filter (LDAPAdapter.is_root m) m).
  change (Z.to_nat 1) with 1%nat.
  assert (F : flat_map LDAPAdapter.collect
                (map (LDAPAdapter.buildTree m false 1) roots)
              = map LDAPAdapter.f_dn roots).
  { induction roots as [|e roots IH]; [reflexivity|].
    cbn [map flat_map]. rewrite IH. now rewrite collect_first_level. }
  assert (T : map LDAPAdapter.f_dn roots
              = top_level (map LDAPAdapter.found_dn entries)).
  { unfold roots, top_level. cbv zeta. rewrite <- K.
    apply map_filter_pointwise.
    eapply Forall_impl; [|exact P]. intros e He. cbv beta.
    unfold LDAPAdapter.is_root. rewrite He. unfold expected_parent.
    rewrite parent_dn_after_first_comma.
    destruct (after_first_comma (LDAPAdapter.f_dn e)) as [p|]; [|reflexivity].
    rewrite <- K.
    destruct (existsb (String.eqb p) (map LDAPAdapter.f_dn m)) eqn:E.
    - rewrite map_has_keys, E. reflexivity.
    - now rewrite orb_true_r. }
  rewrite <- T, <- F.
  destruct (map (LDAPAdapter.buildTree m false 1) roots) as [|one [|two rest]];
    cbn [flat_map]; [reflexivity | | reflexivity].
  now rewrite app_nil_r.
Qed.

(** X10.  Splitting a DN at its commas and joining the pieces with commas
    gives the DN back, and the parent that the second pass of
    [searchFolderStructure] looks up for a DN is exactly the text after the
    DN's first comma, taken as it is (not trimmed); a DN without a comma
    has no parent. *)
Theorem X10_parent_dn_is_the_text_after_the_first_comma (d : string) :
  JS.join "," (JS.split ","%char d) = d
  /\ LDAPAdapter.parent_dn d = after_first_comma d.
Proof. split; [apply join_split | apply parent_dn_after_first_comma]. Qed.


Section LDAPDirectory.

Context {RT : Runtime} {C : Type}.
Variable ldapts : LDAPAdapter.Client C.
Variable directory : LDAPAdapter.Directory C.
Variable utf8 : string -> string.

Lemma found_dn_convert (raws : list LDAPAdapter.Entry) :
  map LDAPAdapter.found_dn (map (LDAPAdapter.convert_entry utf8) raws)
  = map LDAPAdapter.dn raws.
Proof. rewrite map_map. now apply map_ext. Qed.

(** [search] on a live client, with a base that passes the format test,
    when the client answers. *)
Lemma search_answer
  (b filter : string) (options : JS.Object) (this : LDAPAdapter.State C) (c c' : C)
  (raws : list LDAPAdapter.Entry) :
  LDAPAdapter.client this = Some c ->
  (nonempty b && negb (String.eqb (JS.trim b) "")
   && negb (JS.letters_then_equals b)) = false ->
  LDAPAdapter.client_search directory b
    (LDAPAdapter.searchOptions filter options) c = (inr raws, c') ->
  LDAPAdapter.search directory utf8 b filter options this
  = (inr (map (LDAPAdapter.convert_entry utf8) raws),
     {| LDAPAdapter.client := Some c'; LDAPAdapter.url := LDAPAdapter.url this;
        LDAPAdapter.bindDN := LDAPAdapter.bindDN this;
        LDAPAdapter.bindPassword := LDAPAdapter.bindPassword this |}).
Proof.
  intros Hc Hok Hsearch.
  unfold LDAPAdapter.search, bind, get_state. rewrite Hc, Hok.
  unfold try_catch, bind, LDAPAdapter.on_client. rewrite Hc, Hsearch.
  reflexivity.
Qed.

(** [search] never throws the error of a failed discovery. *)
Lemma search_error_is_not_discovery
  (b filter : string) (options : JS.Object) (this : LDAPAdapter.State C) :
  fst (LDAPAdapter.search directory utf8 b filter options this)
  <> inl (JS.Error LDAPAdapter.discovery_failed_message).
Proof.
  unfold LDAPAdapter.search, bind, get_state.
  destruct (LDAPAdapter.client this) as [c|] eqn:Hc; [|discriminate].
  destruct (nonempty b && negb (String.eqb (JS.trim b) "")
            && negb (JS.letters_then_equals b)); [discriminate|].
  unfold try_catch, bind, LDAPAdapter.on_client. rewrite Hc.
  destruct (LDAPAdapter.client_search directory b _ c) as [[[m|v]|raws] c'];
    cbn [fst LDAPAdapter.search_catch ret throw]; try discriminate.
  destruct (nonempty m && JS.includes m "NO_OBJECT") eqn:E; cbn [throw fst].
  - discriminate.
  - intros H. injection H as H. rewrite H in E. vm_compute in E. discriminate E.
Qed.

(** X11.  [listFolders] does not list all folders.  For a base that is
    not blank and passes the format test, on a live client that answers
    the folder search with some entries, it returns the DNs of exactly
    those entries that have no parent among the entries found, in the order
    found: the depth 1 that it passes to [searchFolderStructure] cuts every
    tree below its root. *)
Theorem X11_listFolders_returns_the_top_level_only
  (b : string) (this : LDAPAdapter.State C) (c c' : C)
  (raws : list LDAPAdapter.Entry) :
  LDAPAdapter.client this = Some c ->
  nonempty b = true ->
  String.eqb (JS.trim b) "" = false ->
  JS.letters_then_equals b = true ->
  LDAPAdapter.client_search directory b
    (LDAPAdapter.searchOptions LDAPAdapter.folder_filter LDAPAdapter.folder_options) c
  = (inr raws, c') ->
  LDAPAdapter.listFolders directory utf8 b this
  = (inr (top_level (map LDAPAdapter.dn raws)),
     {| LDAPAdapter.client := Some c'; LDAPAdapter.url := LDAPAdapter.url this;
        LDAPAdapter.bindDN := LDAPAdapter.bindDN this;
        LDAPAdapter.bindPassword := LDAPAdapter.bindPassword this |}).
Proof.
  intros Hc Hne Htrim Hfmt Hsearch.
  unfold LDAPAdapter.listFolders, LDAPAdapter.searchFolderStructure, bind, get_state.
  rewrite Hc, Hne, Htrim. cbn [negb orb]. unfold ret at 1.
  rewrite (search_answer b _ _ this c c' raws Hc); [| |exact Hsearch].
  - unfold ret. rewrite folders_at_depth_one, found_dn_convert. reflexivity.
  - rewrite Hne, Htrim, Hfmt. reflexivity.
Qed.

(** X12.  [search] checks the base before it contacts the server: a base
    of code units below 128 that is not blank and does not start with
    letters followed by an equals sign is refused with the "Invalid base DN
    format" error, the adapter's state and the connection being left as
    they were. *)
Theorem X12_search_refuses_a_malformed_base
  (b filter : string) (options : JS.Object) (this : LDAPAdapter.State C) (c : C) :
  LDAPAdapter.client this = Some c ->
  JS.is_ascii b = true ->
  nonempty b = true ->
  String.eqb (JS.trim b) "" = false ->
  JS.letters_then_equals b = false ->
  LDAPAdapter.search directory utf8 b filter options this
  = (inl (JS.Error (LDAPAdapter.invalid_base_message b)), this).
Proof.
  intros Hc _ Hne Htrim Hfmt.
  unfold LDAPAdapter.search, bind, get_state. rewrite Hc, Hne, Htrim, Hfmt.
  reflexivity.
Qed.

(** X13.  When the server's error mentions NO_OBJECT, [search] replaces it
    by an error that names the base and keeps the original message at its
    end; any other error of the server is thrown on unchanged. *)
Theorem X13_search_explains_NO_OBJECT
  (b filter : string) (options : JS.Object) (this : LDAPAdapter.State C) (c c' : C)
  (message : string) :
  LDAPAdapter.client this = Some c ->
  (nonempty b && negb (String.eqb (JS.trim b) "")
   && negb (JS.letters_then_equals b)) = false ->
  LDAPAdapter.client_search directory b
    (LDAPAdapter.searchOptions filter options) c
  = (inl (JS.Error message), c') ->
  fst (LDAPAdapter.search directory utf8 b filter options this)
  = inl (JS.Error (if JS.includes message "NO_OBJECT"
                   then LDAPAdapter.no_object_message b message
                   else message)).
Proof.
  intros Hc Hok Hsearch.
  unfold LDAPAdapter.search, bind, get_state. rewrite Hc, Hok.
  unfold try_catch, bind, LDAPAdapter.on_client. rewrite Hc, Hsearch.
  unfold LDAPAdapter.search_catch.
  destruct (JS.includes message "NO_OBJECT") eqn:E.
  - assert (N : nonempty message = true) by (now destruct message).
    now rewrite N.
  - now rewrite andb_false_r.
Qed.

(** The discovery of the base never throws its own error. *)
Lemma discover_error_is_not_discovery (b : string) (this : LDAPAdapter.State C) :
  fst (LDAPAdapter.discover directory utf8 b this)
  <> inl (JS.Error LDAPAdapter.discovery_failed_message).
Proof.
  unfold LDAPAdapter.discover, try_catch.
  match goal with |- context [match ?body this with _ => _ end] =>
    destruct (body this) as [[[m|v]|r] st] end; cbn [fst]; try discriminate.
  destruct (nonempty m && JS.includes m "NO_OBJECT") eqn:E; cbn [throw fst].
  - intros H. vm_compute in H. discriminate H.
  - intros H. injection H as H. rewrite H in E. vm_compute in E. discriminate E.
Qed.

(** X14.  The error "could not auto-discover root DN" never reaches the
    caller of [searchFolderStructure], whatever the base, the state and
    the server: the handler around the discovery replaces it by "root DSE
    search failed", because its own message mentions NO_OBJECT.  So with a
    blank base and a root DSE that names no context, which the search
    itself answers without error, the caller is told that the root DSE
    search failed. *)
Theorem X14_discovery_never_reports_its_own_failure
  (b : string) (depth : Z) (includeEntries : bool) (this : LDAPAdapter.State C) :
  fst (LDAPAdapter.searchFolderStructure directory utf8 b depth includeEntries this)
  <> inl (JS.Error LDAPAdapter.discovery_failed_message)
  /\ (forall c c',
        LDAPAdapter.client this = Some c ->
        String.eqb (JS.trim b) "" = true ->
        LDAPAdapter.client_search directory ""
          (LDAPAdapter.searchOptions "(objectClass=*)" LDAPAdapter.rootDSE_options) c
        = (inr [], c') ->
        fst (LDAPAdapter.searchFolderStructure directory utf8 b depth
               includeEntries this)
        = inl (JS.Error LDAPAdapter.root_search_failed_message)).
Proof.
  split.
  - unfold LDAPAdapter.searchFolderStructure, bind, get_state.
    destruct (LDAPAdapter.client this) as [c|] eqn:Hc; [|discriminate].
    destruct (negb (nonempty b) || String.eqb (JS.trim b) "").
    + pose proof (discover_error_is_not_discovery b this) as D.
      destruct (LDAPAdapter.discover directory utf8 b this) as [[e|s] st].
      * cbn [fst] in *. intros H. apply D. now injection H as ->.
      * pose proof (search_error_is_not_discovery s LDAPAdapter.folder_filter
                      LDAPAdapter.folder_options st) as S.
        destruct (LDAPAdapter.search directory utf8 s _ _ st) as [[e|es] st'].
        -- cbn [fst] in *. intros H. apply S. now injection H as ->.
        -- discriminate.
    + unfold ret at 1.
      pose proof (search_error_is_not_discovery b LDAPAdapter.folder_filter
                    LDAPAdapter.folder_options this) as S.
      destruct (LDAPAdapter.search directory utf8 b _ _ this) as [[e|es] st'].
      * cbn [fst] in *. intros H. apply S. now injection H as ->.
      * discriminate.
  - intros c c' Hc Hblank Hroot.
    unfold LDAPAdapter.searchFolderStructure, bind, get_state.
    rewrite Hc, Hblank, orb_true_r.
    unfold LDAPAdapter.discover, try_catch, bind.
    rewrite (search_answer "" _ _ this c c' [] Hc eq_refl Hroot).
    cbn [map LDAPAdapter.naming_context].
    unfold LDAPAdapter.checked_base. cbn [JS.truthy].
    destruct (String.eqb b "") eqn:Eb; cbn [negb].
    + reflexivity.
    + rewrite Hblank. reflexivity.
Qed.

(** X15.  [close] unbinds and then drops the client.  If the unbind
    throws, [close] throws the same and the client is kept.  Once closed,
    a second [close] does nothing, [bind], [unbind] and [search] throw
    "LDAP client not initialized", and [authenticate] answers [false], all
    of them leaving the state as it is. *)
Theorem X15_close_drops_the_client
  (this : LDAPAdapter.State C) (c : C) :
  LDAPAdapter.client this = Some c ->
  match LDAPAdapter.client_unbind ldapts c with
  | (inl e, c') =>
      fst (LDAPAdapter.close ldapts this) = inl e
      /\ LDAPAdapter.client (snd (LDAPAdapter.close ldapts this)) = Some c'
  | (inr _, _) =>
      let closed := snd (LDAPAdapter.close ldapts this) in
      fst (LDAPAdapter.close ldapts this) = inr tt
      /\ LDAPAdapter.client closed = None
      /\ LDAPAdapter.bindDN closed = LDAPAdapter.bindDN this
      /\ LDAPAdapter.close ldapts closed = (inr tt, closed)
      /\ (forall d p,
            LDAPAdapter.bind ldapts d p closed
            = (inl (JS.Error "LDAP client not initialized"), closed))
      /\ LDAPAdapter.unbind ldapts closed
         = (inl (JS.Error "LDAP client not initialized"), closed)
      /\ (forall b filter options,
            LDAPAdapter.search directory utf8 b filter options closed
            = (inl (JS.Error "LDAP client not initialized"), closed))
      /\ (forall b depth includeEntries,
            LDAPAdapter.searchFolderStructure directory utf8 b depth
              includeEntries closed
            = (inl (JS.Error "LDAP client not initialized"), closed))
      /\ (forall d p,
            LDAPAdapter.authenticate ldapts d p closed = (inr false, closed))
  end.
Proof.
  intros Hc.
  destruct this as [cl u bd bp]; cbn [LDAPAdapter.client] in Hc; subst cl.
  unfold LDAPAdapter.close, LDAPAdapter.unbind, LDAPAdapter.on_client, bind,
    get_state.
  cbn [LDAPAdapter.client].
  destruct (LDAPAdapter.client_unbind ldapts c) as [[e|[]] c'].
  - split; reflexivity.
  - cbv zeta. cbn [fst snd LDAPAdapter.client LDAPAdapter.bindDN].
    repeat split.
Qed.

End LDAPDirectory.

(* ================================================================== *)
(** ** The statement tools on the adapters without SQL *)

Section ForeignSQL.

Context {RT : Runtime}.

(** On an adapter whose [query], [execute], [explainQuery] and
    [describeView] throw without touching the state, the four tools that
    stand for them end in an error envelope. *)
Lemma rejected_statement_tools {St : Type}
  (this : DatabaseMCPServer St) (a : Adapter St) (name : string)
  (args : option JS.Object) (w : World St) :
  adapter this = Some a ->
  In name ["query"; "execute_sql"; "explain_query"; "describe_view"] ->
  (forall m margs st,
      In m ["query"; "execute"; "explainQuery"; "describeView"] ->
      exists message, invoke a m margs st = (inl (JS.Error message), st)) ->
  exists message,
    fst (CallTool this (Request.make name args) w)
    = Resolved (error_response message)
    /\ adapter_state (snd (CallTool this (Request.make name args) w))
       = adapter_state w.
Proof.
  intros Ha Hin Hrej.
  destruct this as [ad r m l ro], w as [st cl]; cbn [adapter] in Ha; subst ad.
  simpl in Hin.
  repeat (destruct Hin as [Hin|Hin];
    [ subst name; run_handler;
      repeat match goal with
             | |- context [invoke a ?m ?margs ?s] =>
                 let msg := fresh "msg" in
                 let Hm := fresh "Hm" in
                 destruct (Hrej m margs s) as [msg Hm];
                 [simpl; tauto|]; rewrite Hm; run_handler
             | |- context [match ?x with _ => _ end] =>
                 is_var x; destruct x; run_handler
             | |- context [match JS.get ?o ?k with _ => _ end] =>
                 destruct (JS.get o k) eqn:?; run_handler
             | |- context [match is_select ?t with _ => _ end] =>
                 destruct (is_select t) eqn:?; run_handler
             end;
      eexists; split; reflexivity |]).
  contradiction.
Qed.

(** X16.  The Redis, MongoDB and LDAP adapters implement the SQL statement
    methods by throwing.  So on a server built on one of them the tools
    [query], [execute_sql], [explain_query] and [describe_view], which are
    dispatched on every backend, never succeed: whatever the arguments and
    the mode, the answer is an error envelope, and the adapter's state,
    its connection included, is as it was.  For [explain_query] with an
    arguments object the envelope carries the adapter's own message. *)
Theorem X16_statement_tools_fail_on_the_adapters_without_SQL
  {R M C : Type}
  (redis : RedisAdapter.Client R) (to_text : JS.Value -> string)
  (mongo_others : string -> list JS.Value -> Eff M JS.Value)
  (ldapts : LDAPAdapter.Client C) (directory : LDAPAdapter.Directory C)
  (utf8 : string -> string)
  (untyped : string -> list JS.Value -> Eff (LDAPAdapter.State C) JS.Value)
  (env : Env) (name : string) (args : option JS.Object) :
  let on_redis := constructor (RedisAdapter.as_adapter redis to_text) env in
  let on_mongo := constructor (MongoAdapter.as_adapter mongo_others) env in
  let on_ldap :=
    constructor (LDAPAdapter.adapter_of ldapts directory utf8 untyped) env in
  In name ["query"; "execute_sql"; "explain_query"; "describe_view"] ->
  (forall w, exists message,
      fst (CallTool on_redis (Request.make name args) w)
      = Resolved (error_response message)
      /\ adapter_state (snd (CallTool on_redis (Request.make name args) w))
         = adapter_state w)
  /\ (forall w, exists message,
      fst (CallTool on_mongo (Request.make name args) w)
      = Resolved (error_response message)
      /\ adapter_state (snd (CallTool on_mongo (Request.make name args) w))
         = adapter_state w)
  /\ (forall w, exists message,
      fst (CallTool on_ldap (Request.make name args) w)
      = Resolved (error_response message)
      /\ adapter_state (snd (CallTool on_ldap (Request.make name args) w))
         = adapter_state w)
  /\ (forall o w,
      fst (CallTool on_redis (Request.make "explain_query" (Some o)) w)
      = Resolved (error_response "Redis does not support EXPLAIN queries."))
  /\ (forall o w,
      fst (CallTool on_mongo (Request.make "explain_query" (Some o)) w)
      = Resolved (error_response
                    "MongoDB does not support EXPLAIN queries in SQL format."))
  /\ (forall o w,
      fst (CallTool on_ldap (Request.make "explain_query" (Some o)) w)
      = Resolved (error_response "LDAP does not support EXPLAIN queries.")).
Proof.
  cbv zeta. intros Hin.
  split; [|split; [|split; [|split; [|split]]]].
  - intros w. apply rejected_statement_tools with (a := RedisAdapter.as_adapter redis to_text);
      [reflexivity | exact Hin |].
    intros m margs st Hm. simpl in Hm.
    repeat (destruct Hm as [Hm|Hm]; [subst m; eexists; reflexivity|]).
    contradiction.
  - intros w. apply rejected_statement_tools with (a := MongoAdapter.as_adapter mongo_others);
      [reflexivity | exact Hin |].
    intros m margs st Hm. simpl in Hm.
    repeat (destruct Hm as [Hm|Hm]; [subst m; eexists; reflexivity|]).
    contradiction.
  - intros w.
    apply rejected_statement_tools
      with (a := LDAPAdapter.adapter_of ldapts directory utf8 untyped);
      [reflexivity | exact Hin |].
    intros m margs st Hm. simpl in Hm.
    repeat (destruct Hm as [Hm|Hm]; [subst m; eexists; reflexivity|]).
    contradiction.
  - intros o [st cl]. reflexivity.
  - intros o [st cl]. reflexivity.
  - intros o [st cl]. reflexivity.
Qed.

End ForeignSQL.

(* ================================================================== *)
(** ** The Redis adapter *)

Section Redis.

Context {RT : Runtime} {R : Type}.
Variable redis : RedisAdapter.Client R.
Variable to_text : JS.Value -> string.

(** X17.  [redis_set] on a read-write Redis server sends the client one
    command: [setEx] with the key, the time to live and the value when the
    [ttl] argument is truthy, and plain [set] with the key and the value
    otherwise.  A [ttl] of 0 is therefore no expiry at all, and the answer
    then reports the [ttl] as [null]. *)
Theorem X17_redis_set_expiry
  (env : Env) (o : JS.Object) (r r' : R) (v : JS.Value) (log : list Call) :
  let this := constructor (RedisAdapter.as_adapter redis to_text) env in
  let key := JS.get o "key" in
  let value := JS.get o "value" in
  let ttl := JS.get o "ttl" in
  readOnly this = false ->
  (if JS.truthy ttl
   then RedisAdapter.command redis "setEx" [key; ttl; value] r
   else RedisAdapter.command redis "set" [key; value] r) = (inr v, r') ->
  CallTool this (Request.make "redis_set" (Some o))
    {| adapter_state := Some r; calls := log |}
  = (Resolved (text_response
                 (JS.Obj [("key", key); ("value", value);
                          ("ttl", if JS.truthy ttl then ttl else JS.Null);
                          ("status", JS.Str "OK")])),
     {| adapter_state := Some r';
        calls := (log ++ [("set", [key; value; ttl])])%list |}).
Proof.
  cbv zeta. intros Hrw Hcmd.
  unfold constructor in *. cbn [readOnly] in Hrw. rewrite Hrw.
  run_handler.
  cbn [RedisAdapter.as_adapter invoke constructor_name String.eqb Ascii.eqb
       Bool.eqb nth].
  unfold RedisAdapter.set, bind, get_state, RedisAdapter.on_client, ret, JS.or.
  cbn [adapter_state calls].
  destruct (JS.truthy (JS.get o "ttl")); cbv beta; rewrite Hcmd; reflexivity.
Qed.

(** X18.  [describeTable] starts as [getTableStats] does.  When
    [getTableStats] throws, [describeTable] throws the same from the same
    state; and when [getTableStats] reports that the key does not exist,
    [describeTable] sends the client nothing more and returns the same
    fields followed by a [value] of [null]. *)
Theorem X18_describeTable_of_a_missing_key
  (table : JS.Value) (this : RedisAdapter.State R) :
  (forall e this',
      RedisAdapter.getTableStats redis table this = (inl e, this') ->
      RedisAdapter.describeTable redis to_text table this = (inl e, this'))
  /\ (forall fields this',
      RedisAdapter.getTableStats redis table this = (inr (JS.Obj fields), this') ->
      JS.get fields "exists" = JS.Bool false ->
      RedisAdapter.describeTable redis to_text table this
      = (inr (JS.Obj (fields ++ [("value", JS.Null)])%list), this')).
Proof.
  unfold RedisAdapter.getTableStats, RedisAdapter.describeTable,
    RedisAdapter.type, RedisAdapter.ttl, RedisAdapter.exists_,
    RedisAdapter.on_client, bind, ret.
  destruct this as [r|]; [|split; intros; congruence].
  destruct (RedisAdapter.client_type redis table r) as [[e1|t] r1];
    [split; intros; congruence|].
  destruct (RedisAdapter.command redis "ttl" [table] r1) as [[e2|n] r2];
    [split; intros; congruence|].
  destruct (RedisAdapter.client_exists redis table r2) as [[e3|k] r3];
    [split; intros; congruence|].
  split; [intros; congruence|].
  intros fields this' H Hex. injection H as H1 H2. subst fields this'.
  cbn in Hex. injection Hex as Hex. rewrite Hex. reflexivity.
Qed.

(** X19.  [close] quits and then drops the client; if [quit] throws,
    [close] throws the same and the client is kept.  Once the client is
    dropped, [close] does nothing, and every method that talks to the
    server throws "Redis client not initialized". *)
Theorem X19_redis_close_drops_the_client :
  (forall r,
      match RedisAdapter.command redis "quit" [] r with
      | (inl e, r') => RedisAdapter.close redis (Some r) = (inl e, Some r')
      | (inr _, _) => RedisAdapter.close redis (Some r) = (inr tt, None)
      end)
  /\ RedisAdapter.close redis None = (inr tt, None)
  /\ (forall m args,
      In m ["connect"; "get"; "set"; "del"; "keys"; "exists"; "ttl"; "expire";
            "type"; "dbsize"; "info"; "hget"; "hset"; "hgetall"; "hdel";
            "lpush"; "rpush"; "lpop"; "rpop"; "lrange"; "sadd"; "smembers";
            "srem"; "zadd"; "zrange"; "listTables"; "describeTable";
            "getTableSize"; "searchTables"; "getTableStats"] ->
      invoke (RedisAdapter.as_adapter redis to_text) m args None
      = (inl (JS.Error "Redis client not initialized"), None)).
Proof.
  split; [|split].
  - intros r. unfold RedisAdapter.close, bind, get_state, RedisAdapter.on_client.
    destruct (RedisAdapter.command redis "quit" [] r) as [[e|v] r']; reflexivity.
  - reflexivity.
  - intros m args Hin. simpl in Hin.
    repeat (destruct Hin as [Hin|Hin]; [subst m; reflexivity|]).
    contradiction.
Qed.

End Redis.

(* ================================================================== *)
(** ** The SQLite adapter: paths, identifiers and closing *)

Lemma startsWith_append (p s : string) : JS.startsWith (p ++ s) p = true.
Proof.
  unfold JS.startsWith. induction p as [|c p IH]; simpl.
  - now destruct s.
  - destruct (ascii_dec c c) as [_|N]; [exact IH | now elim N].
Qed.

Lemma prefix_append_false (a b s : string) :
  String.prefix a s = false -> String.prefix (a ++ b) s = false.
Proof.
  revert s. induction a as [|c a IH]; intros s H.
  - now destruct s.
  - destruct s as [|d s]; [reflexivity|]. simpl in *.
    destruct (ascii_dec c d); [now apply IH | reflexivity].
Qed.

Lemma not_a_quote (tail : string) :
  JS.startsWith tail JS.quote = false ->
  match tail with
  | EmptyString => True
  | String t _ => Ascii.eqb t (ascii_of_nat 34) = false
  end.
Proof.
  destruct tail as [|t tail']; [trivial|].
  unfold JS.startsWith, JS.quote. cbn [String.prefix].
  match goal with
  | |- context [ascii_dec ?q t] => destruct (ascii_dec q t) as [E|N]
  end.
  - now destruct tail'.
  - intros _. apply Ascii.eqb_neq. intros E. apply N. now rewrite E.
Qed.

Lemma substring_all (s : string) : String.substring 0 (String.length s) s = s.
Proof. induction s as [|c s IH]; simpl; [reflexivity | now rewrite IH]. Qed.

Lemma length_append (p s : string) :
  String.length (p ++ s) = String.length p + String.length s.
Proof. induction p as [|c p IH]; simpl; [reflexivity | now rewrite IH]. Qed.

Lemma dropPrefix_append (p s : string) : JS.dropPrefix (p ++ s) p = s.
Proof.
  unfold JS.dropPrefix. rewrite length_append.
  replace (String.length p + String.length s - String.length p)
    with (String.length s) by lia.
  induction p as [|c p IH]; simpl; [apply substring_all | exact IH].
Qed.

(** X20.  The file path that the SQLite adapter opens.  A connection
    string without the prefixes sqlite: and file:// is the path.  The
    prefix file:// is dropped; so is sqlite://, and so is sqlite: when no
    two slashes follow it, the rest being the path unless it starts with
    file://, which is then dropped as well.  Nothing else is removed: of
    two sqlite:// prefixes the second one stays in the path. *)
Theorem X20_sqlite_path_of_the_connection_string (p : string) :
  SQLiteAdapter.dbPath_of ("file://" ++ p) = p
  /\ SQLiteAdapter.dbPath_of ("sqlite://file://" ++ p) = p
  /\ SQLiteAdapter.dbPath_of ("sqlite://sqlite://" ++ p) = "sqlite://" ++ p
  /\ (JS.startsWith p "file://" = false ->
      SQLiteAdapter.dbPath_of ("sqlite://" ++ p) = p
      /\ (JS.startsWith p "//" = false ->
          SQLiteAdapter.dbPath_of ("sqlite:" ++ p) = p)
      /\ (JS.startsWith p "sqlite:" = false ->
          SQLiteAdapter.dbPath_of p = p)).
Proof.
  split; [|split; [|split]].
  - unfold SQLiteAdapter.dbPath_of.
    change (JS.startsWith ("file://" ++ p) "sqlite://") with false.
    change (JS.startsWith ("file://" ++ p) "sqlite:") with false.
    cbv iota. now rewrite startsWith_append, dropPrefix_append.
  - unfold SQLiteAdapter.dbPath_of.
    change ("sqlite://file://" ++ p)%string with ("sqlite://" ++ ("file://" ++ p))%string.
    now rewrite startsWith_append, !dropPrefix_append, startsWith_append.
  - unfold SQLiteAdapter.dbPath_of.
    change ("sqlite://sqlite://" ++ p)%string
      with ("sqlite://" ++ ("sqlite://" ++ p))%string.
    rewrite startsWith_append, !dropPrefix_append. reflexivity.
  - intros Hfile. split; [|split].
    + unfold SQLiteAdapter.dbPath_of.
      now rewrite startsWith_append, !dropPrefix_append, Hfile.
    + intros Hslashes. unfold SQLiteAdapter.dbPath_of.
      assert (E : JS.startsWith ("sqlite:" ++ p) "sqlite://" = false).
      { unfold JS.startsWith in *. cbn in Hslashes |- *. exact Hslashes. }
      now rewrite E, startsWith_append, !dropPrefix_append, Hfile.
    + intros Hsqlite. unfold SQLiteAdapter.dbPath_of.
      assert (E : JS.startsWith p "sqlite://" = false)
        by exact (prefix_append_false "sqlite:" "//" p Hsqlite).
      now rewrite E, Hsqlite, Hfile.
Qed.

Lemma read_escaped_body (identifier tail : string) :
  JS.startsWith tail JS.quote = false ->
  read_quoted_body (JS.double_quotes identifier ++ JS.quote ++ tail)
  = Some (identifier, tail).
Proof.
  intros Htail. apply not_a_quote in Htail.
  induction identifier as [|c rest IH].
  - cbn. destruct tail as [|t tail']; [reflexivity|].
    cbn in Htail. now rewrite Htail.
  - cbn [JS.double_quotes].
    destruct (Ascii.eqb c (ascii_of_nat 34)) eqn:E.
    + cbn [append read_quoted_body]. rewrite E.
      fold (JS.quote ++ tail)%string. now rewrite IH.
    + cbn [append read_quoted_body]. rewrite E.
      fold (JS.quote ++ tail)%string. now rewrite IH.
Qed.

(** X21.  [escapeIdentifier] cannot be broken out of.  Read as SQL reads a
    quoted identifier (up to the first double quote that is not doubled, a
    doubled one standing for one), the escaped text followed by any text
    that does not itself start with a double quote gives back exactly the
    identifier, whatever characters it holds, and leaves exactly the
    following text. *)
Theorem X21_escaped_identifier_reads_back (identifier tail : string) :
  JS.startsWith tail JS.quote = false ->
  read_quoted (SQLiteAdapter.escapeIdentifier identifier ++ tail)
  = Some (identifier, tail).
Proof.
  intros Htail. unfold SQLiteAdapter.escapeIdentifier.
  rewrite !append_assoc. cbn [JS.quote append read_quoted].
  rewrite Ascii.eqb_refl.
  apply (read_escaped_body identifier tail Htail).
Qed.

Section SQLiteClosing.

Context {RT : Runtime} {D Stmt : Type}.
Variable driver : SQLiteAdapter.Driver D Stmt.
Variable driver_close : SQLiteAdapter.Database -> Eff D unit.

(** X22.  [close] closes the handle and then drops it; if the driver
    throws, [close] throws the same and the handle is kept.  Once the handle
    is dropped, a second [close] does not reach the driver, and [execute]
    throws "Database connection not initialized" before any statement is
    prepared, the file being left as it is. *)
Theorem X22_sqlite_close_drops_the_handle
  (this : SQLiteAdapter.State D) (handle : SQLiteAdapter.Database) :
  SQLiteAdapter.db this = Some handle ->
  match driver_close handle (SQLiteAdapter.file this) with
  | (inl e, f') =>
      SQLiteAdapter.close driver_close this
      = (inl e, {| SQLiteAdapter.db := Some handle; SQLiteAdapter.file := f' |})
  | (inr _, f') =>
      let closed := {| SQLiteAdapter.db := None; SQLiteAdapter.file := f' |} in
      SQLiteAdapter.close driver_close this = (inr tt, closed)
      /\ SQLiteAdapter.close driver_close closed = (inr tt, closed)
      /\ (forall sql params,
            SQLiteAdapter.execute driver sql params closed
            = (inl (JS.Error "Database connection not initialized"), closed))
  end.
Proof.
  intros Hdb. unfold SQLiteAdapter.close. rewrite Hdb.
  destruct (driver_close handle (SQLiteAdapter.file this)) as [[e|[]] f'].
  - reflexivity.
  - cbv zeta. repeat split.
Qed.

End SQLiteClosing.

(* ================================================================== *)
(** ** Start-up *)

Lemma or_else_nonempty (env : Env) (k otherwise : string) :
  nonempty otherwise = true -> nonempty (Startup.or_else env k otherwise) = true.
Proof.
  intros H. unfold Startup.or_else.
  destruct (env k) as [v|]; [|exact H].
  destruct (nonempty v) eqn:E; [exact E | exact H].
Qed.

(** X23.  The class chosen at start-up and the catalogue agree.  Whatever
    the letter case of DB_TYPE, when [createAdapter] instantiates a class,
    the server built on an instance of it sets the backend flag of that
    class and no other, and lists the catalogue of that class: the SQL
    tools for the Postgres, MySQL and SQLite adapters, and the native tools
    alone for the Redis, MongoDB and LDAP adapters. *)
Theorem X23_chosen_class_decides_the_catalogue {St : Type}
  (env : Env) (c : Startup.AdapterClass) (a : Adapter St) :
  Startup.adapter_class env = inr c ->
  constructor_name a = Startup.class_name c ->
  let t := JS.toLowerCase (Startup.dbType env) in
  ListTools (constructor a env) = Startup.catalogue c
  /\ isRedis (constructor a env) = String.eqb t "redis"
  /\ isMongo (constructor a env) = (String.eqb t "mongodb" || String.eqb t "mongo")
  /\ isLDAP (constructor a env) = String.eqb t "ldap".
Proof.
  intros Hclass Hname. cbv zeta.
  unfold ListTools, constructor. cbn [isRedis isMongo isLDAP]. rewrite Hname.
  unfold Startup.adapter_class in Hclass.
  remember (JS.toLowerCase (Startup.dbType env)) as t eqn:Ht.
  clear Hname. revert Hclass.
  repeat match goal with
         | |- context [String.eqb t ?s] =>
             destruct (String.eqb_spec t s) as [->|?]; cbn [orb]
         end;
    intros Hclass; try discriminate Hclass;
    injection Hclass as <-; repeat split; reflexivity.
Qed.

(** X24.  The connection string handed to the adapter is never empty: an
    environment variable that is unset or empty gives way to the next one,
    and the last resort is a default URL that is not empty. *)
Theorem X24_connection_string_is_never_empty (env : Env) :
  nonempty (Startup.connectionString env) = true.
Proof.
  unfold Startup.connectionString.
  repeat match goal with
         | |- context [if ?b then _ else _] => destruct b
         end;
    repeat apply or_else_nonempty; reflexivity.
Qed.

(* ================================================================== *)
(** ** Start-up: the bind of the LDAP adapter *)

Section StartupBind.

Context {C : Type} (ldapts : LDAPAdapter.Client C).
Variable name_of : JS.Thrown -> string.

(** Without a password the loop tries nothing. *)
Lemma try_formats_without_password
  (formats : list string) (lastError : option JS.Thrown)
  (this : LDAPAdapter.State C) :
  Startup.try_formats ldapts formats "" lastError this
  = (inr (false, lastError), this).
Proof.
  induction formats as [|f rest IH]; [reflexivity|].
  cbn [Startup.try_formats nonempty]. rewrite andb_false_r. exact IH.
Qed.

(** [connect] with credentials on a live client: the outcome is the
    bind's, the credentials are stored, the client stays. *)
Lemma connect_on_live_client
  (d p : string) (this : LDAPAdapter.State C) (c : C) :
  LDAPAdapter.client this = Some c ->
  nonempty d && nonempty p = true ->
  LDAPAdapter.connect ldapts (Some d) (Some p) this
  = (fst (LDAPAdapter.client_bind ldapts (JS.Str d) (JS.Str p) c),
     {| LDAPAdapter.client :=
          Some (snd (LDAPAdapter.client_bind ldapts (JS.Str d) (JS.Str p) c));
        LDAPAdapter.url := LDAPAdapter.url this;
        LDAPAdapter.bindDN := d;
        LDAPAdapter.bindPassword := p |}).
Proof.
  intros Hc Hcred.
  destruct this as [cl u bd bp]; cbn [LDAPAdapter.client] in Hc; subst cl.
  unfold LDAPAdapter.connect, LDAPAdapter.remember, LDAPAdapter.bind,
    LDAPAdapter.on_client, bind, get_state, ret.
  cbn [LDAPAdapter.client LDAPAdapter.url LDAPAdapter.bindDN
       LDAPAdapter.bindPassword].
  rewrite Hcred. cbn.
  now destruct (LDAPAdapter.client_bind ldapts (JS.Str d) (JS.Str p) c).
Qed.

Section Server.

(** A server whose answer to a bind depends on the credentials alone. *)
Variable accepts : JS.Value -> JS.Value -> bool.
Variable refusal : JS.Value -> JS.Value -> JS.Thrown.
Hypothesis bind_outcome :
  forall (d p : JS.Value) (c : C),
    fst (LDAPAdapter.client_bind ldapts d p c)
    = if accepts d p then inr tt else inl (refusal d p).

(** The loop stops at the first format that the server accepts. *)
Lemma try_formats_first_accepted
  (password : string) (formats : list string) :
  nonempty password = true ->
  forall (lastError : option JS.Thrown) (this : LDAPAdapter.State C) (c : C),
    LDAPAdapter.client this = Some c ->
    match find (fun f => nonempty f && accepts (JS.Str f) (JS.Str password))
               formats with
    | Some f =>
        exists last this',
          Startup.try_formats ldapts formats password lastError this
          = (inr (true, last), this')
          /\ LDAPAdapter.bindDN this' = f
          /\ LDAPAdapter.bindPassword this' = password
    | None =>
        exists this',
          Startup.try_formats ldapts formats password lastError this
          = (inr (false,
                  fold_left (fun last f =>
                               if nonempty f
                               then Some (refusal (JS.Str f) (JS.Str password))
                               else last)
                            formats lastError),
             this')
    end.
Proof.
  intros Hpw. induction formats as [|f rest IH]; intros lastError this c Hc.
  - exists this. reflexivity.
  - cbn [find Startup.try_formats fold_left]. rewrite Hpw, andb_true_r.
    destruct (nonempty f) eqn:Hf; cbn [andb].
    + rewrite (connect_on_live_client f password this c Hc)
        by (now rewrite Hf, Hpw).
      rewrite bind_outcome.
      destruct (accepts (JS.Str f) (JS.Str password)).
      * eexists; eexists. split; [reflexivity | split; reflexivity].
      * cbv beta iota. eapply IH. reflexivity.
    + apply (IH lastError this c Hc).
Qed.

(** X25.  The bind at start-up with LDAP_LOGIN and LDAP_BASE_DN (and no
    LDAP_BIND_DN), a password, and a server whose answer to a bind depends
    on the credentials alone.  The five formats are tried in their order,
    and the first one that the server accepts is the one the adapter ends
    up bound with: it is stored as the bind DN, with the password.  When the
    server accepts none, start-up fails with the "all attempted formats"
    error, which quotes the refusal of the last format, the bare login. *)
Theorem X25_startup_binds_with_the_first_accepted_format
  (env : Env) (this : LDAPAdapter.State C) (c : C) :
  let login := Startup.text env "LDAP_LOGIN" in
  let baseDN := Startup.text env "LDAP_BASE_DN" in
  let password :=
    Startup.or_else env "LDAP_PASSWORD" (Startup.text env "LDAP_BIND_PASSWORD") in
  let formats :=
    Startup.bindDNFormats login baseDN (Startup.text env "LDAP_ROOT_DOMAIN") in
  let outcome := Startup.bind_at_startup ldapts name_of env this in
  LDAPAdapter.client this = Some c ->
  nonempty (Startup.text env "LDAP_BIND_DN") = false ->
  nonempty login && nonempty baseDN = true ->
  nonempty password = true ->
  match find (fun f => accepts (JS.Str f) (JS.Str password)) formats with
  | Some f =>
      fst outcome = inr tt
      /\ LDAPAdapter.bindDN (snd outcome) = f
      /\ LDAPAdapter.bindPassword (snd outcome) = password
  | None =>
      fst outcome
      = inl (JS.Error
               (Startup.bind_failed_message name_of formats
                  (Some (refusal (JS.Str login) (JS.Str password)))))
  end.
Proof.
  cbv zeta. intros Hc Hdn Hlb Hpw.
  apply andb_prop in Hlb as [Hl Hb].
  unfold Startup.bind_at_startup. rewrite Hdn, Hl, Hb. cbn [negb andb].
  unfold bind.
  pose proof (try_formats_first_accepted _
                (Startup.bindDNFormats (Startup.text env "LDAP_LOGIN")
                   (Startup.text env "LDAP_BASE_DN")
                   (Startup.text env "LDAP_ROOT_DOMAIN"))
                Hpw None this c Hc) as H.
  assert (E : forall g : string -> bool,
             find (fun f => nonempty f && g f)
                  (Startup.bindDNFormats (Startup.text env "LDAP_LOGIN")
                     (Startup.text env "LDAP_BASE_DN")
                     (Startup.text env "LDAP_ROOT_DOMAIN"))
             = find g
                  (Startup.bindDNFormats (Startup.text env "LDAP_LOGIN")
                     (Startup.text env "LDAP_BASE_DN")
                     (Startup.text env "LDAP_ROOT_DOMAIN"))).
  { intros g. unfold Startup.bindDNFormats. cbn [find append nonempty andb].
    destruct (Startup.text env "LDAP_LOGIN") as [|l ls] eqn:El;
      [discriminate Hl|].
    cbn [find append nonempty andb]. reflexivity. }
  rewrite (E (fun f => accepts (JS.Str f) _)) in H.
  destruct (find _ _) as [f|].
  - destruct H as [last [this' [H [H1 H2]]]]. rewrite H.
    cbn. split; [reflexivity | split; assumption].
  - destruct H as [this' H]. rewrite H. cbn [negb fst throw].
    unfold Startup.bindDNFormats. cbn [fold_left append nonempty].
    now rewrite Hl.
Qed.

End Server.

(** X26.  Start-up without a password never contacts the server.  With
    LDAP_BIND_DN set, or with no LDAP_LOGIN, or with LDAP_LOGIN but no
    LDAP_BASE_DN, the adapter is returned unbound, for anonymous use.  But
    with LDAP_LOGIN and LDAP_BASE_DN (and no LDAP_BIND_DN), start-up fails
    with the "all attempted formats" error, whose last error reads
    "null", although no format was attempted. *)
Theorem X26_startup_without_a_password
  (env : Env) (this : LDAPAdapter.State C) :
  let bindDN := Startup.text env "LDAP_BIND_DN" in
  let login := Startup.text env "LDAP_LOGIN" in
  let baseDN := Startup.text env "LDAP_BASE_DN" in
  let formats :=
    Startup.bindDNFormats login baseDN (Startup.text env "LDAP_ROOT_DOMAIN") in
  nonempty (Startup.or_else env "LDAP_PASSWORD"
              (Startup.text env "LDAP_BIND_PASSWORD")) = false ->
  (nonempty bindDN = false ->
   nonempty login && nonempty baseDN = true ->
   Startup.bind_at_startup ldapts name_of env this
   = (inl (JS.Error (Startup.bind_failed_message name_of formats None)), this)
   /\ JS.startsWith (Startup.bind_failed_message name_of formats None)
        "LDAP bind failed with all attempted formats. Last error: null. "
      = true)
  /\ (nonempty bindDN || negb (nonempty login && nonempty baseDN) = true ->
      Startup.bind_at_startup ldapts name_of env this = (inr tt, this)).
Proof.
  cbv zeta. intros Hpw.
  assert (E : Startup.or_else env "LDAP_PASSWORD"
                (Startup.text env "LDAP_BIND_PASSWORD") = "")
    by (now destruct (Startup.or_else env "LDAP_PASSWORD" _)).
  unfold Startup.bind_at_startup. rewrite E.
  split.
  - intros Hdn Hlb. rewrite Hdn, Hlb. cbn [negb].
    unfold bind. rewrite try_formats_without_password.
    split; reflexivity.
  - intros H.
    destruct (nonempty (Startup.text env "LDAP_BIND_DN")); cbn [negb andb nonempty].
    + reflexivity.
    + cbn [orb] in H. apply negb_true_iff in H. rewrite H.
      destruct (nonempty (Startup.text env "LDAP_LOGIN")
                && nonempty (Startup.text env "LDAP_ROOT_DOMAIN"));
        [reflexivity|].
      now destruct (nonempty (Startup.text env "LDAP_LOGIN")).
Qed.

End StartupBind.

(** *** The domain read off a base DN *)

Lemma lacks_append (c : ascii) (x y : string) :
  lacks c (x ++ y) = lacks c x && lacks c y.
Proof.
  induction x as [|d x IH]; [reflexivity|].
  cbn [append lacks]. rewrite IH. now rewrite andb_assoc.
Qed.

(** A global replacement passes over text that lacks the first character
    of the pattern. *)
Lemma replace_from_keeps (c0 : ascii) (p r l t : string) :
  lacks c0 l = true ->
  JS.replace_from (String c0 p) r 0 (l ++ t)
  = (l ++ JS.replace_from (String c0 p) r 0 t)%string.
Proof.
  induction l as [|d l IH]; [reflexivity|].
  cbn [lacks]. intros H. apply andb_prop in H as [Hd Hl].
  cbn [append JS.replace_from String.prefix].
  destruct (ascii_dec c0 d) as [E|N].
  - subst d. now rewrite Ascii.eqb_refl in Hd.
  - now rewrite (IH Hl).
Qed.

Lemma replace_from_lacks (c0 : ascii) (p r l : string) :
  lacks c0 l = true -> JS.replace_from (String c0 p) r 0 l = l.
Proof.
  intros H. rewrite <- (append_empty l) at 1.
  rewrite (replace_from_keeps c0 p r l "" H). cbn [JS.replace_from].
  apply append_empty.
Qed.

Lemma lacks_join (c : ascii) (sep : string) (labels : list string) :
  lacks c sep = true ->
  forallb (lacks c) labels = true ->
  lacks c (JS.join sep labels) = true.
Proof.
  intros Hsep. unfold JS.join.
  induction labels as [|l [|l2 rest] IH]; cbn [forallb String.concat];
    intros H; [reflexivity | |].
  - now rewrite andb_true_r in H.
  - apply andb_prop in H as [Hl H].
    rewrite !lacks_append, Hl, Hsep. cbn [andb]. exact (IH H).
Qed.

Lemma forallb_and {A : Type} (f g : A -> bool) (l : list A) :
  forallb (fun x => f x && g x) l = forallb f l && forallb g l.
Proof.
  induction l as [|x l IH]; [reflexivity|]. cbn [forallb]. rewrite IH.
  destruct (f x), (g x), (forallb f l); reflexivity.
Qed.

Lemma prefix_empty (x : string) : String.prefix "" x = true.
Proof. now destruct x. Qed.

(** A match at the start is replaced, and the scan goes on behind it. *)
Lemma replace_component (x : string) :
  JS.replace_from "DC=" "" 0 ("DC=" ++ x) = JS.replace_from "DC=" "" 0 x.
Proof.
  cbn [append JS.replace_from String.prefix String.length Nat.sub].
  destruct (ascii_dec "D" "D") as [_|N]; [|now elim N].
  destruct (ascii_dec "C" "C") as [_|N]; [|now elim N].
  destruct (ascii_dec "=" "=") as [_|N]; [|now elim N].
  now rewrite prefix_empty.
Qed.

Lemma replace_comma (x : string) :
  JS.replace_from "DC=" "" 0 ("," ++ x) = ("," ++ JS.replace_from "DC=" "" 0 x)%string.
Proof.
  cbn [append JS.replace_from String.prefix].
  now destruct (ascii_dec "D" ",") as [E|_]; [discriminate E|].
Qed.

Lemma replace_separator (x : string) :
  JS.replace_from "," "." 0 ("," ++ x) = ("." ++ JS.replace_from "," "." 0 x)%string.
Proof.
  cbn [append JS.replace_from String.prefix String.length Nat.sub].
  destruct (ascii_dec "," ",") as [_|N]; [|now elim N].
  now rewrite prefix_empty.
Qed.

(** The three replacements of [domain_of], one by one. *)
Lemma components_stripped (labels : list string) :
  forallb (lacks "D") labels = true ->
  JS.replaceAll (JS.join "," (map (append "DC=") labels)) "DC=" ""
  = JS.join "," labels.
Proof.
  unfold JS.replaceAll, JS.join.
  induction labels as [|l [|l2 rest] IH]; cbn [forallb]; intros H;
    [reflexivity | |].
  - rewrite andb_true_r in H. cbn [map String.concat].
    rewrite replace_component. now apply replace_from_lacks.
  - apply andb_prop in H as [Hl H]. specialize (IH H).
    cbn [map String.concat] in IH |- *.
    rewrite append_assoc, replace_component.
    rewrite (replace_from_keeps "D" "C=" "" l _ Hl).
    rewrite replace_comma.
    now rewrite IH.
Qed.

Lemma commas_to_dots (labels : list string) :
  forallb (lacks ",") labels = true ->
  JS.replaceAll (JS.join "," labels) "," "." = JS.join "." labels.
Proof.
  unfold JS.replaceAll, JS.join.
  induction labels as [|l [|l2 rest] IH]; cbn [forallb]; intros H;
    [reflexivity | |].
  - rewrite andb_true_r in H. cbn [String.concat]. now apply replace_from_lacks.
  - apply andb_prop in H as [Hl H]. specialize (IH H).
    cbn [String.concat] in IH |- *.
    rewrite (replace_from_keeps "," "" "." l _ Hl).
    rewrite replace_separator.
    now rewrite IH.
Qed.

(** X27.  The domain of the second bind format.  For a base DN made of
    DC= components whose names hold neither an upper-case D nor a comma,
    the domain read off it is the names joined by dots, so that, with no
    LDAP_ROOT_DOMAIN, the second format tried is login, at sign, dotted
    domain. *)
Theorem X27_domain_of_a_base_DN (login : string) (labels : list string) :
  let baseDN := JS.join "," (map (append "DC=") labels) in
  forallb (fun l => lacks "D" l && lacks "," l) labels = true ->
  Startup.domain_of baseDN = JS.join "." labels
  /\ nth 1 (Startup.bindDNFormats login baseDN "") ""
     = (login ++ "@" ++ JS.join "." labels)%string.
Proof.
  cbv zeta. intros H. rewrite forallb_and in H. apply andb_prop in H as [HD Hc].
  assert (E : Startup.domain_of (JS.join "," (map (append "DC=") labels))
              = JS.join "." labels).
  { unfold Startup.domain_of.
    rewrite (components_stripped labels HD), (commas_to_dots labels Hc).
    unfold JS.replaceAll. apply replace_from_lacks.
    now apply lacks_join. }
  split; [exact E|].
  cbn [Startup.bindDNFormats nth nonempty]. now rewrite E.
Qed.

(* ================================================================== *)
(** ** The MySQL adapter: the connection string *)

Lemma split_lacks (sep : ascii) (l : string) :
  lacks sep l = true -> JS.split sep l = [l].
Proof.
  induction l as [|d l IH]; [reflexivity|].
  cbn [lacks JS.split]. intros H. apply andb_prop in H as [Hd Hl].
  apply negb_true_iff in Hd. rewrite Hd, (IH Hl). reflexivity.
Qed.

Lemma split_append (sep : ascii) (l t : string) :
  lacks sep l = true ->
  JS.split sep (l ++ String sep t) = l :: JS.split sep t.
Proof.
  induction l as [|d l IH].
  - intros _. cbn [append JS.split]. now rewrite Ascii.eqb_refl.
  - cbn [lacks append JS.split]. intros H. apply andb_prop in H as [Hd Hl].
    apply negb_true_iff in Hd. rewrite Hd, (IH Hl). reflexivity.
Qed.

(** Splitting what was joined gives the parts back. *)
Lemma split_join (sep : ascii) (parts : list string) :
  parts <> [] ->
  forallb (lacks sep) parts = true ->
  JS.split sep (JS.join (String sep "") parts) = parts.
Proof.
  unfold JS.join.
  induction parts as [|l [|l2 rest] IH]; cbn [forallb]; intros Hne H;
    [now elim Hne | |].
  - rewrite andb_true_r in H. cbn [String.concat]. now apply split_lacks.
  - apply andb_prop in H as [Hl H].
    cbn [String.concat] in IH |- *. cbn [append].
    rewrite (split_append sep l _ Hl). f_equal.
    apply IH; [discriminate | exact H].
Qed.

Section MySQL.

Variable URL_of : string -> option MySQLAdapter.URL.t.

(** X28.  In the key=value form of the MySQL connection string a value
    ends at its first equals sign, and the last pair for a key wins.  When
    the last part of the string reads key=value=rest, with a key and a
    value of code units below 128 and a key that is password or pwd in any
    letter case, the configured password is the trimmed value: the text
    from the second equals sign on is dropped, and so is any password given
    by an earlier part. *)
Theorem X28_mysql_value_ends_at_an_equals_sign
  (before : list string) (key value rest : string) :
  let part := (key ++ "=" ++ value ++ "=" ++ rest)%string in
  let connectionString := JS.join ";" (before ++ [part]) in
  URL_of connectionString = None ->
  forallb (lacks ";") (before ++ [part]) = true ->
  JS.is_ascii key = true ->
  JS.is_ascii value = true ->
  lacks "=" key = true ->
  lacks "=" value = true ->
  existsb (String.eqb (JS.toLowerCase (JS.trim key))) ["password"; "pwd"] = true ->
  nonempty (JS.trim value) = true ->
  MySQLAdapter.password
    (fst (MySQLAdapter.parseConnectionString URL_of connectionString))
  = Some (JS.trim value).
Proof.
  cbv zeta. intros Hurl Hparts _ _ Hkey Hvalue Hname Hnonempty.
  unfold MySQLAdapter.parseConnectionString. rewrite Hurl.
  rewrite split_join; [| now destruct before | exact Hparts].
  rewrite fold_left_app. cbn [fold_left].
  destruct (fold_left MySQLAdapter.part_step before _) as [config defaultDatabase].
  unfold MySQLAdapter.part_step, MySQLAdapter.key_value.
  cbn [append].
  rewrite (split_append "=" key _ Hkey), (split_append "=" value _ Hvalue).
  cbn [map].
  assert (Hk : nonempty (JS.trim key) = true).
  { destruct (JS.trim key); [discriminate Hname | reflexivity]. }
  rewrite Hk, Hnonempty. cbn [andb].
  unfold MySQLAdapter.assign.
  cbn [existsb] in Hname. rewrite orb_false_r in Hname.
  destruct (String.eqb_spec (JS.toLowerCase (JS.trim key)) "password") as [E|_].
  - rewrite E. reflexivity.
  - cbn [orb] in Hname. apply String.eqb_eq in Hname. rewrite Hname. reflexivity.
Qed.

(** What every step of the loop keeps. *)
Lemma part_step_keeps (acc : MySQLAdapter.PoolOptions * string) (part : string) :
  (snd acc = match MySQLAdapter.database (fst acc) with
             | Some name => name
             | None => EmptyString
             end
   /\ MySQLAdapter.database (fst acc) <> Some EmptyString
   /\ MySQLAdapter.user (fst acc) <> Some EmptyString
   /\ MySQLAdapter.password (fst acc) <> Some EmptyString) ->
  let acc' := MySQLAdapter.part_step acc part in
  snd acc' = match MySQLAdapter.database (fst acc') with
             | Some name => name
             | None => EmptyString
             end
  /\ MySQLAdapter.database (fst acc') <> Some EmptyString
  /\ MySQLAdapter.user (fst acc') <> Some EmptyString
  /\ MySQLAdapter.password (fst acc') <> Some EmptyString.
Proof.
  intros Inv. cbv zeta. unfold MySQLAdapter.part_step.
  destruct (MySQLAdapter.key_value part) as [key [value|]]; [|exact Inv].
  destruct (nonempty key && nonempty value) eqn:E; [|exact Inv].
  apply andb_prop in E as [_ Hv].
  assert (N : Some value <> Some EmptyString).
  { intros H. injection H as ->. discriminate Hv. }
  destruct acc as [config defaultDatabase]. cbn [fst snd] in Inv.
  destruct Inv as [I1 [I2 [I3 I4]]].
  unfold MySQLAdapter.assign.
  repeat match goal with
         | |- context [if ?b then _ else _] => destruct b
         end;
    cbn [fst snd MySQLAdapter.database MySQLAdapter.user MySQLAdapter.password];
    repeat split; assumption || reflexivity.
Qed.

(** X29.  Whatever the connection string, a URL or not, after
    [parseConnectionString] the adapter's default database is the
    configured database, and is empty when none is configured; and the
    configured database, user and password are never the empty string. *)
Theorem X29_mysql_default_database_is_the_configured_one
  (connectionString : string) :
  let parsed := MySQLAdapter.parseConnectionString URL_of connectionString in
  snd parsed = match MySQLAdapter.database (fst parsed) with
               | Some name => name
               | None => EmptyString
               end
  /\ MySQLAdapter.database (fst parsed) <> Some EmptyString
  /\ MySQLAdapter.user (fst parsed) <> Some EmptyString
  /\ MySQLAdapter.password (fst parsed) <> Some EmptyString.
Proof.
  cbv zeta. unfold MySQLAdapter.parseConnectionString.
  destruct (URL_of connectionString) as [url|].
  - cbn [fst snd MySQLAdapter.database MySQLAdapter.user MySQLAdapter.password].
    unfold MySQLAdapter.or_undefined.
    repeat split;
      match goal with
      | |- context [nonempty ?t] => destruct t; cbn [nonempty]; discriminate
      end.
  - assert (G : forall parts acc,
               (snd acc = match MySQLAdapter.database (fst acc) with
                          | Some name => name
                          | None => EmptyString
                          end
                /\ MySQLAdapter.database (fst acc) <> Some EmptyString
                /\ MySQLAdapter.user (fst acc) <> Some EmptyString
                /\ MySQLAdapter.password (fst acc) <> Some EmptyString) ->
               let acc' := fold_left MySQLAdapter.part_step parts acc in
               snd acc' = match MySQLAdapter.database (fst acc') with
                          | Some name => name
                          | None => EmptyString
                          end
               /\ MySQLAdapter.database (fst acc') <> Some EmptyString
               /\ MySQLAdapter.user (fst acc') <> Some EmptyString
               /\ MySQLAdapter.password (fst acc') <> Some EmptyString).
    { induction parts as [|part parts IH]; intros acc Inv; [exact Inv|].
      cbn [fold_left]. apply IH. now apply part_step_keeps. }
    apply G. cbn. repeat split; discriminate.
Qed.

End MySQL.

(* ================================================================== *)
(** ** The further theorems at concrete inputs *)

Lemma X1_list_schemas_is_one_call :
  let a := Sample.adapter "PostgresAdapter" in
  let this := constructor a Sample.no_env in
  let request := Request.make "list_schemas" None in
  adapter this = Some a
  /\ (snd (@CallTool Sample.runtime unit this request Sample.world) = Sample.world
      \/ exists m args,
           existsb (String.eqb m) (map snd adapter_method) = true
           /\ calls (snd (@CallTool Sample.runtime unit this request Sample.world))
              = (calls Sample.world ++ [(m, args)])%list
           /\ adapter_state (snd (@CallTool Sample.runtime unit this request
                                    Sample.world))
              = snd (invoke a m args (adapter_state Sample.world))).
Proof.
  cbv zeta. split; [reflexivity|].
  apply (@X1_at_most_one_adapter_call Sample.runtime unit
           (constructor (Sample.adapter "PostgresAdapter") Sample.no_env)
           (Sample.adapter "PostgresAdapter")
           (Request.make "list_schemas" None) Sample.world eq_refl).
Defined.


Lemma X3_redis_set_reaches_adapter :
  let a := RedisAdapter.as_adapter (RT := Sample.runtime)
             Sample.redis_client Sample.shape in
  let this := constructor a (Sample.setenv "READ_ONLY_MODE" "false") in
  let t := Tool.make "redis_set" "Set value of a Redis key"
             [("key", "string"); ("value", "string"); ("ttl", "number")]
             ["key"; "value"] in
  let o := [("key", JS.Str "k"); ("value", JS.Str "v")] in
  let w := {| adapter_state := Some []; calls := [] |} in
  adapter this = Some a
  /\ readOnly this = false
  /\ In t (ListTools this)
  /\ mutating (Tool.name t) = true
  /\ method_of (Tool.name t) = "set"
  /\ reached (RT := Sample.runtime) a "set" [JS.Str "k"; JS.Str "v"; JS.Undefined] w
       (@CallTool Sample.runtime _ this (Request.make (Tool.name t) (Some o)) w)
  /\ snd (invoke a "set" [JS.Str "k"; JS.Str "v"; JS.Undefined] (adapter_state w))
     = Some [("set", [JS.Str "k"; JS.Str "v"])].
Proof.
  cbv zeta.
  assert (H3 : In (Tool.make "redis_set" "Set value of a Redis key"
                     [("key", "string"); ("value", "string"); ("ttl", "number")]
                     ["key"; "value"])
                  (ListTools
                     (constructor
                        (RedisAdapter.as_adapter (RT := Sample.runtime)
                           Sample.redis_client Sample.shape)
                        (Sample.setenv "READ_ONLY_MODE" "false"))))
    by (simpl; tauto).
  split; [reflexivity | split; [reflexivity | split; [exact H3
    | split; [reflexivity | split; [reflexivity|]]]]].
  split; [|reflexivity].
  exact (@X3_mutating_reaches_adapter_when_read_write Sample.runtime _
           (constructor
              (RedisAdapter.as_adapter (RT := Sample.runtime)
                 Sample.redis_client Sample.shape)
              (Sample.setenv "READ_ONLY_MODE" "false"))
           (RedisAdapter.as_adapter (RT := Sample.runtime)
              Sample.redis_client Sample.shape)
           (Tool.make "redis_set" "Set value of a Redis key"
              [("key", "string"); ("value", "string"); ("ttl", "number")]
              ["key"; "value"])
           [("key", JS.Str "k"); ("value", JS.Str "v")]
           {| adapter_state := Some []; calls := [] |}
           eq_refl eq_refl H3 eq_refl).
Defined.

Lemma X4_ldap_list_folders_without_arguments :
  let a := Sample.adapter "LDAPAdapter" in
  let this := constructor a Sample.no_env in
  adapter this = Some a
  /\ In "ldap_list_folders" (map Tool.name registry)
  /\ existsb (String.eqb "ldap_list_folders") no_argument_tools = false
  /\ exists message,
       @CallTool Sample.runtime unit this
         (Request.make "ldap_list_folders" None) Sample.world
       = (Resolved (error_response message), Sample.world).
Proof.
  cbv zeta.
  assert (H2 : In "ldap_list_folders" (map Tool.name registry))
    by (simpl; tauto).
  split; [reflexivity | split; [exact H2 | split; [reflexivity|]]].
  apply (@X4_absent_arguments_are_an_error Sample.runtime unit
           (constructor (Sample.adapter "LDAPAdapter") Sample.no_env)
           (Sample.adapter "LDAPAdapter") "ldap_list_folders" Sample.world
           eq_refl H2 eq_refl).
Defined.

Lemma X5_list_views_without_arguments :
  let a := Sample.adapter "PostgresAdapter" in
  let this := constructor a Sample.no_env in
  adapter this = Some a
  /\ In "list_views" no_argument_tools
  /\ native "list_views" = false
  /\ calls (snd (@CallTool Sample.runtime unit this
                   (Request.make "list_views" None) Sample.world))
     = [("listViews", [JS.Str "public"])].
Proof.
  cbv zeta.
  assert (H2 : In "list_views" no_argument_tools) by (simpl; tauto).
  split; [reflexivity | split; [exact H2 | split; [reflexivity|]]].
  apply (@X5_tools_without_arguments Sample.runtime unit
           (constructor (Sample.adapter "PostgresAdapter") Sample.no_env)
           (Sample.adapter "PostgresAdapter") "list_views" Sample.world
           eq_refl H2).
  intros H. discriminate H.
Defined.

Lemma X6_describe_table_on_redis :
  let a := RedisAdapter.as_adapter (RT := Sample.runtime)
             Sample.redis_client Sample.shape in
  let this := constructor a Sample.no_env in
  let t := Tool.make "describe_table"
             "Get detailed schema information for a table"
             [("table", "string"); ("schema", "string")] ["table"] in
  let args := Some [("table", JS.Str "greeting")] in
  let margs := [JS.Str "greeting"; JS.Str "public"] in
  let w := {| adapter_state := Some []; calls := [] |} in
  In t sql_tools
  /\ active_kind this <> RelationalSQL
  /\ well_formed t args = true
  /\ mutating (Tool.name t) = false
  /\ existsb (String.eqb (Tool.name t)) (map Tool.name (ListTools this)) = false
  /\ method_of (Tool.name t) = "describeTable"
  /\ reached (RT := Sample.runtime) a "describeTable" margs w
       (@CallTool Sample.runtime _ this (Request.make (Tool.name t) args) w)
  /\ snd (invoke a "describeTable" margs (adapter_state w))
     = Some [("type", [JS.Str "greeting"]); ("ttl", [JS.Str "greeting"]);
             ("exists", [JS.Str "greeting"]); ("get", [JS.Str "greeting"])].
Proof.
  cbv zeta.
  assert (H1 : In (Tool.make "describe_table"
                     "Get detailed schema information for a table"
                     [("table", "string"); ("schema", "string")] ["table"])
                  sql_tools) by (simpl; tauto).
  assert (H2 : active_kind
                 (constructor
                    (RedisAdapter.as_adapter (RT := Sample.runtime)
                       Sample.redis_client Sample.shape)
                    Sample.no_env)
               <> RelationalSQL) by discriminate.
  split; [exact H1 | split; [exact H2 | split; [reflexivity | split; [reflexivity|]]]].
  destruct (@X6_generic_tools_are_dispatched_on_every_backend Sample.runtime _
              (RedisAdapter.as_adapter (RT := Sample.runtime)
                 Sample.redis_client Sample.shape)
              Sample.no_env
              (Tool.make "describe_table"
                 "Get detailed schema information for a table"
                 [("table", "string"); ("schema", "string")] ["table"])
              (Some [("table", JS.Str "greeting")])
              {| adapter_state := Some []; calls := [] |}
              H1 H2 eq_refl (fun H => False_ind _ (Bool.diff_false_true H)))
    as [Hlist [o [Ho H]]].
  split; [exact Hlist | split; [reflexivity|]].
  injection Ho as <-. split; [exact H | reflexivity].
Defined.

Lemma X7_select_then_drop_passes :
  let a := Sample.adapter "PostgresAdapter" in
  let this := constructor a Sample.no_env in
  let statement := "  select 1; DROP TABLE users" in
  let o := [("sql", JS.Str statement)] in
  adapter this = Some a
  /\ readOnly this = true
  /\ JS.get o "sql" = JS.Str ("  " ++ "select" ++ " 1; DROP TABLE users")
  /\ JS.trimStart "  " = ""
  /\ JS.toUpperCase "select" = "SELECT"
  /\ calls (snd (@CallTool Sample.runtime unit this
                   (Request.make "query" (Some o)) Sample.world))
     = [("query", [JS.Str statement])].
Proof.
  cbv zeta.
  split; [reflexivity | split; [reflexivity | split; [reflexivity
    | split; [reflexivity | split; [reflexivity|]]]]].
  apply (@X7_query_passes_anything_after_select Sample.runtime unit
           (constructor (Sample.adapter "PostgresAdapter") Sample.no_env)
           (Sample.adapter "PostgresAdapter")
           [("sql", JS.Str "  select 1; DROP TABLE users")]
           "  " "select" " 1; DROP TABLE users" Sample.world
           eq_refl eq_refl eq_refl eq_refl).
Defined.

Lemma X8_connect_with_a_wrong_password :
  let this := LDAPAdapter.constructor "ldap://localhost:389" [] in
  let d := "cn=admin,dc=example,dc=org" in
  let after := LDAPAdapter.connect Sample.ldap_client (Some d) (Some "guess") this in
  LDAPAdapter.client this = Some []
  /\ nonempty d && nonempty "guess" = true
  /\ fst after = inl (JS.Error "Invalid Credentials")
  /\ LDAPAdapter.bindDN (snd after) = d
  /\ LDAPAdapter.bindPassword (snd after) = "guess".
Proof.
  cbv zeta. split; [reflexivity | split; [reflexivity|]].
  destruct (proj1 (X8_connect_stores_credentials_before_binding
                     Sample.ldap_client "cn=admin,dc=example,dc=org" "guess"
                     (LDAPAdapter.constructor "ldap://localhost:389" []) []
                     eq_refl) eq_refl) as [H1 [_ [H3 H4]]].
  split; [exact H1 | split; [exact H3 | exact H4]].
Defined.

Lemma X11_folders_of_the_sample_directory :
  let this := Sample.ldap_state in
  let b := "dc=example,dc=org" in
  let c := [("bind", [JS.Str "cn=admin,dc=example,dc=org"; JS.Str "admin-secret"])] in
  let c' :=
    (c ++ [("search",
            [JS.Str b;
             JS.Obj (LDAPAdapter.searchOptions LDAPAdapter.folder_filter
                       LDAPAdapter.folder_options)])])%list in
  LDAPAdapter.client this = Some c
  /\ nonempty b = true
  /\ String.eqb (JS.trim b) "" = false
  /\ JS.letters_then_equals b = true
  /\ LDAPAdapter.client_search Sample.directory b
       (LDAPAdapter.searchOptions LDAPAdapter.folder_filter
          LDAPAdapter.folder_options) c
     = (inr Sample.folders, c')
  /\ map LDAPAdapter.dn Sample.folders
     = ["dc=example,dc=org"; "ou=people,dc=example,dc=org";
        "ou=staff,ou=people,dc=example,dc=org"]
  /\ fst (LDAPAdapter.listFolders (RT := Sample.runtime) Sample.directory Sample.utf8 b this)
     = inr ["dc=example,dc=org"].
Proof.
  cbv zeta.
  split; [reflexivity | split; [reflexivity | split; [reflexivity
    | split; [reflexivity | split; [reflexivity | split; [reflexivity|]]]]]].
  rewrite (X11_listFolders_returns_the_top_level_only (RT := Sample.runtime)
             Sample.directory Sample.utf8 "dc=example,dc=org" Sample.ldap_state
             _ _ Sample.folders eq_refl eq_refl eq_refl eq_refl eq_refl).
  reflexivity.
Defined.

Lemma X12_base_without_a_component :
  let this := Sample.ldap_state in
  let c := [("bind", [JS.Str "cn=admin,dc=example,dc=org"; JS.Str "admin-secret"])] in
  LDAPAdapter.client this = Some c
  /\ JS.is_ascii "example.org" = true
  /\ nonempty "example.org" = true
  /\ String.eqb (JS.trim "example.org") "" = false
  /\ JS.letters_then_equals "example.org" = false
  /\ LDAPAdapter.search Sample.directory Sample.utf8 "example.org"
       "(objectClass=*)" [] this
     = (inl (JS.Error (LDAPAdapter.invalid_base_message "example.org")), this).
Proof.
  cbv zeta.
  split; [reflexivity | split; [reflexivity | split; [reflexivity
    | split; [reflexivity | split; [reflexivity|]]]]].
  apply (X12_search_refuses_a_malformed_base Sample.directory Sample.utf8
           "example.org" "(objectClass=*)" [] Sample.ldap_state _
           eq_refl eq_refl eq_refl eq_refl eq_refl).
Defined.

Lemma X13_search_below_a_missing_base :
  let this := Sample.ldap_state in
  let b := "dc=nowhere" in
  let c := [("bind", [JS.Str "cn=admin,dc=example,dc=org"; JS.Str "admin-secret"])] in
  let original := "Search failed. Code: 0x20 NO_OBJECT" in
  LDAPAdapter.client this = Some c
  /\ (nonempty b && negb (String.eqb (JS.trim b) "")
      && negb (JS.letters_then_equals b)) = false
  /\ fst (LDAPAdapter.client_search Sample.directory b
            (LDAPAdapter.searchOptions "(objectClass=*)" []) c)
     = inl (JS.Error original)
  /\ fst (LDAPAdapter.search Sample.directory Sample.utf8 b "(objectClass=*)" [] this)
     = inl (JS.Error (LDAPAdapter.no_object_message b original)).
Proof.
  cbv zeta.
  split; [reflexivity | split; [reflexivity | split; [reflexivity|]]].
  rewrite (X13_search_explains_NO_OBJECT Sample.directory Sample.utf8
             "dc=nowhere" "(objectClass=*)" [] Sample.ldap_state _ _
             "Search failed. Code: 0x20 NO_OBJECT" eq_refl eq_refl eq_refl).
  reflexivity.
Defined.

Lemma X14_blank_base_on_the_sample_directory :
  let this := Sample.ldap_state in
  let c := [("bind", [JS.Str "cn=admin,dc=example,dc=org"; JS.Str "admin-secret"])] in
  LDAPAdapter.client this = Some c
  /\ String.eqb (JS.trim "  ") "" = true
  /\ fst (LDAPAdapter.client_search Sample.directory ""
            (LDAPAdapter.searchOptions "(objectClass=*)" LDAPAdapter.rootDSE_options) c)
     = inr []
  /\ fst (LDAPAdapter.searchFolderStructure (RT := Sample.runtime) Sample.directory Sample.utf8 "  " 10
            false this)
     = inl (JS.Error LDAPAdapter.root_search_failed_message).
Proof.
  cbv zeta.
  split; [reflexivity | split; [reflexivity | split; [reflexivity|]]].
  apply (proj2 (X14_discovery_never_reports_its_own_failure (RT := Sample.runtime)
                  Sample.directory Sample.utf8 "  " 10 false Sample.ldap_state)
               _ _ eq_refl eq_refl eq_refl).
Defined.

Lemma X15_closing_the_sample_connection :
  let this := Sample.ldap_state in
  let c := [("bind", [JS.Str "cn=admin,dc=example,dc=org"; JS.Str "admin-secret"])] in
  let closed := snd (LDAPAdapter.close Sample.ldap_client this) in
  LDAPAdapter.client this = Some c
  /\ fst (LDAPAdapter.client_unbind Sample.ldap_client c) = inr tt
  /\ LDAPAdapter.client closed = None
  /\ LDAPAdapter.authenticate Sample.ldap_client
       (JS.Str "cn=alice,dc=example,dc=org") (JS.Str "wonderland") closed
     = (inr false, closed).
Proof.
  cbv zeta. split; [reflexivity | split; [reflexivity|]].
  pose proof (X15_close_drops_the_client (RT := Sample.runtime) Sample.ldap_client Sample.directory
                Sample.utf8 Sample.ldap_state _ eq_refl) as H.
  cbv beta iota zeta delta [Sample.ldap_client LDAPAdapter.client_unbind] in H.
  destruct H as [_ [H2 [_ [_ [_ [_ [_ [_ H9]]]]]]]].
  split; [exact H2 | apply H9].
Defined.

Lemma X16_execute_sql_on_redis :
  let env := Sample.setenv "READ_ONLY_MODE" "false" in
  let this :=
    constructor (RedisAdapter.as_adapter (RT := Sample.runtime)
                   Sample.redis_client Sample.shape) env in
  let request := Request.make "execute_sql" (Some [("sql", JS.Str "DELETE FROM t")]) in
  let w := {| adapter_state := Some []; calls := [] |} in
  In "execute_sql" ["query"; "execute_sql"; "explain_query"; "describe_view"]
  /\ readOnly this = false
  /\ exists message,
       fst (@CallTool Sample.runtime _ this request w)
       = Resolved (error_response message)
       /\ adapter_state (snd (@CallTool Sample.runtime _ this request w)) = Some [].
Proof.
  cbv zeta.
  assert (H1 : In "execute_sql"
                 ["query"; "execute_sql"; "explain_query"; "describe_view"])
    by (simpl; tauto).
  split; [exact H1 | split; [reflexivity|]].
  apply (proj1 (@X16_statement_tools_fail_on_the_adapters_without_SQL
                  Sample.runtime (list Call) unit (list Call)
                  Sample.redis_client Sample.shape Sample.no_others
                  Sample.ldap_client Sample.directory Sample.utf8 Sample.no_others
                  (Sample.setenv "READ_ONLY_MODE" "false") "execute_sql"
                  (Some [("sql", JS.Str "DELETE FROM t")]) H1)
               {| adapter_state := Some []; calls := [] |}).
Defined.

Lemma X17_redis_set_with_ttl_zero :
  let env := Sample.setenv "READ_ONLY_MODE" "false" in
  let this :=
    constructor (RedisAdapter.as_adapter (RT := Sample.runtime)
                   Sample.redis_client Sample.shape) env in
  let o := [("key", JS.Str "k"); ("value", JS.Str "v"); ("ttl", JS.Num 0)] in
  readOnly this = false
  /\ JS.truthy (JS.get o "ttl") = false
  /\ RedisAdapter.command Sample.redis_client "set" [JS.Str "k"; JS.Str "v"] []
     = (inr (JS.Str "OK"), [("set", [JS.Str "k"; JS.Str "v"])])
  /\ adapter_state
       (snd (@CallTool Sample.runtime _ this (Request.make "redis_set" (Some o))
               {| adapter_state := Some []; calls := [] |}))
     = Some [("set", [JS.Str "k"; JS.Str "v"])].
Proof.
  cbv zeta.
  split; [reflexivity | split; [reflexivity | split; [reflexivity|]]].
  pose proof (@X17_redis_set_expiry Sample.runtime (list Call)
                Sample.redis_client Sample.shape
                (Sample.setenv "READ_ONLY_MODE" "false")
                [("key", JS.Str "k"); ("value", JS.Str "v"); ("ttl", JS.Num 0)]
                [] [("set", [JS.Str "k"; JS.Str "v"])] (JS.Str "OK") []
                eq_refl eq_refl) as H.
  exact (f_equal (fun result => adapter_state (snd result)) H).
Defined.

Lemma X18_describing_a_missing_key :
  let key := JS.Str "nothing" in
  let fields := [("key", key); ("type", JS.Str "none"); ("ttl", JS.Str "OK");
                 ("exists", JS.Bool false)] in
  let log := [("type", [key]); ("ttl", [key]); ("exists", [key])] in
  RedisAdapter.getTableStats Sample.redis_client key (Some [])
  = (inr (JS.Obj fields), Some log)
  /\ JS.get fields "exists" = JS.Bool false
  /\ RedisAdapter.describeTable Sample.redis_client Sample.shape key (Some [])
     = (inr (JS.Obj (fields ++ [("value", JS.Null)])%list), Some log).
Proof.
  cbv zeta. split; [reflexivity | split; [reflexivity|]].
  apply (proj2 (X18_describeTable_of_a_missing_key Sample.redis_client
                  Sample.shape (JS.Str "nothing") (Some []))
               _ _ eq_refl eq_refl).
Defined.

Lemma X19_redis_get_after_close :
  In "get" ["connect"; "get"; "set"; "del"; "keys"; "exists"; "ttl"; "expire";
            "type"; "dbsize"; "info"; "hget"; "hset"; "hgetall"; "hdel";
            "lpush"; "rpush"; "lpop"; "rpop"; "lrange"; "sadd"; "smembers";
            "srem"; "zadd"; "zrange"; "listTables"; "describeTable";
            "getTableSize"; "searchTables"; "getTableStats"]
  /\ snd (RedisAdapter.close Sample.redis_client (Some [])) = None
  /\ invoke (RedisAdapter.as_adapter (RT := Sample.runtime)
               Sample.redis_client Sample.shape)
       "get" [JS.Str "greeting"] None
     = (inl (JS.Error "Redis client not initialized"), None).
Proof.
  assert (H1 : In "get"
                 ["connect"; "get"; "set"; "del"; "keys"; "exists"; "ttl"; "expire";
                  "type"; "dbsize"; "info"; "hget"; "hset"; "hgetall"; "hdel";
                  "lpush"; "rpush"; "lpop"; "rpop"; "lrange"; "sadd"; "smembers";
                  "srem"; "zadd"; "zrange"; "listTables"; "describeTable";
                  "getTableSize"; "searchTables"; "getTableStats"])
    by (simpl; tauto).
  split; [exact H1 | split; [reflexivity|]].
  apply (proj2 (proj2 (@X19_redis_close_drops_the_client Sample.runtime (list Call)
                         Sample.redis_client Sample.shape))
               "get" [JS.Str "greeting"] H1).
Defined.

Lemma X20_absolute_path_after_three_slashes :
  JS.startsWith "/var/db/app.sqlite" "file://" = false
  /\ SQLiteAdapter.dbPath_of "sqlite:///var/db/app.sqlite" = "/var/db/app.sqlite".
Proof.
  split; [reflexivity|].
  apply (proj1 (proj2 (proj2 (proj2
           (X20_sqlite_path_of_the_connection_string "/var/db/app.sqlite")))
           eq_refl)).
Defined.

Lemma X21_identifier_with_a_quote :
  let identifier := "users" ++ JS.quote ++ "; DROP TABLE users; --" in
  JS.startsWith " WHERE 1" JS.quote = false
  /\ read_quoted (SQLiteAdapter.escapeIdentifier identifier ++ " WHERE 1")
     = Some (identifier, " WHERE 1").
Proof.
  cbv zeta. split; [reflexivity|].
  apply (X21_escaped_identifier_reads_back
           ("users" ++ JS.quote ++ "; DROP TABLE users; --") " WHERE 1" eq_refl).
Defined.

Lemma X22_execute_after_close :
  let handle := {| SQLiteAdapter.path := "./database.sqlite";
                   SQLiteAdapter.readonly := false |} in
  let this := {| SQLiteAdapter.db := Some handle;
                 SQLiteAdapter.file := ["CREATE TABLE t (x)"] |} in
  let closed := {| SQLiteAdapter.db := None;
                   SQLiteAdapter.file := ["CREATE TABLE t (x)"] |} in
  SQLiteAdapter.db this = Some handle
  /\ SQLiteAdapter.close Sample.sqlite_close this = (inr tt, closed)
  /\ SQLiteAdapter.execute (RT := Sample.runtime) Sample.sqlite_driver
       (JS.Str "DELETE FROM t") None closed
     = (inl (JS.Error "Database connection not initialized"), closed).
Proof.
  cbv zeta. split; [reflexivity|].
  pose proof (X22_sqlite_close_drops_the_handle (RT := Sample.runtime)
                Sample.sqlite_driver
                Sample.sqlite_close
                {| SQLiteAdapter.db :=
                     Some {| SQLiteAdapter.path := "./database.sqlite";
                             SQLiteAdapter.readonly := false |};
                   SQLiteAdapter.file := ["CREATE TABLE t (x)"] |}
                _ eq_refl) as H.
  cbv beta iota zeta delta [Sample.sqlite_close ret SQLiteAdapter.file] in H.
  destruct H as [H1 [_ H3]].
  split; [exact H1 | apply H3].
Defined.

Lemma X23_mixed_case_redis :
  let env := Sample.setenv "DB_TYPE" "Redis" in
  let a := RedisAdapter.as_adapter (RT := Sample.runtime)
             Sample.redis_client Sample.shape in
  Startup.adapter_class env = inr Startup.RedisAdapter
  /\ constructor_name a = Startup.class_name Startup.RedisAdapter
  /\ ListTools (constructor a env) = redis_tools
  /\ isRedis (constructor a env) = true.
Proof.
  cbv zeta. split; [reflexivity | split; [reflexivity|]].
  destruct (X23_chosen_class_decides_the_catalogue
              (Sample.setenv "DB_TYPE" "Redis") Startup.RedisAdapter
              (RedisAdapter.as_adapter (RT := Sample.runtime)
                 Sample.redis_client Sample.shape)
              eq_refl eq_refl) as [H1 [H2 _]].
  split; [exact H1 | exact H2].
Defined.

Lemma X25_alice_binds_with_the_third_format :
  let env := Sample.environment [("LDAP_LOGIN", "alice");
                                 ("LDAP_BASE_DN", "DC=example,DC=com");
                                 ("LDAP_PASSWORD", "wonderland")] in
  let this := LDAPAdapter.constructor "ldap://localhost:389" [] in
  let refusal := fun _ _ : JS.Value => JS.Error "Invalid Credentials" in
  let outcome :=
    Startup.bind_at_startup Sample.active_directory Sample.name_of env this in
  (forall d p c,
      fst (LDAPAdapter.client_bind Sample.active_directory d p c)
      = if Sample.knows d p then inr tt else inl (refusal d p))
  /\ LDAPAdapter.client this = Some []
  /\ nonempty (Startup.text env "LDAP_BIND_DN") = false
  /\ nonempty (Startup.text env "LDAP_LOGIN")
     && nonempty (Startup.text env "LDAP_BASE_DN") = true
  /\ nonempty (Startup.or_else env "LDAP_PASSWORD"
                 (Startup.text env "LDAP_BIND_PASSWORD")) = true
  /\ Startup.bindDNFormats "alice" "DC=example,DC=com" ""
     = ["CN=alice,CN=Users,DC=example,DC=com"; "alice@example.com";
        "CN=alice,DC=example,DC=com"; "CN=alice,OU=Users,DC=example,DC=com";
        "alice"]
  /\ fst outcome = inr tt
  /\ LDAPAdapter.bindDN (snd outcome) = "CN=alice,DC=example,DC=com"
  /\ LDAPAdapter.bindPassword (snd outcome) = "wonderland".
Proof.
  cbv zeta.
  split; [intros d p c; reflexivity|].
  split; [reflexivity | split; [reflexivity | split; [reflexivity
    | split; [reflexivity | split; [reflexivity|]]]]].
  exact (X25_startup_binds_with_the_first_accepted_format
           Sample.active_directory Sample.name_of Sample.knows
           (fun _ _ => JS.Error "Invalid Credentials")
           (fun d p c => eq_refl)
           (Sample.environment [("LDAP_LOGIN", "alice");
                                ("LDAP_BASE_DN", "DC=example,DC=com");
                                ("LDAP_PASSWORD", "wonderland")])
           (LDAPAdapter.constructor "ldap://localhost:389" []) []
           eq_refl eq_refl eq_refl eq_refl).
Defined.

Lemma X26_login_and_base_without_a_password :
  let env := Sample.environment [("LDAP_LOGIN", "alice");
                                 ("LDAP_BASE_DN", "DC=example,DC=com")] in
  let this := LDAPAdapter.constructor "ldap://localhost:389" [] in
  nonempty (Startup.or_else env "LDAP_PASSWORD"
              (Startup.text env "LDAP_BIND_PASSWORD")) = false
  /\ nonempty (Startup.text env "LDAP_BIND_DN") = false
  /\ nonempty (Startup.text env "LDAP_LOGIN")
     && nonempty (Startup.text env "LDAP_BASE_DN") = true
  /\ Startup.bind_at_startup Sample.active_directory Sample.name_of env this
     = (inl (JS.Error
               (Startup.bind_failed_message Sample.name_of
                  (Startup.bindDNFormats "alice" "DC=example,DC=com" "") None)),
        this).
Proof.
  cbv zeta.
  split; [reflexivity | split; [reflexivity | split; [reflexivity|]]].
  exact (proj1 (proj1 (X26_startup_without_a_password
                         Sample.active_directory Sample.name_of
                         (Sample.environment [("LDAP_LOGIN", "alice");
                                              ("LDAP_BASE_DN", "DC=example,DC=com")])
                         (LDAPAdapter.constructor "ldap://localhost:389" [])
                         eq_refl)
                      eq_refl eq_refl)).
Defined.

Lemma X27_domain_of_example_com :
  forallb (fun l => lacks "D" l && lacks "," l) ["example"; "com"] = true
  /\ Startup.domain_of "DC=example,DC=com" = "example.com"
  /\ nth 1 (Startup.bindDNFormats "alice" "DC=example,DC=com" "") ""
     = "alice@example.com".
Proof.
  split; [reflexivity|].
  exact (X27_domain_of_a_base_DN "alice" ["example"; "com"] eq_refl).
Defined.

Lemma X28_password_ending_in_equals_signs :
  let connectionString := "Server=localhost;Pwd=first;Pwd=c2VjcmV0==" in
  Sample.no_url connectionString = None
  /\ forallb (lacks ";") ["Server=localhost"; "Pwd=first"; "Pwd=c2VjcmV0=="] = true
  /\ JS.is_ascii "Pwd" = true
  /\ JS.is_ascii "c2VjcmV0" = true
  /\ lacks "=" "Pwd" = true
  /\ lacks "=" "c2VjcmV0" = true
  /\ existsb (String.eqb (JS.toLowerCase (JS.trim "Pwd"))) ["password"; "pwd"] = true
  /\ nonempty (JS.trim "c2VjcmV0") = true
  /\ MySQLAdapter.password
       (fst (MySQLAdapter.parseConnectionString Sample.no_url connectionString))
     = Some "c2VjcmV0".
Proof.
  cbv zeta.
  split; [reflexivity | split; [reflexivity | split; [reflexivity
    | split; [reflexivity | split; [reflexivity | split; [reflexivity
    | split; [reflexivity | split; [reflexivity|]]]]]]]].
  exact (X28_mysql_value_ends_at_an_equals_sign Sample.no_url
           ["Server=localhost"; "Pwd=first"] "Pwd" "c2VjcmV0" "="
           eq_refl eq_refl eq_refl eq_refl eq_refl eq_refl eq_refl eq_refl).
Defined.



Lemma C8_redis_get_reaches_adapter :
  let a := RedisAdapter.as_adapter (RT := Sample.runtime)
             Sample.redis_client Sample.shape in
  let this := constructor a Sample.no_env in
  let t := Tool.make "redis_get" "Get value of a Redis key" [("key", "string")] ["key"] in
  let args := Some [("key", JS.Str "greeting")] in
  let w := {| adapter_state := Some []; calls := [] |} in
  adapter this = Some a
  /\ readOnly this = true
  /\ In t (ListTools this)
  /\ mutating (Tool.name t) = false
  /\ well_formed t args = true
  /\ method_of (Tool.name t) = "get"
  /\ reached (RT := Sample.runtime) a "get" [JS.Str "greeting"] w
       (@CallTool Sample.runtime _ this (Request.make (Tool.name t) args) w)
  /\ snd (invoke a "get" [JS.Str "greeting"] (adapter_state w))
     = Some [("get", [JS.Str "greeting"])].
Proof.
  cbv zeta.
  assert (H3 : In (Tool.make "redis_get" "Get value of a Redis key"
                     [("key", "string")] ["key"])
                  (ListTools
                     (constructor
                        (RedisAdapter.as_adapter (RT := Sample.runtime)
                           Sample.redis_client Sample.shape)
                        Sample.no_env)))
    by (simpl; tauto).
  split; [reflexivity | split; [reflexivity | split; [exact H3|]]].
  split; [reflexivity | split; [reflexivity | split; [reflexivity|]]].
  split; [|reflexivity].
  destruct (@C8_non_mutating_reaches_adapter Sample.runtime _
              (constructor
                 (RedisAdapter.as_adapter (RT := Sample.runtime)
                    Sample.redis_client Sample.shape)
                 Sample.no_env)
              (RedisAdapter.as_adapter (RT := Sample.runtime)
                 Sample.redis_client Sample.shape)
              (Tool.make "redis_get" "Get value of a Redis key"
                 [("key", "string")] ["key"])
              (Some [("key", JS.Str "greeting")])
              {| adapter_state := Some []; calls := [] |}
              eq_refl eq_refl H3 eq_refl eq_refl) as [o [Ho H]].
  injection Ho as <-. exact H.
Defined.
